(** * OBEX client: session manager and Bluetooth transport

    A shallow embedding of [obexd/client/session.c] and
    [obexd/client/bluetooth.c].  Pointers to heap objects are addresses
    into a finite map, GLib lists are Rocq lists, calls into collaborators
    that live outside these two files (the OBEX engine, D-Bus, the SDP and
    btio libraries, the transfer and agent subsystems, user callbacks) are
    recorded as events of a trace, and what those collaborators answer is
    an explicit argument of the function that asks. *)

From Stdlib Require Import ZArith NArith List String Ascii Bool Lia.
From stdpp Require Import base option list gmap strings pretty.

Local Open Scope Z_scope.

(** ** Errno values used by both files *)

Definition EIO : Z := 5.
Definition ENOMEM : Z := 12.
Definition EINVAL : Z := 22.
Definition EISCONN : Z := 106.
Definition ENOTCONN : Z := 107.
Definition EALREADY : Z := 114.

(** A [GError]: the quark of its domain is kept as the domain's name. *)
Record GError := { domain : string; code : Z; message : string }.

(** ** bluetooth.c: [bt_string2uuid] *)

Module Uuid.

(** *** The part of [sscanf] the format string uses

    [isspace] in the C locale. *)
Definition isspace (c : ascii) : bool :=
  let n := Z.of_nat (nat_of_ascii c) in
  (n =? 32) || ((9 <=? n) && (n <=? 13)).

(** Value of a hexadecimal digit, as [strtoul] with base 16 reads it. *)
Definition hex_digit (c : ascii) : option Z :=
  let n := Z.of_nat (nat_of_ascii c) in
  if (48 <=? n) && (n <=? 57) then Some (n - 48)
  else if (97 <=? n) && (n <=? 102) then Some (n - 87)
  else if (65 <=? n) && (n <=? 70) then Some (n - 55)
  else None.

Fixpoint skip_space (s : string) : string :=
  match s with
  | String c t => if isspace c then skip_space t else s
  | EmptyString => s
  end.

(** Reads at most [w] hexadecimal digits: the value read so far, how many
    digits were read, and the rest of the input. *)
Fixpoint take_hex (w : nat) (acc : Z) (n : nat) (s : string) : Z * nat * string :=
  match w, s with
  | S w', String c t =>
      match hex_digit c with
      | Some d => take_hex w' (acc * 16 + d) (S n) t
      | None => (acc, n, s)
      end
  | _, _ => (acc, n, s)
  end.

Definition is_sign (c : ascii) : bool :=
  (Ascii.eqb c "+"%char) || (Ascii.eqb c "-"%char).

Definition is_x (c : ascii) : bool :=
  (Ascii.eqb c "x"%char) || (Ascii.eqb c "X"%char).

(** One [%<w>x] conversion stored into an unsigned object of [bits] bits,
    as the [sscanf] of the GNU C library performs it: white space is
    skipped, then an optional sign, an optional [0x] and hexadecimal
    digits are read, at most [w] characters in all (the sign and the
    prefix count against the width).  What was read goes to [strtoul]
    with the [0] of the prefix standing for itself, so that a [0x] with
    no digit after it is converted to 0 and the input goes on behind it
    (C11 7.21.6.2 has a matching failure there).  With no digit at all
    the conversion fails: [None]. *)
Definition scan_hex (w : nat) (bits : Z) (s : string) : option (Z * string) :=
  let s := skip_space s in
  let '(neg, w, s) :=
    match w, s with
    | S w', String c t => if is_sign c then (Ascii.eqb c "-"%char, w', t) else (false, w, s)
    | _, _ => (false, w, s)
    end in
  let '(prefix, w, s) :=
    match w, s with
    | S (S w'), String c0 (String c1 t) =>
        if Ascii.eqb c0 "0"%char && is_x c1 then (true, w', t) else (false, w, s)
    | _, _ => (false, w, s)
    end in
  let '(v, n, rest) := take_hex w 0 0 s in
  match n, prefix with
  | O, false => None
  | _, _ => Some ((if neg : bool then - v else v) mod 2 ^ bits, rest)
  end.

(** The directives of a format string. *)
Inductive directive :=
  | Conv (width : nat) (bits : Z)
  | Lit (c : ascii).

(** ["%08x-%04hx-%04hx-%04hx-%08x%04hx"]: the flag [0] has no meaning for
    input, the width stays. *)
Definition uuid_format : list directive :=
  [Conv 8 32; Lit "-"; Conv 4 16; Lit "-"; Conv 4 16; Lit "-"; Conv 4 16;
   Lit "-"; Conv 8 32; Conv 4 16].

(** [sscanf]: the values assigned, in order, up to the first directive
    that fails.  Its return value is their number (or [EOF] when the
    input ends before the first conversion, which the caller's [== 6]
    does not tell from [0]). *)
Fixpoint sscanf (fmt : list directive) (s : string) : list Z :=
  match fmt with
  | [] => []
  | Conv w bits :: fmt' =>
      match scan_hex w bits s with
      | Some (v, rest) => v :: sscanf fmt' rest
      | None => []
      end
  | Lit c :: fmt' =>
      match s with
      | String c' t => if Ascii.eqb c c' then sscanf fmt' t else []
      | EmptyString => []
      end
  end.

(** *** Byte order

    The host's byte order is a parameter: [g_htonl] followed by [memcpy]
    of the object representation gives the same bytes on both. *)
Section Host.

Variable little_endian : bool.

Definition byte_of (x : Z) (i : Z) : Z := Z.land (Z.shiftr x (8 * i)) 255.

Definition bswap32 (x : Z) : Z :=
  Z.lor (Z.shiftl (byte_of x 0) 24)
    (Z.lor (Z.shiftl (byte_of x 1) 16) (Z.lor (Z.shiftl (byte_of x 2) 8) (byte_of x 3))).

Definition bswap16 (x : Z) : Z := Z.lor (Z.shiftl (byte_of x 0) 8) (byte_of x 1).

Definition g_htonl (x : Z) : Z := if little_endian then bswap32 x else x.
Definition g_htons (x : Z) : Z := if little_endian then bswap16 x else x.

(** Object representation of a [uint32_t] and of a [uint16_t], lowest
    address first: what [memcpy] copies. *)
Definition repr32 (x : Z) : list Z :=
  if little_endian then [byte_of x 0; byte_of x 1; byte_of x 2; byte_of x 3]
  else [byte_of x 3; byte_of x 2; byte_of x 1; byte_of x 0].

Definition repr16 (x : Z) : list Z :=
  if little_endian then [byte_of x 0; byte_of x 1] else [byte_of x 1; byte_of x 0].

(** [bt_string2uuid]: the return value and, when it is 0, the sixteen
    bytes handed to [sdp_uuid128_create]. *)
Definition bt_string2uuid (string : string) : Z * option (list Z) :=
  match sscanf uuid_format string with
  | [data0; data1; data2; data3; data4; data5] =>
      let data0 := g_htonl data0 in
      let data1 := g_htons data1 in
      let data2 := g_htons data2 in
      let data3 := g_htons data3 in
      let data4 := g_htonl data4 in
      let data5 := g_htons data5 in
      (0, Some (repr32 data0 ++ repr16 data1 ++ repr16 data2 ++ repr16 data3
                  ++ repr32 data4 ++ repr16 data5))
  | _ => (- EINVAL, None)
  end.

End Host.

(** *** The canonical format, in the words of the specification

    Five groups of 8, 4, 4, 4 and 12 hexadecimal digits separated by
    dashes. *)
Fixpoint all_hex (s : string) : bool :=
  match s with
  | EmptyString => true
  | String c t => match hex_digit c with Some _ => all_hex t | None => false end
  end.

Definition is_dash (s : string) (i : nat) : bool :=
  match String.get i s with Some c => Ascii.eqb c "-"%char | None => false end.

Definition canonical_uuid (s : string) : bool :=
  (String.length s =? 36)%nat
  && all_hex (substring 0 8 s) && is_dash s 8
  && all_hex (substring 9 4 s) && is_dash s 13
  && all_hex (substring 14 4 s) && is_dash s 18
  && all_hex (substring 19 4 s) && is_dash s 23
  && all_hex (substring 24 12 s).

(** The value a string of hexadecimal digits denotes, two digits a byte,
    most significant first; characters that are no digits are skipped. *)
Fixpoint hex_values (s : string) : list Z :=
  match s with
  | EmptyString => []
  | String c t =>
      match hex_digit c with
      | Some d => d :: hex_values t
      | None => hex_values t
      end
  end.

Fixpoint pair_bytes (ds : list Z) : list Z :=
  match ds with
  | hi :: lo :: t => (16 * hi + lo) :: pair_bytes t
  | _ => []
  end.

Definition network_bytes (s : string) : list Z := pair_bytes (hex_values s).

End Uuid.

(** ** Facts about [bt_string2uuid] *)

Module UuidFacts.
Import Uuid.

Lemma hex_digit_char c d :
  hex_digit c = Some d ->
  0 <= d < 16 /\ isspace c = false /\ is_sign c = false /\ is_x c = false.
Proof.
  destruct c as [[] [] [] [] [] [] [] []]; vm_compute; intros H;
    try discriminate H; injection H as <-; repeat split; congruence.
Qed.

Definition hex_number (acc : Z) (s : string) : Z :=
  fold_left (fun a d => a * 16 + d) (hex_values s) acc.

Lemma take_hex_all ds : forall w acc n rest,
  all_hex ds = true -> String.length ds = w ->
  take_hex w acc n (ds ++ rest) = (hex_number acc ds, (n + w)%nat, rest).
Proof.
  induction ds as [|c ds IH]; intros w acc n rest Hall Hlen.
  - simpl in Hlen. subst w. simpl. rewrite Nat.add_0_r. by destruct rest.
  - simpl in Hlen. subst w. simpl in Hall |- *.
    unfold hex_number. simpl.
    destruct (hex_digit c) as [d|] eqn:Hc; [|discriminate].
    rewrite (IH _ _ _ _ Hall eq_refl). unfold hex_number. f_equal. f_equal. lia.
Qed.

Lemma scan_hex_group w bits ds rest :
  all_hex ds = true -> String.length ds = w -> (2 <= w)%nat ->
  scan_hex w bits (ds ++ rest) = Some (hex_number 0 ds mod 2 ^ bits, rest).
Proof.
  intros Hall Hlen Hw.
  destruct ds as [|c0 [|c1 ds]]; simpl in Hlen; try lia.
  pose proof Hall as Hall'. simpl in Hall'.
  destruct (hex_digit c0) as [d0|] eqn:H0; [|discriminate].
  destruct (hex_digit c1) as [d1|] eqn:H1; [|discriminate].
  destruct (hex_digit_char _ _ H0) as (_ & Hsp & Hsg & _).
  destruct (hex_digit_char _ _ H1) as (_ & _ & _ & Hx).
  unfold scan_hex. subst w.
  change (String c0 (String c1 ds) +:+ rest) with (String c0 (String c1 (ds +:+ rest))).
  cbn [skip_space]. rewrite Hsp, Hsg, Hx, andb_false_r.
  change (String c0 (String c1 (ds +:+ rest))) with (String c0 (String c1 ds) +:+ rest).
  by rewrite (take_hex_all _ _ _ _ _ Hall eq_refl).
Qed.

Lemma testbit_255 n : 0 <= n -> Z.testbit 255 n = (n <? 8).
Proof. intros Hn. change 255 with (Z.ones 8). by apply Z.testbit_ones_nonneg. Qed.

Lemma byte_of_testbit x i n :
  0 <= n -> Z.testbit (byte_of x i) n = Z.testbit x (n + 8 * i) && (n <? 8).
Proof.
  intros Hn. unfold byte_of. by rewrite Z.land_spec, Z.shiftr_spec, testbit_255.
Qed.

Lemma shiftl_byte_testbit x i k n :
  0 <= n -> 0 <= k ->
  Z.testbit (Z.shiftl (byte_of x i) k) n
  = (k <=? n) && Z.testbit x (n - k + 8 * i) && (n - k <? 8).
Proof.
  intros Hn Hk. rewrite Z.shiftl_spec by done.
  destruct (Z.leb_spec k n).
  - rewrite byte_of_testbit by lia. done.
  - by rewrite Z.testbit_neg_r by lia.
Qed.

Ltac byte_bits :=
  apply Z.bits_inj'; intros n Hn;
  unfold bswap32, bswap16;
  rewrite ?byte_of_testbit, ?Z.lor_spec, ?shiftl_byte_testbit, ?byte_of_testbit by lia;
  repeat match goal with
         | |- context [?a <=? ?b] => destruct (Z.leb_spec a b); try lia
         | |- context [?a <? ?b] => destruct (Z.ltb_spec a b); try lia
         end;
  cbn [andb orb];
  rewrite ?andb_true_r, ?andb_false_r, ?orb_false_r; cbn [andb orb];
  try reflexivity; f_equal; lia.

Lemma byte_of_bswap32 x :
  byte_of (bswap32 x) 0 = byte_of x 3 /\ byte_of (bswap32 x) 1 = byte_of x 2 /\
  byte_of (bswap32 x) 2 = byte_of x 1 /\ byte_of (bswap32 x) 3 = byte_of x 0.
Proof. repeat split; byte_bits. Qed.

Lemma byte_of_bswap16 x :
  byte_of (bswap16 x) 0 = byte_of x 1 /\ byte_of (bswap16 x) 1 = byte_of x 0.
Proof. split; byte_bits. Qed.

(** Converting to network order and copying the object representation
    yields the most significant byte first, whatever the host's order. *)
Lemma repr32_htonl le x :
  repr32 le (g_htonl le x) = [byte_of x 3; byte_of x 2; byte_of x 1; byte_of x 0].
Proof.
  unfold repr32, g_htonl. destruct le; [|done].
  destruct (byte_of_bswap32 x) as (-> & -> & -> & ->). done.
Qed.

Lemma repr16_htons le x : repr16 le (g_htons le x) = [byte_of x 1; byte_of x 0].
Proof.
  unfold repr16, g_htons. destruct le; [|done].
  destruct (byte_of_bswap16 x) as (-> & ->). done.
Qed.

Lemma byte_of_div x i : 0 <= i -> byte_of x i = (x / 2 ^ (8 * i)) mod 256.
Proof.
  intros Hi. unfold byte_of. rewrite Z.shiftr_div_pow2 by lia.
  change 255 with (Z.ones 8). by rewrite Z.land_ones.
Qed.

Lemma bytes_of_base256_32 b0 b1 b2 b3 :
  0 <= b0 < 256 -> 0 <= b1 < 256 -> 0 <= b2 < 256 -> 0 <= b3 < 256 ->
  let x := ((b0 * 256 + b1) * 256 + b2) * 256 + b3 in
  [byte_of x 3; byte_of x 2; byte_of x 1; byte_of x 0] = [b0; b1; b2; b3].
Proof.
  intros ? ? ? ? x. subst x. rewrite !byte_of_div by lia.
  change (2 ^ (8 * 3)) with 16777216. change (2 ^ (8 * 2)) with 65536.
  change (2 ^ (8 * 1)) with 256. change (2 ^ (8 * 0)) with 1.
  repeat f_equal; Z.div_mod_to_equations; lia.
Qed.

Lemma bytes_of_base256_16 b0 b1 :
  0 <= b0 < 256 -> 0 <= b1 < 256 ->
  let x := b0 * 256 + b1 in [byte_of x 1; byte_of x 0] = [b0; b1].
Proof.
  intros ? ? x. subst x. rewrite !byte_of_div by lia.
  change (2 ^ (8 * 1)) with 256. change (2 ^ (8 * 0)) with 1.
  repeat f_equal; Z.div_mod_to_equations; lia.
Qed.

Ltac hex_chars H :=
  repeat match type of H with
         | context [hex_digit ?c] =>
             let d := fresh "d" in
             let E := fresh "E" in
             destruct (hex_digit c) as [d|] eqn:E; [|discriminate H];
             apply hex_digit_char in E as (E & _)
         end.

Lemma group32_bytes le g :
  all_hex g = true -> String.length g = 8%nat ->
  repr32 le (g_htonl le (hex_number 0 g mod 2 ^ 32)) = network_bytes g.
Proof.
  intros Hall Hlen. rewrite repr32_htonl.
  do 8 (destruct g as [|? g]; [discriminate Hlen|]). destruct g; [|discriminate Hlen].
  unfold network_bytes, hex_number. cbn [all_hex hex_values] in *.
  hex_chars Hall. cbn [fold_left pair_bytes].
  rewrite Z.mod_small by (change (2 ^ 32) with 4294967296; lia).
  rewrite <- (bytes_of_base256_32 (16 * d + d0) (16 * d1 + d2) (16 * d3 + d4) (16 * d5 + d6))
    by lia.
  cbv zeta.
  match goal with
  | |- byte_of ?v _ :: _ = byte_of ?x _ :: _ => replace v with x by ring
  end.
  reflexivity.
Qed.

Lemma group16_bytes le g :
  all_hex g = true -> String.length g = 4%nat ->
  repr16 le (g_htons le (hex_number 0 g mod 2 ^ 16)) = network_bytes g.
Proof.
  intros Hall Hlen. rewrite repr16_htons.
  do 4 (destruct g as [|? g]; [discriminate Hlen|]). destruct g; [|discriminate Hlen].
  unfold network_bytes, hex_number. cbn [all_hex hex_values] in *.
  hex_chars Hall. cbn [fold_left pair_bytes].
  rewrite Z.mod_small by (change (2 ^ 16) with 65536; lia).
  rewrite <- (bytes_of_base256_16 (16 * d + d0) (16 * d1 + d2)) by lia.
  cbv zeta.
  match goal with
  | |- byte_of ?v _ :: _ = byte_of ?x _ :: _ => replace v with x by ring
  end.
  reflexivity.
Qed.

Lemma append_cons c a b : String c a +:+ b = String c (a +:+ b).
Proof. reflexivity. Qed.

Lemma all_hex_app a b : all_hex (a +:+ b) = all_hex a && all_hex b.
Proof.
  induction a as [|c a IH]; [done|]. rewrite append_cons. cbn [all_hex].
  by destruct (hex_digit c).
Qed.

Lemma hex_values_app a b : hex_values (a +:+ b) = hex_values a ++ hex_values b.
Proof.
  induction a as [|c a IH]; [done|]. rewrite append_cons. cbn [hex_values].
  destruct (hex_digit c); by rewrite IH.
Qed.

Lemma hex_values_length g : all_hex g = true -> length (hex_values g) = String.length g.
Proof.
  induction g as [|c g IH]; [done|]. cbn [all_hex hex_values String.length].
  destruct (hex_digit c); [|done]. intros H. cbn [length]. by rewrite IH.
Qed.

Lemma pair_bytes_app n : forall a b,
  length a = (2 * n)%nat -> pair_bytes (a ++ b) = pair_bytes a ++ pair_bytes b.
Proof.
  induction n as [|n IH]; intros [|x [|y a]] b Hn; cbn [length] in Hn; try lia.
  - done.
  - cbn [app pair_bytes]. f_equal. apply IH. lia.
Qed.

Lemma network_bytes_app a b n :
  all_hex a = true -> String.length a = (2 * n)%nat ->
  network_bytes (a +:+ b) = network_bytes a ++ network_bytes b.
Proof.
  intros Ha Hn. unfold network_bytes. rewrite hex_values_app.
  apply pair_bytes_app with (n := n). by rewrite hex_values_length.
Qed.

Lemma network_bytes_dash b : network_bytes (String "-" b) = network_bytes b.
Proof. reflexivity. Qed.

(** A canonical string splits into its six fields as the format string
    reads them: the last group of twelve digits is read as eight and
    four. *)
Lemma canonical_split s :
  canonical_uuid s = true ->
  exists g1 g2 g3 g4 g5 g6,
    s = g1 +:+ String "-" (g2 +:+ String "-" (g3 +:+ String "-"
          (g4 +:+ String "-" (g5 +:+ g6)))) /\
    (all_hex g1 = true /\ String.length g1 = 8%nat) /\
    (all_hex g2 = true /\ String.length g2 = 4%nat) /\
    (all_hex g3 = true /\ String.length g3 = 4%nat) /\
    (all_hex g4 = true /\ String.length g4 = 4%nat) /\
    (all_hex g5 = true /\ String.length g5 = 8%nat) /\
    (all_hex g6 = true /\ String.length g6 = 4%nat).
Proof.
  unfold canonical_uuid. intros H.
  repeat (apply andb_prop in H as [H ?]). apply Nat.eqb_eq in H.
  exists (substring 0 8 s), (substring 9 4 s), (substring 14 4 s),
    (substring 19 4 s), (substring 24 8 s), (substring 32 4 s).
  do 36 (destruct s as [|? s]; [discriminate H|]). destruct s; [|discriminate H].
  unfold is_dash in *. cbn [String.get substring] in *.
  repeat match goal with
         | E : (_ =? "-")%char = true |- _ => apply Ascii.eqb_eq in E; subst
         end.
  split; [reflexivity|].
  repeat match goal with
         | E : all_hex _ = true |- _ => revert E
         end.
  cbn [all_hex String.length].
  repeat match goal with
         | |- context [hex_digit ?c] => destruct (hex_digit c); try discriminate
         end.
  intros. repeat split.
Qed.

Lemma append_empty_r a : a +:+ "" = a.
Proof. induction a as [|c a IH]; [done|]. by rewrite append_cons, IH. Qed.

Lemma sscanf_canonical g1 g2 g3 g4 g5 g6 :
  (all_hex g1 = true /\ String.length g1 = 8%nat) ->
  (all_hex g2 = true /\ String.length g2 = 4%nat) ->
  (all_hex g3 = true /\ String.length g3 = 4%nat) ->
  (all_hex g4 = true /\ String.length g4 = 4%nat) ->
  (all_hex g5 = true /\ String.length g5 = 8%nat) ->
  (all_hex g6 = true /\ String.length g6 = 4%nat) ->
  sscanf uuid_format
    (g1 +:+ String "-" (g2 +:+ String "-" (g3 +:+ String "-"
       (g4 +:+ String "-" (g5 +:+ g6)))))
  = [hex_number 0 g1 mod 2 ^ 32; hex_number 0 g2 mod 2 ^ 16;
     hex_number 0 g3 mod 2 ^ 16; hex_number 0 g4 mod 2 ^ 16;
     hex_number 0 g5 mod 2 ^ 32; hex_number 0 g6 mod 2 ^ 16].
Proof.
  intros [] [] [] [] [] []. unfold uuid_format.
  rewrite <- (append_empty_r g6) at 1.
  repeat (cbn [sscanf]; rewrite scan_hex_group by (done || lia);
          cbn [sscanf]; rewrite ?Ascii.eqb_refl).
  reflexivity.
Qed.

(** Every outcome of [bt_string2uuid] is one of the two the code has. *)
Lemma bt_string2uuid_outcomes le s :
  (exists val, bt_string2uuid le s = (0, Some val) /\ length val = 16%nat)
  \/ bt_string2uuid le s = (- EINVAL, None).
Proof.
  unfold bt_string2uuid.
  destruct (sscanf uuid_format s) as [|? [|? [|? [|? [|? [|? [|? l]]]]]]]; auto.
  left. eexists. split; [reflexivity|]. by destruct le.
Qed.

(** C8, as the code has it: every canonical 8-4-4-4-12 string is
    accepted, the return value is 0 and the value produced is the sixteen
    bytes its digits denote, most significant first (network order), on a
    host of either byte order. *)
Theorem bt_string2uuid_canonical le s :
  canonical_uuid s = true ->
  bt_string2uuid le s = (0, Some (network_bytes s))
  /\ length (network_bytes s) = 16%nat.
Proof.
  intros Hs.
  destruct (canonical_split s Hs)
    as (g1 & g2 & g3 & g4 & g5 & g6 & -> & H1 & H2 & H3 & H4 & H5 & H6).
  assert (Hnb :
    network_bytes (g1 +:+ String "-" (g2 +:+ String "-" (g3 +:+ String "-"
       (g4 +:+ String "-" (g5 +:+ g6)))))
    = network_bytes g1 ++ network_bytes g2 ++ network_bytes g3
      ++ network_bytes g4 ++ network_bytes g5 ++ network_bytes g6).
  { destruct H1, H2, H3, H4, H5, H6.
    rewrite (network_bytes_app g1 _ 4), network_bytes_dash by done.
    rewrite (network_bytes_app g2 _ 2), network_bytes_dash by done.
    rewrite (network_bytes_app g3 _ 2), network_bytes_dash by done.
    rewrite (network_bytes_app g4 _ 2), network_bytes_dash by done.
    by rewrite (network_bytes_app g5 _ 4) by done. }
  unfold bt_string2uuid. rewrite sscanf_canonical by done. rewrite Hnb.
  destruct H1, H2, H3, H4, H5, H6.
  rewrite !group32_bytes, !group16_bytes by done.
  split; [reflexivity|].
  rewrite <- (group32_bytes true g1), <- (group16_bytes true g2),
    <- (group16_bytes true g3), <- (group16_bytes true g4),
    <- (group32_bytes true g5), <- (group16_bytes true g6) by done.
  reflexivity.
Qed.

Lemma bt_string2uuid_canonical_witness :
  bt_string2uuid true "00001105-0000-1000-8000-00805f9b34fb"
  = (0, Some [0; 0; 17; 5; 0; 0; 16; 0; 128; 0; 0; 128; 95; 155; 52; 251]).
Proof.
  exact (proj1 (bt_string2uuid_canonical true
                  "00001105-0000-1000-8000-00805f9b34fb" eq_refl)).
Defined.

(** C8, as the claim states it, fails: a string that is not in the
    canonical format (characters follow the last group; groups are
    shorter than their width) is accepted, because [sscanf] stops
    reading once its six conversions are done and a width is an upper
    bound only. *)
Lemma bt_string2uuid_accepts_noncanonical :
  (canonical_uuid "00001105-0000-1000-8000-00805f9b34fb-obex" = false
   /\ bt_string2uuid true "00001105-0000-1000-8000-00805f9b34fb-obex"
      = (0, Some [0; 0; 17; 5; 0; 0; 16; 0; 128; 0; 0; 128; 95; 155; 52; 251]))
  /\ (canonical_uuid "1-2-3-4-123456789" = false
      /\ bt_string2uuid true "1-2-3-4-123456789"
         = (0, Some [0; 0; 0; 1; 0; 2; 0; 3; 0; 4; 18; 52; 86; 120; 0; 9]))
  /\ ~ (forall le s, canonical_uuid s = false -> bt_string2uuid le s = (- EINVAL, None)).
Proof.
  split; [|split]; [by vm_compute | by vm_compute |].
  intros H. specialize (H true "1-2-3-4-123456789" eq_refl). vm_compute in H. discriminate H.
Qed.

End UuidFacts.

(** ** session.c: data *)

Module Session.

(** Identity of a [struct obc_session] (its address) and of a
    [struct obc_transfer]. *)
Definition addr := nat.
Definition transfer := nat.

(** [gint], as [g_atomic_int_inc] and [g_atomic_int_dec_and_test] leave
    it: 32 bits, two's complement. *)
Definition gint (z : Z) : Z := (z + 2 ^ 31) mod 2 ^ 32 - 2 ^ 31.

(** [g_strcmp0] compared with 0: it handles [NULL], which equals only
    [NULL]. *)
Definition g_strcmp0_eq (a b : option string) : bool :=
  match a, b with
  | None, None => true
  | Some x, Some y => String.eqb x y
  | _, _ => false
  end.

(** The fields of [struct obc_driver] and [struct obc_transport] these
    functions read; a function pointer is kept as whether it is set. *)
Record obc_driver := {
  service : string;
  uuid : string;
  target : option (list Z);
  probe : bool;
  remove : bool
}.

Record obc_transport := { name : string }.

Record obc_agent := { agent_name : string; agent_path : string }.

(** A [session_callback_t] of a caller is known by its identity. *)
Record session_callback := { sc_func : nat; sc_data : nat }.

Record callback_data := { cd_session : addr; cd_func : option nat; cd_data : nat }.

(** The two functions of this file that are passed as [pending->cb]. *)
Inductive prepare := session_prepare_get_cb | session_prepare_put_cb.

Record pending_data := { pd_cb : prepare; pd_session : addr; pd_transfer : transfer }.

Record obc_session := {
  id : Z;
  refcount : Z;
  source : option string;
  destination : option string;
  channel : Z;
  transport : option obc_transport;
  driver : obc_driver;
  path : option string;
  conn : option nat;
  obex : option nat;
  agent : option obc_agent;
  callback : option session_callback;
  owner : option string;
  watch : Z;
  pending : list transfer
}.

Definition set_id v x :=
  {| id := v; refcount := refcount x; source := source x; destination := destination x;
     channel := channel x; transport := transport x; driver := driver x; path := path x;
     conn := conn x; obex := obex x; agent := agent x; callback := callback x;
     owner := owner x; watch := watch x; pending := pending x |}.
Definition set_refcount v x :=
  {| id := id x; refcount := v; source := source x; destination := destination x;
     channel := channel x; transport := transport x; driver := driver x; path := path x;
     conn := conn x; obex := obex x; agent := agent x; callback := callback x;
     owner := owner x; watch := watch x; pending := pending x |}.
Definition set_path v x :=
  {| id := id x; refcount := refcount x; source := source x; destination := destination x;
     channel := channel x; transport := transport x; driver := driver x; path := v;
     conn := conn x; obex := obex x; agent := agent x; callback := callback x;
     owner := owner x; watch := watch x; pending := pending x |}.
Definition set_obex v x :=
  {| id := id x; refcount := refcount x; source := source x; destination := destination x;
     channel := channel x; transport := transport x; driver := driver x; path := path x;
     conn := conn x; obex := v; agent := agent x; callback := callback x;
     owner := owner x; watch := watch x; pending := pending x |}.
Definition set_agent v x :=
  {| id := id x; refcount := refcount x; source := source x; destination := destination x;
     channel := channel x; transport := transport x; driver := driver x; path := path x;
     conn := conn x; obex := obex x; agent := v; callback := callback x;
     owner := owner x; watch := watch x; pending := pending x |}.
Definition set_callback v x :=
  {| id := id x; refcount := refcount x; source := source x; destination := destination x;
     channel := channel x; transport := transport x; driver := driver x; path := path x;
     conn := conn x; obex := obex x; agent := agent x; callback := v;
     owner := owner x; watch := watch x; pending := pending x |}.
Definition set_owner v x :=
  {| id := id x; refcount := refcount x; source := source x; destination := destination x;
     channel := channel x; transport := transport x; driver := driver x; path := path x;
     conn := conn x; obex := obex x; agent := agent x; callback := callback x;
     owner := v; watch := watch x; pending := pending x |}.
Definition set_watch v x :=
  {| id := id x; refcount := refcount x; source := source x; destination := destination x;
     channel := channel x; transport := transport x; driver := driver x; path := path x;
     conn := conn x; obex := obex x; agent := agent x; callback := callback x;
     owner := owner x; watch := v; pending := pending x |}.
Definition set_pending v x :=
  {| id := id x; refcount := refcount x; source := source x; destination := destination x;
     channel := channel x; transport := transport x; driver := driver x; path := path x;
     conn := conn x; obex := obex x; agent := agent x; callback := callback x;
     owner := owner x; watch := watch x; pending := v |}.

(** What the session needs of a transfer object ([transfer.c] is a
    collaborator): its D-Bus path, its size, and whether one of its start
    entry points has been entered and it has not been unregistered
    since. *)
Inductive direction := Get | Put.

Record xfer := {
  xfer_path : option string;
  xfer_size : Z;
  xfer_started : option direction
}.

(** Sources queued with [g_idle_add]. *)
Inductive idle_source :=
  | connection_complete_src (cb : callback_data)
  | session_request_proceed_src (pd : pending_data).

(** Calls that leave the file. *)
Inductive event :=
  | Callback (func : nat) (session : addr) (err : option GError) (data : nat)
  | TransportConnect (source destination : option string) (uuid : string)
      (channel : Z) (cb : callback_data)
  | TransportDisconnect (id : Z)
  | ObexConnect (obex : nat) (target : option (list Z)) (cb : callback_data)
  | ObexUnref (obex : nat)
  | AgentRequest (a : obc_agent) (path : string) (pd : pending_data) (ret : Z)
  | AgentNotifyProgress (a : obc_agent) (path : string) (transferred : Z)
  | AgentNotifyComplete (a : obc_agent) (path : string)
  | AgentNotifyError (a : obc_agent) (path : string) (msg : string)
  | AgentRelease (a : obc_agent)
  | AgentFree (a : obc_agent)
  | AgentCreate (a : obc_agent)
  | TransferRegister (t : transfer) (agent filename targetname type : option string)
  | TransferUnregister (t : transfer)
  | TransferSetName (t : transfer) (name : string)
  | TransferSetFile (t : transfer) (ret : Z)
  | TransferSetBuffer (t : transfer) (buf : string)
  | TransferGet (t : transfer) (ret : Z)
  | TransferPut (t : transfer) (ret : Z)
  | DriverProbe (session : addr) (ret : Z)
  | DriverRemove (session : addr)
  | RegisterInterface (path : string) (ok : bool)
  | UnregisterInterface (path : option string)
  | AddDisconnectWatch (name : string) (session : addr) (watch : Z)
  | RemoveWatch (watch : Z)
  | ConnectionUnref (conn : nat)
  | Free (session : addr).

Record world := {
  heap : gmap addr obc_session;
  next_addr : addr;
  sessions : list addr;
  counter : Z;
  transfers : gmap transfer xfer;
  next_transfer : transfer;
  idle : list idle_source;
  trace : list event
}.

Definition with_heap v w :=
  {| heap := v; next_addr := next_addr w; sessions := sessions w; counter := counter w;
     transfers := transfers w; next_transfer := next_transfer w; idle := idle w;
     trace := trace w |}.
Definition with_next_addr v w :=
  {| heap := heap w; next_addr := v; sessions := sessions w; counter := counter w;
     transfers := transfers w; next_transfer := next_transfer w; idle := idle w;
     trace := trace w |}.
Definition with_sessions v w :=
  {| heap := heap w; next_addr := next_addr w; sessions := v; counter := counter w;
     transfers := transfers w; next_transfer := next_transfer w; idle := idle w;
     trace := trace w |}.
Definition with_counter v w :=
  {| heap := heap w; next_addr := next_addr w; sessions := sessions w; counter := v;
     transfers := transfers w; next_transfer := next_transfer w; idle := idle w;
     trace := trace w |}.
Definition with_transfers v w :=
  {| heap := heap w; next_addr := next_addr w; sessions := sessions w; counter := counter w;
     transfers := v; next_transfer := next_transfer w; idle := idle w;
     trace := trace w |}.
Definition with_next_transfer v w :=
  {| heap := heap w; next_addr := next_addr w; sessions := sessions w; counter := counter w;
     transfers := transfers w; next_transfer := v; idle := idle w;
     trace := trace w |}.
Definition with_idle v w :=
  {| heap := heap w; next_addr := next_addr w; sessions := sessions w; counter := counter w;
     transfers := transfers w; next_transfer := next_transfer w; idle := v;
     trace := trace w |}.
Definition with_trace v w :=
  {| heap := heap w; next_addr := next_addr w; sessions := sessions w; counter := counter w;
     transfers := transfers w; next_transfer := next_transfer w; idle := idle w;
     trace := v |}.

(** *** State and undefined behaviour

    A function of the file is a state transformer that may fail: [None]
    is undefined behaviour of the C program (a freed or null object is
    dereferenced, an object is freed twice). *)
Definition M (A : Type) : Type := world -> option (A * world).

Definition ret {A} (a : A) : M A := fun w => Some (a, w).

Definition bind {A B} (m : M A) (k : A -> M B) : M B :=
  fun w => match m w with Some (a, w') => k a w' | None => None end.

Declare Scope session_scope.
Delimit Scope session_scope with session.
Notation "'let*' x ':=' m 'in' k" := (bind m (fun x => k))
  (at level 10, x pattern, m at level 100, k at level 200) : session_scope.
Notation "m >> k" := (bind m (fun _ => k))
  (at level 90, right associativity) : session_scope.
Local Open Scope session_scope.

Definition undefined {A} : M A := fun _ => None.

Definition when (b : bool) (m : M unit) : M unit := if b then m else ret tt.

Definition the_world : M world := fun w => Some (w, w).

Definition load (s : addr) : M obc_session :=
  fun w => match heap w !! s with Some x => Some (x, w) | None => None end.

Definition store (s : addr) (x : obc_session) : M unit :=
  fun w => Some (tt, with_heap (<[s := x]> (heap w)) w).

Definition modify (s : addr) (f : obc_session -> obc_session) : M unit :=
  let* x := load s in store s (f x).

Definition emit (e : event) : M unit :=
  fun w => Some (tt, with_trace (trace w ++ [e]) w).

Definition g_idle_add (src : idle_source) : M unit :=
  fun w => Some (tt, with_idle (idle w ++ [src]) w).

Definition is_some {A} (o : option A) : bool :=
  match o with Some _ => true | None => false end.

(** [g_slist_remove]: the first element equal to [x] goes. *)
Fixpoint g_slist_remove (l : list nat) (x : nat) : list nat :=
  match l with
  | [] => []
  | y :: l' => if Nat.eqb y x then l' else y :: g_slist_remove l' x
  end.

Definition g_slist_find (l : list nat) (x : nat) : bool := existsb (Nat.eqb x) l.

(** *** Reference counting and destruction *)

Definition obc_session_ref (session : addr) : M addr :=
  modify session (fun x => set_refcount (gint (refcount x + 1)) x) >> ret session.

Definition session_unregistered (session : addr) : M unit :=
  let* x := load session in
  when (remove (driver x)) (emit (DriverRemove session)) >>
  let path := path x in
  store session (set_path None x) >>
  emit (UnregisterInterface path).

Definition session_free (session : addr) : M unit :=
  let* x := load session in
  match agent x with
  | Some a => emit (AgentRelease a) >> emit (AgentFree a)
  | None => ret tt
  end >>
  when (negb (watch x =? 0)) (emit (RemoveWatch (watch x))) >>
  match obex x with Some o => emit (ObexUnref o) | None => ret tt end >>
  when ((0 <? id x) && is_some (transport x)) (emit (TransportDisconnect (id x))) >>
  when (is_some (path x)) (session_unregistered session) >>
  match conn x with Some c => emit (ConnectionUnref c) | None => ret tt end >>
  (fun w => Some (tt, with_sessions (g_slist_remove (sessions w) session) w)) >>
  (fun w => Some (tt, with_heap (delete session (heap w)) w)) >>
  emit (Free session).

Definition obc_session_unref (session : addr) : M unit :=
  let* x := load session in
  let rc := gint (refcount x - 1) in
  store session (set_refcount rc x) >>
  if rc =? 0 then session_free session else ret tt.

(** *** Connecting

    ["%02x"] of a response code. *)
Definition hex_char (d : Z) : ascii :=
  ascii_of_nat (Z.to_nat (if d <? 10 then 48 + d else 87 + d)).

Definition hex02 (v : Z) : string :=
  String (hex_char (v / 16 mod 16)) (String (hex_char (v mod 16)) "").

Definition OBEX_IO_ERROR : string := "obex-io-error-quark".
Definition G_OBEX_RSP_SUCCESS : Z := 32.

(** [callback->func(callback->session, gerr, callback->data)]: the
    caller's function is outside the file; calling it is an event. *)
Definition call_func (cb : callback_data) (err : option GError) : M unit :=
  match cd_func cb with
  | Some f => emit (Callback f (cd_session cb) err (cd_data cb))
  | None => undefined
  end.

(** [connect_cb]: [err] is the error the OBEX engine reports, [rsp_code]
    what [g_obex_packet_get_operation] answers for the response. *)
Definition connect_cb (err : option GError) (rsp_code : Z) (callback : callback_data)
  : M unit :=
  let gerr :=
    match err with
    | Some e => Some e
    | None =>
        if rsp_code =? G_OBEX_RSP_SUCCESS then None
        else Some {| domain := OBEX_IO_ERROR; code := - EIO;
                     message := "OBEX Connect failed with 0x" +:+ hex02 rsp_code |}
    end in
  call_func callback gerr >>
  obc_session_unref (cd_session callback).

(** [transport_func]: [obex_new] is what [g_obex_new] returns and
    [connect_err] the error [g_obex_connect] leaves in [err]. *)
Definition transport_func (io : option nat) (err : option GError)
    (obex_new : option nat) (connect_err : option GError)
    (callback : callback_data) : M unit :=
  let session := cd_session callback in
  let* x := load session in
  let driver := driver x in
  let done (err : option GError) :=
    call_func callback err >> obc_session_unref session in
  match err with
  | Some _ => done err
  | None =>
      match obex_new with
      | None => done err
      | Some obex =>
          emit (ObexConnect obex (target driver) callback) >>
          match connect_err with
          | Some _ => emit (ObexUnref obex) >> done connect_err
          | None =>
              modify session (set_obex (Some obex)) >>
              (fun w => Some (tt, with_sessions (session :: sessions w) w))
          end
      end
  end.

(** [obc_session_set_owner]: [new_watch] is what
    [g_dbus_add_disconnect_watch] returns. *)
Definition obc_session_set_owner (session : addr) (name : string) (new_watch : Z)
  : M Z :=
  let* x := load session in
  when (negb (watch x =? 0)) (emit (RemoveWatch (watch x))) >>
  emit (AddDisconnectWatch name session new_watch) >>
  modify session (set_watch new_watch) >>
  if new_watch =? 0 then ret (- EINVAL)
  else modify session (set_owner (Some name)) >> ret 0.

(** The tests of the loop body of [session_find], in its order. *)
Definition session_matches (source destination service : option string)
    (channel : Z) (owner : option string) (x : obc_session) : bool :=
  g_strcmp0_eq (Session.destination x) destination
  && g_strcmp0_eq service (Some (Session.service (driver x)))
  && negb (is_some source && negb (g_strcmp0_eq (Session.source x) source))
  && negb (negb (channel =? 0) && negb (Session.channel x =? channel))
  && g_strcmp0_eq owner (Session.owner x).

Fixpoint session_find_in (l : list addr) (source destination service : option string)
    (channel : Z) (owner : option string) : M (option addr) :=
  match l with
  | [] => ret None
  | session :: l' =>
      let* x := load session in
      if session_matches source destination service channel owner x
      then ret (Some session)
      else session_find_in l' source destination service channel owner
  end.

Definition session_find (source destination service : option string)
    (channel : Z) (owner : option string) : M (option addr) :=
  let* w := the_world in
  session_find_in (sessions w) source destination service channel owner.

Definition connection_complete (cb : callback_data) : M unit :=
  call_func cb None >>
  obc_session_unref (cd_session cb).

(** [session_connect]: [callback_alloc] tells whether [g_try_malloc0]
    succeeds, [connect_id] is what [transport->connect] returns. *)
Definition session_connect (session : addr) (function : option nat) (user_data : nat)
    (callback_alloc : bool) (connect_id : Z) : M Z :=
  let* x := load session in
  let transport := transport x in
  let driver := driver x in
  if negb callback_alloc then ret (- ENOMEM)
  else
    let* r := obc_session_ref session in
    let callback := {| cd_session := r; cd_func := function; cd_data := user_data |} in
    let* x := load session in
    if is_some (obex x) then
      g_idle_add (connection_complete_src callback) >> ret 0
    else if 0 <? id x then ret 0
    else
      match transport with
      | None => undefined
      | Some _ =>
          emit (TransportConnect (source x) (destination x) (uuid driver) (channel x)
                  callback) >>
          modify session (set_id connect_id) >>
          if connect_id =? 0 then
            obc_session_unref (cd_session callback) >> ret (- EINVAL)
          else ret 0
      end.

(** What the collaborators of [obc_session_create] answer:
    [obc_transport_find], [obc_driver_find], [dbus_bus_get], the two
    allocations, [g_dbus_add_disconnect_watch] and [transport->connect]. *)
Record create_env := {
  transport_found : option obc_transport;
  driver_found : option obc_driver;
  bus : option nat;
  session_alloc : bool;
  owner_watch : Z;
  callback_alloc : bool;
  connect_id : Z
}.

Definition new_session (transport : obc_transport) (driver : obc_driver) (conn : nat)
    (source destination : option string) (channel : Z) : obc_session :=
  {| id := 0; refcount := 1; source := source; destination := destination;
     channel := channel; transport := Some transport; driver := driver; path := None;
     conn := Some conn; obex := None; agent := None; callback := None; owner := None;
     watch := 0; pending := [] |}.

Definition g_try_malloc0_session (x : obc_session) : M addr :=
  fun w =>
    Some (next_addr w,
          with_next_addr (S (next_addr w)) (with_heap (<[next_addr w := x]> (heap w)) w)).

Definition obc_session_create (env : create_env)
    (source destination service : option string) (channel : Z)
    (owner : option string) (function : option nat) (user_data : nat)
  : M (option addr) :=
  let proceed (session : addr) : M (option addr) :=
    let* r := session_connect session function user_data
                (callback_alloc env) (connect_id env) in
    if r <? 0 then obc_session_unref session >> ret None
    else ret (Some session) in
  match destination with
  | None => ret None
  | Some _ =>
      let* found := session_find source destination service channel owner in
      match found with
      | Some session => proceed session
      | None =>
          match transport_found env with
          | None => ret None
          | Some transport =>
              match driver_found env with
              | None => ret None
              | Some driver =>
                  match bus env with
                  | None => ret None
                  | Some conn =>
                      if negb (session_alloc env) then ret None
                      else
                        let* session :=
                          g_try_malloc0_session
                            (new_session transport driver conn source destination
                               channel) in
                        match owner with
                        | Some o =>
                            let* _ := obc_session_set_owner session o (owner_watch env) in
                            ret tt
                        | None => ret tt
                        end >>
                        proceed session
                  end
              end
          end
      end
  end.

(** *** The transfer subsystem, as far as the session sees it *)

Definition xfer_load (t : transfer) : M xfer :=
  fun w => match transfers w !! t with Some i => Some (i, w) | None => None end.

Definition obc_transfer_get_path (t : transfer) : M (option string) :=
  let* i := xfer_load t in ret (xfer_path i).

Definition obc_transfer_get_size (t : transfer) : M Z :=
  let* i := xfer_load t in ret (xfer_size i).

(** [obc_transfer_register]: [reg] is [None] when it returns [NULL], else
    the path and the size of the new object. *)
Definition obc_transfer_register (reg : option (option string * Z))
    (agent filename targetname type : option string) : M (option transfer) :=
  match reg with
  | None => ret None
  | Some (p, size) =>
      let* w := the_world in
      let t := next_transfer w in
      (fun w =>
         Some (tt, with_next_transfer (S t)
                     (with_transfers
                        (<[t := {| xfer_path := p; xfer_size := size;
                                   xfer_started := None |}]> (transfers w)) w))) >>
      emit (TransferRegister t agent filename targetname type) >>
      ret (Some t)
  end.

Definition obc_transfer_unregister (t : transfer) : M unit :=
  let* _ := xfer_load t in
  (fun w => Some (tt, with_transfers (delete t (transfers w)) w)) >>
  emit (TransferUnregister t).

(** [obc_transfer_get] and [obc_transfer_put] return [ret]; the transfer
    streams from then on when [ret] is not negative. *)
Definition obc_transfer_start (d : direction) (t : transfer) (ret_code : Z) : M Z :=
  let* i := xfer_load t in
  emit (match d with Get => TransferGet t ret_code | Put => TransferPut t ret_code end) >>
  (if ret_code <? 0 then ret tt
   else fun w =>
     Some (tt, with_transfers
                 (<[t := {| xfer_path := xfer_path i; xfer_size := xfer_size i;
                            xfer_started := Some d |}]> (transfers w)) w)) >>
  ret ret_code.

(** [obc_agent_get_name] is defined in agent.c, which is not among the
    sources: it is taken to give [NULL] for [NULL], as [obc_session_send]
    and [obc_session_put] rely on when they call it without a test. *)
Definition obc_agent_get_name (a : option obc_agent) : option string :=
  match a with Some a => Some (agent_name a) | None => None end.

(** *** The pending queue *)

Definition obc_session_add_transfer (session : addr) (t : transfer) : M unit :=
  modify session (fun x => set_pending (pending x ++ [t]) x) >>
  let* _ := obc_session_ref session in ret tt.

Definition obc_session_remove_transfer (session : addr) (t : transfer) : M unit :=
  modify session (fun x => set_pending (g_slist_remove (pending x) t) x) >>
  obc_transfer_unregister t >>
  obc_session_unref session.

Fixpoint remove_each (session : addr) (l : list transfer) : M unit :=
  match l with
  | [] => ret tt
  | t :: l' => obc_session_remove_transfer session t >> remove_each session l'
  end.

Definition obc_session_shutdown (session : addr) : M unit :=
  let* x := load session in
  let l := pending x in
  let* _ := obc_session_ref session in
  remove_each session l >>
  let* x := load session in
  when (is_some (path x)) (session_unregistered session) >>
  let* x := load session in
  when ((0 <? id x) && is_some (transport x))
    (emit (TransportDisconnect (id x)) >> modify session (set_id 0)) >>
  obc_session_unref session.

(** [owner_disconnected], the watch function of the owner. *)
Definition owner_disconnected (session : addr) : M unit := obc_session_shutdown session.

(** *** Authorization and termination

    [agent_ret] is what [obc_agent_request] returns, should it be
    called. *)
Definition session_request (agent_ret : Z) (session : addr) (cb : prepare)
    (t : transfer) : M Z :=
  let* x := load session in
  let agent := agent x in
  let pending := {| pd_cb := cb; pd_session := session; pd_transfer := t |} in
  let* path := obc_transfer_get_path t in
  match agent, path with
  | Some a, Some p =>
      let err := agent_ret in
      emit (AgentRequest a p pending err) >>
      if err <? 0 then ret err else ret 0
  | _, _ => g_idle_add (session_request_proceed_src pending) >> ret 0
  end.

Definition session_terminate_transfer (agent_ret : Z) (session : addr)
    (t : transfer) (gerr : option GError) : M unit :=
  let* x := load session in
  match callback x with
  | Some callback =>
      let* _ := obc_session_ref session in
      emit (Callback (sc_func callback) session gerr (sc_data callback)) >>
      let* x := load session in
      when (g_slist_find (pending x) t) (obc_session_remove_transfer session t) >>
      obc_session_unref session
  | None =>
      let* _ := obc_session_ref session in
      obc_session_remove_transfer session t >>
      let* x := load session in
      match pending x with
      | head :: _ =>
          let* _ := session_request agent_ret session session_prepare_put_cb head in ret tt
      | [] => ret tt
      end >>
      obc_session_unref session
  end.

Definition session_notify_complete (agent_ret : Z) (session : addr) (t : transfer)
  : M unit :=
  let* x := load session in
  let* path := obc_transfer_get_path t in
  match agent x, path with
  | Some a, Some p => emit (AgentNotifyComplete a p)
  | _, _ => ret tt
  end >>
  session_terminate_transfer agent_ret session t None.

Definition session_notify_error (agent_ret : Z) (session : addr) (t : transfer)
    (err : GError) : M unit :=
  let* x := load session in
  let* path := obc_transfer_get_path t in
  match agent x, path with
  | Some a, Some p => emit (AgentNotifyError a p (message err))
  | _, _ => ret tt
  end >>
  session_terminate_transfer agent_ret session t (Some err).

Definition session_notify_progress (agent_ret : Z) (session : addr) (t : transfer)
    (transferred : Z) : M unit :=
  let* x := load session in
  let* path := obc_transfer_get_path t in
  match agent x, path with
  | Some a, Some p => emit (AgentNotifyProgress a p transferred)
  | _, _ => ret tt
  end >>
  let* size := obc_transfer_get_size t in
  when (transferred =? size) (session_notify_complete agent_ret session t).

(** [transfer_progress], the progress callback handed to the transfer. *)
Definition transfer_progress (agent_ret : Z) (t : transfer) (transferred : Z)
    (err : option GError) (session : addr) : M unit :=
  match err with
  | Some e => session_notify_error agent_ret session t e
  | None => session_notify_progress agent_ret session t transferred
  end.

(** What the collaborators answer while a transfer is started: the return
    value of [obc_transfer_get] or [obc_transfer_put], the return value
    of [obc_agent_request], and [strerror]. *)
Record xfer_env := {
  start_ret : Z;
  request_ret : Z;
  strerror : Z -> string
}.

Definition session_prepare_get (env : xfer_env) (session : addr) (t : transfer)
  : M unit :=
  let* r := obc_transfer_start Get t (start_ret env) in
  when (r <? 0)
    (session_notify_error (request_ret env) session t
       {| domain := OBEX_IO_ERROR; code := r; message := strerror env (- r) |}).

Definition session_prepare_put (env : xfer_env) (session : addr) (t : transfer)
  : M unit :=
  let* r := obc_transfer_start Put t (start_ret env) in
  when (r <? 0)
    (session_notify_error (request_ret env) session t
       {| domain := OBEX_IO_ERROR; code := r;
          message := strerror env (- r) +:+ " (" +:+ pretty (- r) +:+ ")" |}).

(** [pending->cb(session, NULL, transfer)]. *)
Definition call_prepare (env : xfer_env) (pd : pending_data) : M unit :=
  match pd_cb pd with
  | session_prepare_get_cb => session_prepare_get env (pd_session pd) (pd_transfer pd)
  | session_prepare_put_cb => session_prepare_put env (pd_session pd) (pd_transfer pd)
  end.

Definition session_request_proceed (env : xfer_env) (pd : pending_data) : M unit :=
  call_prepare env pd.



(** *** The four transfer operations

    What the collaborators answer to one operation:
    [obc_transfer_register], [obc_transfer_set_file] and
    [obc_agent_request]. *)
Record op_env := {
  reg : option (option string * Z);
  set_file_ret : Z;
  op_request_ret : Z
}.

Definition obc_session_get (env : op_env) (session : addr)
    (type filename targetname : option string) (apparam : option (list Z))
    (func : option nat) (user_data : nat) : M Z :=
  let* x := load session in
  if negb (is_some (obex x)) then ret (- ENOTCONN)
  else
    let agent := obc_agent_get_name (agent x) in
    let* r := obc_transfer_register (reg env) agent filename targetname type in
    match r with
    | None => ret (- EIO)
    | Some t =>
        match func with
        | Some f =>
            modify session (set_callback (Some {| sc_func := f; sc_data := user_data |}))
        | None => ret tt
        end >>
        let* err := session_request (op_request_ret env) session session_prepare_get_cb t in
        if err <? 0 then obc_transfer_unregister t >> ret err
        else obc_session_add_transfer session t >> ret 0
    end.

Definition obc_session_send (env : op_env) (session : addr)
    (filename targetname : option string) : M Z :=
  let* x := load session in
  if negb (is_some (obex x)) then ret (- ENOTCONN)
  else
    let agent := obc_agent_get_name (agent x) in
    let* r := obc_transfer_register (reg env) agent filename targetname None in
    match r with
    | None => ret (- EINVAL)
    | Some t =>
        let fail (err : Z) := obc_transfer_unregister t >> ret err in
        let done := obc_session_add_transfer session t >> ret 0 in
        let err := set_file_ret env in
        emit (TransferSetFile t err) >>
        if err <? 0 then fail err
        else
          let* x := load session in
          match pending x with
          | _ :: _ => done
          | [] =>
              let* err :=
                session_request (op_request_ret env) session session_prepare_put_cb t in
              if err <? 0 then fail err else done
          end
    end.

Definition obc_session_pull (env : op_env) (session : addr)
    (type filename : option string) (function : option nat) (user_data : nat) : M Z :=
  let* x := load session in
  if negb (is_some (obex x)) then ret (- ENOTCONN)
  else
    let agent := obc_agent_get_name (agent x) in
    let* r := obc_transfer_register (reg env) agent None filename type in
    match r with
    | None => ret (- EIO)
    | Some t =>
        match function with
        | Some f =>
            modify session (set_callback (Some {| sc_func := f; sc_data := user_data |}))
        | None => ret tt
        end >>
        let* err := session_request (op_request_ret env) session session_prepare_get_cb t in
        if err =? 0 then obc_session_add_transfer session t >> ret 0
        else obc_transfer_unregister t >> ret err
    end.

Definition obc_session_put (env : op_env) (session : addr) (buf : string)
    (targetname : option string) : M Z :=
  let* x := load session in
  if negb (is_some (obex x)) then ret (- ENOTCONN)
  else
    match pending x with
    | _ :: _ => ret (- EISCONN)
    | [] =>
        let agent := obc_agent_get_name (agent x) in
        let* r := obc_transfer_register (reg env) agent None targetname None in
        match r with
        | None => ret (- EIO)
        | Some t =>
            emit (TransferSetBuffer t buf) >>
            let* err :=
              session_request (op_request_ret env) session session_prepare_put_cb t in
            if err <? 0 then ret err else ret 0
        end
    end.

(** [obc_session_set_agent]: the agent object comes from
    [obc_agent_create]. *)
Definition obc_session_set_agent (session : addr) (name path : string) (new_watch : Z)
  : M Z :=
  let* x := load session in
  if is_some (agent x) then ret (- EALREADY)
  else
    let a := {| agent_name := name; agent_path := path |} in
    emit (AgentCreate a) >>
    (if watch x =? 0 then
       let* _ := obc_session_set_owner session name new_watch in ret tt
     else ret tt) >>
    modify session (set_agent (Some a)) >>
    ret 0.

(** *** The main loop

    One iteration that dispatches the oldest idle source. *)
Definition dispatch_idle (env : xfer_env) : M unit :=
  let* w := the_world in
  match idle w with
  | [] => ret tt
  | src :: rest =>
      (fun w => Some (tt, with_idle rest w)) >>
      match src with
      | connection_complete_src cb => connection_complete cb
      | session_request_proceed_src pd => session_request_proceed env pd
      end
  end.

(** *** A run of the program used in the examples

    The state at start-up, the OPP driver, and a caller that creates a
    session to one device. *)
Definition startup : world :=
  {| heap := ∅; next_addr := 1%nat; sessions := []; counter := 0; transfers := ∅;
     next_transfer := 1%nat; idle := []; trace := [] |}.

Definition opp : obc_driver :=
  {| service := "OPP"; uuid := "00001105-0000-1000-8000-00805f9b34fb";
     target := None; probe := false; remove := false |}.

Definition collaborators (transport_id : Z) : create_env :=
  {| transport_found := Some {| name := "Bluetooth" |}; driver_found := Some opp;
     bus := Some 7%nat; session_alloc := true; owner_watch := 3;
     callback_alloc := true; connect_id := transport_id |}.

Definition create_opp (source : option string) (channel : Z) (transport_id : Z)
  : M (option addr) :=
  obc_session_create (collaborators transport_id) source (Some "AA:BB:CC:DD:EE:FF")
    (Some "OPP") channel (Some ":1.5") (Some 100%nat) 0%nat.

Definition the_connect : callback_data :=
  {| cd_session := 1%nat; cd_func := Some 100%nat; cd_data := 0%nat |}.

(** The session is created and the adapter chain is in flight. *)
Definition run_connecting : M unit :=
  let* _ := create_opp None 0 1 in ret tt.

(** The transport has delivered the stream and the CONNECT request is
    out. *)
Definition run_handshake : M unit :=
  run_connecting >> transport_func (Some 4%nat) None (Some 9%nat) None the_connect.

(** The CONNECT response was a success. *)
Definition run_connected : M unit :=
  run_handshake >> connect_cb None G_OBEX_RSP_SUCCESS the_connect.

(** The same on a given adapter and channel, up to the delivery of the
    stream. *)
Definition run_on_channel_5 : M unit :=
  let* _ := create_opp (Some "00:11:22:33:44:55") 5 1 in
  transport_func (Some 4%nat) None (Some 9%nat) None the_connect.

Definition is_transport_connect (e : event) : bool :=
  match e with TransportConnect _ _ _ _ _ => true | _ => false end.

(** Collaborators that accept everything: a transfer registered without
    agent has no path, one registered for an agent has. *)
Definition plain : op_env :=
  {| reg := Some (None, 10); set_file_ret := 0; op_request_ret := 0 |}.

Definition exposed (p : string) : op_env :=
  {| reg := Some (Some p, 10); set_file_ret := 0; op_request_ret := 0 |}.

Definition starts : xfer_env :=
  {| start_ret := 0; request_ret := 0; strerror := fun _ => "Input/output error" |}.

(** A first GET is requested on the connected session, and the main loop
    has started it. *)
Definition run_first_get : M unit :=
  run_connected >>
  (let* _ := obc_session_get plain 1%nat (Some "x-bt/phonebook") None
               (Some "pb.vcf") None (Some 200%nat) 0%nat in ret tt) >>
  dispatch_idle starts.

(** An agent is bound to the connected session. *)
Definition run_with_agent : M unit :=
  run_connected >>
  let* _ := obc_session_set_agent 1%nat ":1.5" "/agent" 3 in ret tt.

(** With the agent bound: a first raw-buffer PUT is requested. *)
Definition run_first_put : M unit :=
  run_with_agent >>
  let* _ := obc_session_put (exposed "/org/openobex/transfer0") 1%nat "BEGIN:VCARD"
              (Some "a.vcf") in ret tt.



Definition state_after (m : M unit) : world :=
  match m startup with Some (_, w) => w | None => startup end.

(** A transfer object exists from [obc_transfer_register] to
    [obc_transfer_unregister]. *)
Definition registered (w : world) (t : transfer) : bool := is_some (transfers w !! t).

(** A transfer is in flight when a start entry point was entered for it
    and it has not terminated. *)
Definition streaming (w : world) (t : transfer) : bool :=
  match transfers w !! t with
  | Some i => is_some (xfer_started i)
  | None => false
  end.

End Session.

(** ** Facts about session.c *)

Module SessionFacts.
Import Session.
Local Open Scope session_scope.

(** The guard of the four operations: on a session without OBEX handle
    each of them returns -ENOTCONN at once, and the whole state (the session with its
    pending queue, callback and agent, the registry, the transfers, the
    idle queue, the calls made so far) is as before. *)
Theorem operations_not_connected (w : world) (session : addr) (x : obc_session)
    (env : op_env) (type filename targetname : option string)
    (apparam : option (list Z)) (func : option nat) (user_data : nat) (buf : string) :
  heap w !! session = Some x ->
  obex x = None ->
  obc_session_get env session type filename targetname apparam func user_data w
    = Some (- ENOTCONN, w)
  /\ obc_session_send env session filename targetname w = Some (- ENOTCONN, w)
  /\ obc_session_pull env session type filename func user_data w = Some (- ENOTCONN, w)
  /\ obc_session_put env session buf targetname w = Some (- ENOTCONN, w).
Proof.
  intros Hs Ho.
  unfold obc_session_get, obc_session_send, obc_session_pull, obc_session_put,
    bind, load.
  rewrite Hs, Ho. repeat split.
Qed.

Lemma operations_not_connected_witness :
  let w := state_after run_connecting in
  let env := {| reg := Some (None, 10); set_file_ret := 0; op_request_ret := 0 |} in
  obc_session_get env 1%nat None (Some "a.vcf") None None (Some 200%nat) 0%nat w
    = Some (- ENOTCONN, w)
  /\ obc_session_send env 1%nat (Some "a.vcf") None w = Some (- ENOTCONN, w)
  /\ obc_session_pull env 1%nat None (Some "a.vcf") (Some 200%nat) 0%nat w
     = Some (- ENOTCONN, w)
  /\ obc_session_put env 1%nat "BEGIN:VCARD" None w = Some (- ENOTCONN, w).
Proof.
  intros w env.
  exact (operations_not_connected w 1%nat
           (default (new_session {| name := "" |} opp 0%nat None None 0) (heap w !! 1%nat))
           env None (Some "a.vcf") None None (Some 200%nat) 0%nat "BEGIN:VCARD"
           eq_refl eq_refl).
Defined.

(** Closed goals are settled by evaluation. *)
Ltac evaluate :=
  repeat match goal with |- _ /\ _ => split end; vm_compute; reflexivity.

(** *** Symbolic execution of the state monad *)

Local Arguments gint : simpl never.

Ltac munfold :=
  unfold bind, ret, load, store, modify, emit, when, g_idle_add, the_world, undefined,
    xfer_load in *.

Ltac mrun :=
  repeat first
    [ progress munfold
    | progress cbn beta iota zeta
    | progress cbn [heap next_addr sessions counter transfers next_transfer idle trace
                    with_heap with_next_addr with_sessions with_counter with_transfers
                    with_next_transfer with_idle with_trace
                    id refcount source destination channel transport driver path conn
                    obex agent callback owner watch pending
                    set_id set_refcount set_path set_obex set_agent set_callback
                    set_owner set_watch set_pending negb andb orb is_some fst snd
                    cd_session cd_func cd_data pd_cb pd_session pd_transfer
                    xfer_path xfer_size xfer_started sc_func sc_data]
    | rewrite lookup_insert_eq
    | match goal with
      | H : heap ?w !! ?s = Some _ |- context [heap ?w !! ?s] => rewrite H
      | H : transfers ?w !! ?s = Some _ |- context [transfers ?w !! ?s] => rewrite H
      | H : ?b = true |- context [?b] => progress rewrite H
      | H : ?b = false |- context [?b] => progress rewrite H
      | H : ?o = Some _ |- context [match ?o with Some _ => _ | None => _ end] =>
          rewrite H
      | H : ?o = None |- context [match ?o with Some _ => _ | None => _ end] =>
          rewrite H
      | H : ?o = Some _ |- context [is_some ?o] => rewrite H
      | H : ?o = None |- context [is_some ?o] => rewrite H
      end ].

(** Two states are equal when their fields are. *)
Lemma world_eq w1 w2 :
  heap w1 = heap w2 -> next_addr w1 = next_addr w2 -> sessions w1 = sessions w2 ->
  counter w1 = counter w2 -> transfers w1 = transfers w2 ->
  next_transfer w1 = next_transfer w2 -> idle w1 = idle w2 -> trace w1 = trace w2 ->
  w1 = w2.
Proof. destruct w1, w2; cbn; intros; by subst. Qed.

Ltac wfields :=
  cbn [heap next_addr sessions counter transfers next_transfer idle trace
       with_heap with_next_addr with_sessions with_counter with_transfers
       with_next_transfer with_idle with_trace].

Ltac weq :=
  match goal with
  | |- Some (_, ?a) = Some (_, ?b) => do 2 f_equal
  | |- _ => idtac
  end;
  apply world_eq; wfields.

(** *** Reuse of a registered session *)

(** The entries before the first match: live and not matching. *)
Definition passed_over (w : world) (source destination service : option string)
    (channel : Z) (owner : option string) (l : list addr) : Prop :=
  Forall (fun s' => exists x', heap w !! s' = Some x'
            /\ session_matches source destination service channel owner x' = false) l.

Lemma session_find_in_first w source destination service channel owner l1 s l2 x :
  passed_over w source destination service channel owner l1 ->
  heap w !! s = Some x ->
  session_matches source destination service channel owner x = true ->
  session_find_in (l1 ++ s :: l2) source destination service channel owner w
  = Some (Some s, w).
Proof.
  intros Hl1 Hs Hm. induction Hl1 as [|s' l1 (x' & Hs' & Hm') _ IH]; cbn [app session_find_in].
  - unfold bind, load. by rewrite Hs, Hm.
  - unfold bind, load. rewrite Hs', Hm'. exact IH.
Qed.

Definition reused (w : world) (s : addr) (x : obc_session) (function : option nat)
    (user_data : nat) : world :=
  with_idle
    (idle w ++ [connection_complete_src
                  {| cd_session := s; cd_func := function; cd_data := user_data |}])
    (with_heap (<[s := set_refcount (gint (refcount x + 1)) x]> (heap w)) w).

Lemma create_reuse w env source dst service channel owner function user_data l1 s l2 x :
  sessions w = l1 ++ s :: l2 ->
  passed_over w source (Some dst) service channel owner l1 ->
  heap w !! s = Some x ->
  session_matches source (Some dst) service channel owner x = true ->
  is_some (obex x) = true ->
  callback_alloc env = true ->
  obc_session_create env source (Some dst) service channel owner function user_data w
  = Some (Some s, reused w s x function user_data).
Proof.
  intros Hreg Hl1 Hs Hm Ho Ha.
  unfold obc_session_create, session_find, the_world. unfold bind at 1 2.
  rewrite Hreg, (session_find_in_first _ _ _ _ _ _ _ _ _ _ Hl1 Hs Hm).
  unfold session_connect, obc_session_ref. rewrite Ha. mrun. reflexivity.
Qed.

Lemma gint_small z : - 2 ^ 31 <= z < 2 ^ 31 -> gint z = z.
Proof. intros H. unfold gint. rewrite Z.mod_small; lia. Qed.

Lemma session_matches_own x :
  session_matches (source x) (destination x) (Some (service (driver x))) (channel x)
    (owner x) x = true.
Proof.
  unfold session_matches, g_strcmp0_eq.
  rewrite String.eqb_refl, Z.eqb_refl.
  destruct (destination x), (source x), (owner x);
    rewrite ?String.eqb_refl, ?andb_false_r; reflexivity.
Qed.

Lemma reused_facts w s x function user_data :
  0 < refcount x < 2 ^ 31 - 1 ->
  let w' := reused w s x function user_data in
  heap w' !! s = Some (set_refcount (refcount x + 1) x)
  /\ sessions w' = sessions w
  /\ trace w' = trace w
  /\ idle w' = idle w ++ [connection_complete_src
                            {| cd_session := s; cd_func := function;
                               cd_data := user_data |}].
Proof.
  intros Hrc w'. subst w'. unfold reused. cbn.
  rewrite lookup_insert_eq, gint_small by lia. done.
Qed.

(** Reuse of a registered session: an [obc_session_create] for the tuple
    recorded in a session that is in the registry (it entered it with its
    OBEX handle, when the transport delivered the stream) and is the
    first entry the lookup accepts, returns that same session with its
    reference count raised by one; no transport connection is asked for
    (the trace of outside calls is unchanged), the registry is unchanged,
    and the caller's function is queued to run from the main loop. *)
Theorem create_same_tuple_reuses (w : world) (env : create_env) (dst : string)
    (function : option nat) (user_data : nat) (l1 l2 : list addr) (s : addr)
    (x : obc_session) :
  sessions w = l1 ++ s :: l2 ->
  heap w !! s = Some x ->
  destination x = Some dst ->
  passed_over w (source x) (Some dst) (Some (service (driver x))) (channel x)
    (owner x) l1 ->
  is_some (obex x) = true ->
  0 < refcount x < 2 ^ 31 - 1 ->
  callback_alloc env = true ->
  exists w',
    obc_session_create env (source x) (Some dst) (Some (service (driver x)))
      (channel x) (owner x) function user_data w = Some (Some s, w')
    /\ heap w' !! s = Some (set_refcount (refcount x + 1) x)
    /\ sessions w' = sessions w
    /\ trace w' = trace w
    /\ idle w' = idle w ++ [connection_complete_src
                              {| cd_session := s; cd_func := function;
                                 cd_data := user_data |}].
Proof.
  intros Hreg Hs Hd Hl1 Ho Hrc Ha.
  exists (reused w s x function user_data). split.
  - apply create_reuse with (l1 := l1) (l2 := l2); try done.
    rewrite <- Hd. apply session_matches_own.
  - by apply reused_facts.
Qed.

(** C10, as the code has it: in the lookup a requested channel of 0
    accepts what the session's own channel would, and an absent source
    what the session's own source would; so a create request with
    channel 0 whose destination, service and owner are those of a
    registered session, and whose source is absent or that of the
    session, returns that session when it is the first entry the lookup
    accepts, whatever channel it is connected on, with its reference
    count raised by one and no transport connection asked for. *)
Theorem create_channel_zero_reuses (w : world) (env : create_env)
    (source : option string) (dst : string) (function : option nat)
    (user_data : nat) (l1 l2 : list addr) (s : addr) (x : obc_session) :
  sessions w = l1 ++ s :: l2 ->
  heap w !! s = Some x ->
  destination x = Some dst ->
  source = None \/ source = Session.source x ->
  passed_over w source (Some dst) (Some (service (driver x))) 0 (owner x) l1 ->
  is_some (obex x) = true ->
  0 < refcount x < 2 ^ 31 - 1 ->
  callback_alloc env = true ->
  (forall src d svc own y,
     session_matches src d svc 0 own y = session_matches src d svc (channel y) own y)
  /\ (forall d svc ch own y,
        session_matches None d svc ch own y
        = session_matches (Session.source y) d svc ch own y)
  /\ exists w',
      obc_session_create env source (Some dst) (Some (service (driver x))) 0
        (owner x) function user_data w = Some (Some s, w')
      /\ heap w' !! s = Some (set_refcount (refcount x + 1) x)
      /\ sessions w' = sessions w
      /\ trace w' = trace w.
Proof.
  intros Hreg Hs Hd Hsrc Hl1 Ho Hrc Ha.
  assert (Hch : forall src d svc own y,
    session_matches src d svc 0 own y = session_matches src d svc (channel y) own y).
  { intros. unfold session_matches. rewrite !Z.eqb_refl. cbn [negb andb].
    by rewrite andb_false_r. }
  assert (Hso : forall d svc ch own y,
    session_matches None d svc ch own y
    = session_matches (Session.source y) d svc ch own y).
  { intros. unfold session_matches, g_strcmp0_eq.
    destruct (Session.source y); cbn [is_some andb negb];
      rewrite ?String.eqb_refl; reflexivity. }
  split; [exact Hch|]. split; [exact Hso|].
  exists (reused w s x function user_data). split.
  - apply create_reuse with (l1 := l1) (l2 := l2); try done.
    rewrite Hch. destruct Hsrc as [-> | ->]; [rewrite Hso|];
      rewrite <- Hd; apply session_matches_own.
  - destruct (reused_facts w s x function user_data Hrc) as (? & ? & ? & _). done.
Qed.

Definition session_at (w : world) (s : addr) : obc_session :=
  default (new_session {| name := "" |} opp 0%nat None None 0) (heap w !! s).

Lemma create_same_tuple_reuses_witness :
  let w := state_after run_handshake in
  let x := session_at w 1%nat in
  exists w',
    obc_session_create (collaborators 2) (source x) (Some "AA:BB:CC:DD:EE:FF")
      (Some (service (driver x))) (channel x) (owner x) (Some 101%nat) 0%nat w
    = Some (Some 1%nat, w')
    /\ heap w' !! 1%nat = Some (set_refcount (refcount x + 1) x)
    /\ sessions w' = sessions w
    /\ trace w' = trace w
    /\ idle w' = idle w ++ [connection_complete_src
                              {| cd_session := 1%nat; cd_func := Some 101%nat;
                                 cd_data := 0%nat |}].
Proof.
  intros w x.
  apply (create_same_tuple_reuses w (collaborators 2) "AA:BB:CC:DD:EE:FF"
           (Some 101%nat) 0%nat [] [] 1%nat x);
    [reflexivity | reflexivity | reflexivity | constructor | reflexivity
    | split; reflexivity | reflexivity].
Defined.

(** C5 on the code: while the first session is still connecting its
    transport, a second [obc_session_create] for the same tuple does not
    get that session.  A session enters the registry only in
    [transport_func], so the lookup comes back empty, a second session is
    allocated and the transport is asked for a second connection.  The
    branch of [session_connect] that is written for this case ("Ongoing
    connection": the id is positive, so a reference is taken and nothing
    is asked of the transport) would have reused the first session, had
    the lookup found it. *)
Lemma create_twice_while_connecting :
  exists w1 w2 w3 x1,
    create_opp None 0 1 startup = Some (Some 1%nat, w1)
    /\ heap w1 !! 1%nat = Some x1 /\ obex x1 = None /\ id x1 = 1
    /\ sessions w1 = []
    /\ session_find None (Some "AA:BB:CC:DD:EE:FF") (Some "OPP") 0 (Some ":1.5") w1
       = Some (None, w1)
    /\ create_opp None 0 2 w1 = Some (Some 2%nat, w2)
    /\ length (filter is_transport_connect (trace w1)) = 1%nat
    /\ length (filter is_transport_connect (trace w2)) = 2%nat
    /\ session_connect 1%nat (Some 100%nat) 0%nat true 2 w1 = Some (0, w3)
    /\ trace w3 = trace w1 /\ idle w3 = idle w1
    /\ heap w3 !! 1%nat = Some (set_refcount (refcount x1 + 1) x1).
Proof.
  eexists _, _, _, _. split; [vm_compute; reflexivity|].
  split; [vm_compute; reflexivity|].
  do 3 (split; [vm_compute; reflexivity|]).
  split; [vm_compute; reflexivity|].
  do 2 (split; [vm_compute; reflexivity|]).
  split; [vm_compute; reflexivity|].
  evaluate.
Qed.

Lemma create_channel_zero_reuses_witness :
  let w := state_after run_on_channel_5 in
  let x := session_at w 1%nat in
  channel x = 5
  /\ exists w',
      obc_session_create (collaborators 2) None (Some "AA:BB:CC:DD:EE:FF")
        (Some (service (driver x))) 0 (owner x) (Some 101%nat) 0%nat w
      = Some (Some 1%nat, w')
      /\ heap w' !! 1%nat = Some (set_refcount (refcount x + 1) x)
      /\ sessions w' = sessions w
      /\ trace w' = trace w.
Proof.
  intros w x. split; [reflexivity|].
  apply (create_channel_zero_reuses w (collaborators 2) None "AA:BB:CC:DD:EE:FF"
           (Some 101%nat) 0%nat [] [] 1%nat x);
    [reflexivity | reflexivity | reflexivity | by left | constructor | reflexivity
    | split; reflexivity | reflexivity].
Defined.

(** C10, as the claim states it, fails when the request names a source
    other than the session's: destination, service and owner are those
    of the registered session and the channel is 0, yet the lookup
    passes the session over, and a second session is created and
    connected. *)
Lemma create_channel_zero_other_source :
  let w := state_after run_on_channel_5 in
  exists x w',
    sessions w = [1%nat] /\ heap w !! 1%nat = Some x
    /\ destination x = Some "AA:BB:CC:DD:EE:FF" /\ service (driver x) = "OPP"
    /\ owner x = Some ":1.5" /\ channel x = 5
    /\ obc_session_create (collaborators 2) (Some "66:77:88:99:AA:BB")
         (Some "AA:BB:CC:DD:EE:FF") (Some "OPP") 0 (Some ":1.5") (Some 101%nat) 0%nat w
       = Some (Some 2%nat, w')
    /\ length (filter is_transport_connect (trace w)) = 1%nat
    /\ length (filter is_transport_connect (trace w')) = 2%nat.
Proof.
  intros w. eexists _, _. split; [vm_compute; reflexivity|].
  split; [vm_compute; reflexivity|].
  evaluate.
Qed.

(** *** The queue *)

Definition pending_of (w : world) (s : addr) : list transfer := pending (session_at w s).

(** C1 on the code: on the connected session of the example a first GET
    is streaming and is the only entry of the queue; a second
    [obc_session_get] is accepted, and the next iteration of the main
    loop enters the get-start entry point of the new transfer, which is
    not the head of the queue, while the first transfer is still
    streaming. *)
Lemma get_starts_behind_queue_head :
  let w := state_after run_first_get in
  exists w1 w2,
    pending_of w 1%nat = [1%nat] /\ streaming w 1%nat = true
    /\ obc_session_get plain 1%nat (Some "x-bt/phonebook") None (Some "pb2.vcf") None
         (Some 200%nat) 0%nat w = Some (0, w1)
    /\ dispatch_idle starts w1 = Some (tt, w2)
    /\ trace w2 = trace w1 ++ [TransferGet 2%nat 0]
    /\ pending_of w2 1%nat = [1%nat; 2%nat]
    /\ streaming w2 1%nat = true /\ streaming w2 2%nat = true.
Proof.
  intros w. eexists _, _. split; [vm_compute; reflexivity|].
  split; [vm_compute; reflexivity|].
  split; [vm_compute; reflexivity|]. split; [vm_compute; reflexivity|].
  evaluate.
Qed.

(** C2 on the code: a raw-buffer PUT has been requested from the agent
    and has not terminated; the queue the busy test reads is still empty,
    because [obc_session_put] never adds its transfer to it; a second
    [obc_session_put] returns 0, registers a second transfer and asks
    the agent again. *)
Lemma second_put_not_rejected :
  let w := state_after run_first_put in
  let pd t := {| pd_cb := session_prepare_put_cb; pd_session := 1%nat;
                 pd_transfer := t |} in
  let a := {| agent_name := ":1.5"; agent_path := "/agent" |} in
  exists w',
    last (trace w) = Some (AgentRequest a "/org/openobex/transfer0" (pd 1%nat) 0)
    /\ registered w 1%nat = true
    /\ pending_of w 1%nat = []
    /\ obc_session_put (exposed "/org/openobex/transfer1") 1%nat "BEGIN:VCARD"
         (Some "b.vcf") w = Some (0, w')
    /\ registered w' 1%nat = true /\ registered w' 2%nat = true
    /\ trace w' = trace w ++
         [TransferRegister 2%nat (Some ":1.5") None (Some "b.vcf") None;
          TransferSetBuffer 2%nat "BEGIN:VCARD";
          AgentRequest a "/org/openobex/transfer1" (pd 2%nat) 0].
Proof.
  intros w pd a. eexists. split; [vm_compute; reflexivity|].
  split; [vm_compute; reflexivity|]. split; [vm_compute; reflexivity|].
  split; [vm_compute; reflexivity|].
  evaluate.
Qed.

(** C9 on the code: the four operations take the presence of the OBEX
    handle for "connected", but [transport_func] stores the handle when
    the CONNECT request goes out, before any response, and [connect_cb]
    leaves it in place when the handshake fails.  On the session of the
    example whose CONNECT request is out and unanswered, each of the
    four operations returns 0, not -ENOTCONN; the GET is queued and the
    next iteration of the main loop starts it.  After a CONNECT response
    that is not a success, which the caller's function was told as an
    error, a GET is accepted all the same. *)
Lemma operations_accepted_during_handshake :
  let w := state_after run_handshake in
  let failed := state_after (run_handshake >> connect_cb None 67 the_connect) in
  exists w1 w2 w3 w4 w5 w6,
    obex (session_at w 1%nat) = Some 9%nat
    /\ last (trace w) = Some (ObexConnect 9%nat None the_connect)
    /\ obc_session_get plain 1%nat (Some "x-bt/phonebook") None (Some "pb.vcf") None
         (Some 200%nat) 0%nat w = Some (0, w1)
    /\ pending_of w1 1%nat = [1%nat] /\ registered w1 1%nat = true
    /\ dispatch_idle starts w1 = Some (tt, w2)
    /\ trace w2 = trace w1 ++ [TransferGet 1%nat 0]
    /\ obc_session_pull plain 1%nat (Some "x-bt/vcard") (Some "card.vcf") (Some 200%nat)
         0%nat w = Some (0, w3)
    /\ obc_session_send plain 1%nat (Some "/tmp/a.jpg") (Some "a.jpg") w = Some (0, w4)
    /\ obc_session_put plain 1%nat "BEGIN:VCARD" (Some "a.vcf") w = Some (0, w5)
    /\ last (trace failed)
       = Some (Callback 100%nat 1%nat
                 (Some {| domain := OBEX_IO_ERROR; code := - EIO;
                          message := "OBEX Connect failed with 0x43" |}) 0%nat)
    /\ obex (session_at failed 1%nat) = Some 9%nat
    /\ obc_session_get plain 1%nat (Some "x-bt/phonebook") None (Some "pb.vcf") None
         (Some 200%nat) 0%nat failed = Some (0, w6)
    /\ pending_of w6 1%nat = [1%nat].
Proof.
  intros w failed. eexists _, _, _, _, _, _.
  do 2 (split; [vm_compute; reflexivity|]).
  split; [vm_compute; reflexivity|].
  do 2 (split; [vm_compute; reflexivity|]).
  split; [vm_compute; reflexivity|].
  split; [vm_compute; reflexivity|].
  do 3 (split; [vm_compute; reflexivity|]).
  do 2 (split; [vm_compute; reflexivity|]).
  split; [vm_compute; reflexivity|].
  vm_compute; reflexivity.
Qed.

(** *** Reference counting, step by step *)

Lemma bind_run {A B} (m : M A) (k : A -> M B) w a w' :
  m w = Some (a, w') -> bind m k w = k a w'.
Proof. intros H. unfold bind. by rewrite H. Qed.

Lemma run_ref w s x :
  heap w !! s = Some x -> - 2 ^ 31 <= refcount x + 1 < 2 ^ 31 ->
  obc_session_ref s w
  = Some (s, with_heap (<[s := set_refcount (refcount x + 1) x]> (heap w)) w).
Proof.
  intros Hs Hrc. unfold obc_session_ref. mrun. by rewrite gint_small.
Qed.

Lemma run_unref_keep w s x :
  heap w !! s = Some x -> 1 < refcount x <= 2 ^ 31 ->
  obc_session_unref s w
  = Some (tt, with_heap (<[s := set_refcount (refcount x - 1) x]> (heap w)) w).
Proof.
  intros Hs Hrc. unfold obc_session_unref. mrun. rewrite gint_small by lia.
  destruct (Z.eqb_spec (refcount x - 1) 0); [lia|done].
Qed.

Lemma with_heap_same w : with_heap (heap w) w = w.
Proof. by destruct w. Qed.

Lemma set_refcount_same x : set_refcount (refcount x) x = x.
Proof. by destruct x. Qed.

Lemma set_refcount_twice a b x : set_refcount a (set_refcount b x) = set_refcount a x.
Proof. by destruct x. Qed.

Lemma with_heap_twice a b w : with_heap a (with_heap b w) = with_heap a w.
Proof. by destruct w. Qed.

(** Taking and dropping a reference leaves the state as it was. *)
Lemma ref_unref_same w s x :
  heap w !! s = Some x ->
  with_heap (<[s := set_refcount (refcount x + 1 - 1) (set_refcount (refcount x + 1) x)]>
               (<[s := set_refcount (refcount x + 1) x]> (heap w))) w = w.
Proof.
  intros Hs. rewrite insert_insert_eq, set_refcount_twice.
  replace (refcount x + 1 - 1) with (refcount x) by lia.
  by rewrite set_refcount_same, insert_id, with_heap_same.
Qed.



Lemma run_remove_transfer w s x t i :
  heap w !! s = Some x -> transfers w !! t = Some i ->
  1 < refcount x <= 2 ^ 31 ->
  obc_session_remove_transfer s t w
  = Some (tt,
          with_heap (<[s := set_refcount (refcount x - 1)
                              (set_pending (g_slist_remove (pending x) t) x)]> (heap w))
            (with_trace (trace w ++ [TransferUnregister t])
               (with_transfers (delete t (transfers w)) w))).
Proof.
  intros Hs Ht Hrc. unfold obc_session_remove_transfer, obc_transfer_unregister.
  unfold modify.
  rewrite (bind_run _ _ w tt
             (with_heap (<[s := set_pending (g_slist_remove (pending x) t) x]> (heap w)) w))
    by (mrun; done).
  set (w1 := with_heap _ w).
  rewrite (bind_run _ _ w1 tt
             (with_trace (trace w ++ [TransferUnregister t])
                (with_transfers (delete t (transfers w)) w1)))
    by (subst w1; mrun; done).
  set (w2 := with_trace _ _).
  rewrite (run_unref_keep w2 s (set_pending (g_slist_remove (pending x) t) x))
    by (subst w2 w1; cbn; (apply lookup_insert_eq || lia)).
  subst w2 w1. cbn. by rewrite insert_insert_eq.
Qed.







(** *** Destruction *)

(** The calls [session_free] makes on a session in state [x]. *)
Definition free_calls (s : addr) (x : obc_session) : list event :=
  match agent x with Some a => [AgentRelease a; AgentFree a] | None => [] end
  ++ (if negb (watch x =? 0) then [RemoveWatch (watch x)] else [])
  ++ match obex x with Some o => [ObexUnref o] | None => [] end
  ++ (if (0 <? id x) && is_some (transport x) then [TransportDisconnect (id x)] else [])
  ++ match path x with
     | Some p =>
         (if remove (driver x) then [DriverRemove s] else [])
         ++ [UnregisterInterface (Some p)]
     | None => []
     end
  ++ match conn x with Some c => [ConnectionUnref c] | None => [] end
  ++ [Free s].

Definition freed (w : world) (s : addr) (x : obc_session) : world :=
  with_trace (trace w ++ free_calls s x)
    (with_heap (delete s (heap w))
       (with_sessions (g_slist_remove (sessions w) s) w)).

Lemma run_session_free w s x :
  heap w !! s = Some x -> session_free s w = Some (tt, freed w s x).
Proof.
  intros Hs. unfold session_free, session_unregistered, freed, free_calls.
  destruct (agent x) eqn:Ha; destruct (watch x =? 0) eqn:Hw;
    destruct (obex x) eqn:Ho;
    destruct ((0 <? id x) && is_some (transport x)) eqn:Hid;
    destruct (conn x) eqn:Hc;
    (destruct (path x) eqn:Hp; [destruct (remove (driver x)) eqn:Hr|]);
    solve [mrun; weq; rewrite ?Hp, ?delete_insert_eq, <- ?app_assoc; reflexivity].
Qed.

Lemma free_calls_refcount s v x : free_calls s (set_refcount v x) = free_calls s x.
Proof. by destruct x. Qed.

Lemma run_unref_last w s x :
  heap w !! s = Some x -> refcount x = 1 ->
  obc_session_unref s w
  = Some (tt, freed (with_heap (<[s := set_refcount 0 x]> (heap w)) w) s x).
Proof.
  intros Hs Hrc. unfold obc_session_unref.
  rewrite (bind_run _ _ w x w) by (unfold load; by rewrite Hs).
  rewrite Hrc. change (gint (1 - 1)) with 0. cbn [Z.eqb].
  unfold store at 1, bind at 1.
  rewrite (run_session_free _ s (set_refcount 0 x)) by (cbn; apply lookup_insert_eq).
  unfold freed. by rewrite free_calls_refcount.
Qed.




(** *** Termination of a transfer *)




Definition xfer_at (w : world) (t : transfer) : xfer :=
  default {| xfer_path := None; xfer_size := 0; xfer_started := None |}
    (transfers w !! t).



End SessionFacts.

(** ** bluetooth.c: the transport *)

Module Bluetooth.

(** Identity of a [struct bluetooth_session]. *)
Definition addr := nat.

(** A [struct pending_req] is known by the [DBusPendingCall] it wraps. *)
Record pending_req := { call : nat }.

Record bluetooth_session := {
  id : Z;
  src : string;
  dst : string;
  port : Z;
  conn_system : option nat;
  sdp : option nat;
  io : option nat;
  pending_calls : list pending_req;
  adapter : option string;
  service : option string;
  func : option nat;
  user_data : nat
}.

Definition set_port v x :=
  {| id := id x; src := src x; dst := dst x; port := v; conn_system := conn_system x;
     sdp := sdp x; io := io x; pending_calls := pending_calls x; adapter := adapter x;
     service := service x; func := func x; user_data := user_data x |}.
Definition set_sdp v x :=
  {| id := id x; src := src x; dst := dst x; port := port x; conn_system := conn_system x;
     sdp := v; io := io x; pending_calls := pending_calls x; adapter := adapter x;
     service := service x; func := func x; user_data := user_data x |}.
Definition set_io v x :=
  {| id := id x; src := src x; dst := dst x; port := port x; conn_system := conn_system x;
     sdp := sdp x; io := v; pending_calls := pending_calls x; adapter := adapter x;
     service := service x; func := func x; user_data := user_data x |}.
Definition set_pending_calls v x :=
  {| id := id x; src := src x; dst := dst x; port := port x; conn_system := conn_system x;
     sdp := sdp x; io := io x; pending_calls := v; adapter := adapter x;
     service := service x; func := func x; user_data := user_data x |}.
Definition set_adapter v x :=
  {| id := id x; src := src x; dst := dst x; port := port x; conn_system := conn_system x;
     sdp := sdp x; io := io x; pending_calls := pending_calls x; adapter := v;
     service := service x; func := func x; user_data := user_data x |}.

(** The watch functions of this file. *)
Inductive watch_func := service_callback_fn | process_callback_fn.

(** The reply handlers of this file. *)
Inductive reply_func := manager_reply_fn | adapter_reply_fn.

(** Calls that leave the file. *)
Inductive event :=
  | Result (func : nat) (io : option nat) (err : option GError) (user_data : nat)
  | MethodCall (conn : option nat) (path interface method : string)
      (arg : option string) (reply : option (reply_func * nat))
  | PendingCancel (c : nat)
  | PendingUnref (c : nat)
  | IoShutdown (io : option nat)
  | IoUnref (io : option nat)
  | IoCloseOnUnref (io : option nat) (close : bool)
  | IoAddWatch (io : option nat) (f : watch_func) (session : addr)
  | RfcommConnect (src dst : string) (channel : Z) (session : addr) (io : option nat)
  | SdpConnect (src dst : string) (sdp : option nat)
  | SdpSetNotify (sdp : option nat) (session : addr) (ret : Z)
  | SdpSearch (sdp : option nat) (uuid : list Z) (ret : Z)
  | SdpProcess (sdp : option nat) (ret : Z)
  | SdpClose (sdp : option nat)
  | BusUnref (conn : nat)
  | Free (session : addr).

(** [completed] are the pending calls whose reply has arrived; [next_id]
    is the static counter of [bluetooth_connect]. *)
Record world := {
  heap : gmap addr bluetooth_session;
  next_addr : addr;
  sessions : list addr;
  next_id : Z;
  completed : list nat;
  trace : list event
}.

Definition with_heap v w :=
  {| heap := v; next_addr := next_addr w; sessions := sessions w; next_id := next_id w;
     completed := completed w; trace := trace w |}.
Definition with_next_addr v w :=
  {| heap := heap w; next_addr := v; sessions := sessions w; next_id := next_id w;
     completed := completed w; trace := trace w |}.
Definition with_sessions v w :=
  {| heap := heap w; next_addr := next_addr w; sessions := v; next_id := next_id w;
     completed := completed w; trace := trace w |}.
Definition with_next_id v w :=
  {| heap := heap w; next_addr := next_addr w; sessions := sessions w; next_id := v;
     completed := completed w; trace := trace w |}.
Definition with_completed v w :=
  {| heap := heap w; next_addr := next_addr w; sessions := sessions w;
     next_id := next_id w; completed := v; trace := trace w |}.
Definition with_trace v w :=
  {| heap := heap w; next_addr := next_addr w; sessions := sessions w;
     next_id := next_id w; completed := completed w; trace := v |}.

(** The same state monad as for session.c, over this file's state. *)
Definition M (A : Type) : Type := world -> option (A * world).

Definition ret {A} (a : A) : M A := fun w => Some (a, w).

Definition bind {A B} (m : M A) (k : A -> M B) : M B :=
  fun w => match m w with Some (a, w') => k a w' | None => None end.

Declare Scope bt_scope.
Delimit Scope bt_scope with bt.
Notation "'let*' x ':=' m 'in' k" := (bind m (fun x => k))
  (at level 10, x pattern, m at level 100, k at level 200) : bt_scope.
Notation "m >> k" := (bind m (fun _ => k))
  (at level 90, right associativity) : bt_scope.
Local Open Scope bt_scope.

Definition undefined {A} : M A := fun _ => None.

Definition when (b : bool) (m : M unit) : M unit := if b then m else ret tt.

Definition the_world : M world := fun w => Some (w, w).

Definition load (s : addr) : M bluetooth_session :=
  fun w => match heap w !! s with Some x => Some (x, w) | None => None end.

Definition store (s : addr) (x : bluetooth_session) : M unit :=
  fun w => Some (tt, with_heap (<[s := x]> (heap w)) w).

Definition modify (s : addr) (f : bluetooth_session -> bluetooth_session) : M unit :=
  let* x := load s in store s (f x).

Definition emit (e : event) : M unit :=
  fun w => Some (tt, with_trace (trace w ++ [e]) w).

Definition is_some {A} (o : option A) : bool :=
  match o with Some _ => true | None => false end.

Definition BT_BUS_NAME : string := "org.bluez".
Definition BT_PATH : string := "/".
Definition BT_ADAPTER_IFACE : string := "org.bluez.Adapter".
Definition BT_MANAGER_IFACE : string := "org.bluez.Manager".
Definition OBC_BT_ERROR : string := "obc-bluetooth-error-quark".

(** What D-Bus answers to [send_method_call]: the message could not be
    built or sent, or it was sent ([c] is the pending call when a reply
    is asked for). *)
Inductive send_outcome := SendFailed | SendOk (c : nat).

Definition send_method_call (out : send_outcome) (conn : option nat)
    (path interface method : string) (arg : option string) (cb : option reply_func)
  : M (option pending_req) :=
  match out with
  | SendFailed => ret None
  | SendOk c =>
      match cb with
      | None => emit (MethodCall conn path interface method arg None) >> ret None
      | Some f =>
          emit (MethodCall conn path interface method arg (Some (f, c))) >>
          ret (Some {| call := c |})
      end
  end.

Definition pending_req_finalize (req : pending_req) : M unit :=
  let* w := the_world in
  when (negb (existsb (Nat.eqb (call req)) (completed w))) (emit (PendingCancel (call req))) >>
  emit (PendingUnref (call req)).

(** [g_slist_remove] on the two lists of this file. *)
Fixpoint remove_addr (l : list addr) (x : addr) : list addr :=
  match l with
  | [] => []
  | y :: l' => if Nat.eqb y x then l' else y :: remove_addr l' x
  end.

Fixpoint remove_req (l : list pending_req) (r : pending_req) : list pending_req :=
  match l with
  | [] => []
  | y :: l' => if Nat.eqb (call y) (call r) then l' else y :: remove_req l' r
  end.

Fixpoint finalize_each (session : addr) (l : list pending_req) : M unit :=
  match l with
  | [] => ret tt
  | req :: l' =>
      modify session (fun x => set_pending_calls (remove_req (pending_calls x) req) x) >>
      pending_req_finalize req >>
      finalize_each session l'
  end.

(** [session_destroy]: [release] is what D-Bus answers to the
    ReleaseSession call, should it be made. *)
Definition session_destroy (release : send_outcome) (session : addr) : M unit :=
  let* w := the_world in
  if negb (existsb (Nat.eqb session) (sessions w)) then ret tt
  else
    (fun w => Some (tt, with_sessions (remove_addr (sessions w) session) w)) >>
    let* x := load session in
    match adapter x with
    | Some a =>
        let* _ := send_method_call release (conn_system x) a BT_ADAPTER_IFACE
                    "ReleaseSession" None None in ret tt
    | None => ret tt
    end >>
    finalize_each session (pending_calls x) >>
    let* x := load session in
    when (is_some (io x)) (emit (IoShutdown (io x)) >> emit (IoUnref (io x))) >>
    match conn_system x with Some c => emit (BusUnref c) | None => ret tt end >>
    (fun w => Some (tt, with_heap (delete session (heap w)) w)) >>
    emit (Free session).

Fixpoint disconnect_in (release : send_outcome) (l : list addr) (id : Z) : M unit :=
  match l with
  | [] => ret tt
  | session :: l' =>
      let* x := load session in
      if Bluetooth.id x =? id then session_destroy release session
      else disconnect_in release l' id
  end.

Definition bluetooth_disconnect (release : send_outcome) (id : Z) : M unit :=
  let* w := the_world in disconnect_in release (sessions w) id.

(** [if (session->func) session->func(io, err, session->user_data)]:
    the function is the caller's; it may come back into this file before
    it returns, through [bluetooth_disconnect] for the id of this very
    connection (the session layer does so when it drops its last
    reference): [reenters] tells whether it does. *)
Definition call_result (release : send_outcome) (reenters : bool) (session : addr)
    (io : option nat) (err : option GError) : M unit :=
  let* x := load session in
  match func x with
  | Some f =>
      emit (Result f io err (user_data x)) >>
      when reenters (bluetooth_disconnect release (id x))
  | None => ret tt
  end.

Definition rfcomm_callback (release : send_outcome) (reenters : bool) (io : option nat)
    (err : option GError) (session : addr) : M unit :=
  call_result release reenters session io err >>
  when (is_some err) (session_destroy release session).

(** [rfcomm_connect]: [out] is what [bt_io_connect] returns. *)
Definition rfcomm_connect (out : option nat) (src dst : string) (channel : Z)
    (session : addr) : M (option nat) :=
  emit (RfcommConnect src dst channel session out) >> ret out.

(** *** Service discovery

    What the SDP library makes of one record of the response:
    [sdp_extract_pdu] fails, or gives a record of [recsize] bytes whose
    access-protocol list, when it has one, gives the RFCOMM port
    [sdp_get_proto_port] returns. *)
Record sdp_record := {
  extracted : bool;
  recsize : Z;
  protos : option Z
}.

(** The response handed to [search_callback] and what
    [sdp_extract_seqtype] makes of its head. *)
Record sdp_response := {
  rsp_type : Z;
  status : Z;
  size : Z;
  seq_scanned : Z;
  seqlen : Z;
  records : list sdp_record
}.

Definition SDP_SVC_SEARCH_ATTR_RSP : Z := 7.

(** The [do ... while] loop of [search_callback]: the value of [channel]
    after it.  [scanned] and [bytesleft] are [unsigned int], [channel]
    is [uint8_t]. *)
Fixpoint scan_records (recs : list sdp_record) (size scanned bytesleft : Z) : Z :=
  match recs with
  | [] => 0
  | r :: recs' =>
      if negb (extracted r) then 0
      else if recsize r =? 0 then 0
      else
        let ch := match protos r with Some c => c | None => -1 end in
        if 0 <? ch then ch mod 256
        else
          let scanned := (scanned + recsize r) mod 2 ^ 32 in
          let bytesleft := (bytesleft - recsize r) mod 2 ^ 32 in
          if (scanned <? size) && (0 <? bytesleft)
          then scan_records recs' size scanned bytesleft
          else 0
  end.

Definition service_not_found : GError :=
  {| domain := OBC_BT_ERROR; code := - EIO; message := "Unable to find service record" |}.

(** The block at the label [failed] of [search_callback] and of
    [service_callback], which is the same text in both. *)
Definition search_failed (release : send_outcome) (reenters : bool) (session : addr)
  : M unit :=
  let* x := load session in
  emit (IoShutdown (io x)) >>
  emit (IoUnref (io x)) >>
  modify session (set_io None) >>
  call_result release reenters session None (Some service_not_found) >>
  session_destroy release session.

Definition search_callback (release : send_outcome) (reenters : bool)
    (rfcomm_out : option nat) (rsp : sdp_response) (session : addr) : M unit :=
  if negb (status rsp =? 0) || negb (rsp_type rsp =? SDP_SVC_SEARCH_ATTR_RSP)
  then search_failed release reenters session
  else if (seq_scanned rsp =? 0) || (seqlen rsp =? 0)
  then search_failed release reenters session
  else
    let channel :=
      scan_records (records rsp) (size rsp) (seq_scanned rsp)
        ((size rsp mod 2 ^ 32 - seq_scanned rsp) mod 2 ^ 32) in
    if channel =? 0 then search_failed release reenters session
    else
      modify session (set_port channel) >>
      let* x := load session in
      emit (IoCloseOnUnref (io x) false) >>
      emit (IoUnref (io x)) >>
      let* io' := rfcomm_connect rfcomm_out (src x) (dst x) channel session in
      modify session (set_io io') >>
      match io' with
      | Some _ =>
          emit (SdpClose (sdp x)) >> modify session (set_sdp None)
      | None => search_failed release reenters session
      end.

(** A [GIOCondition]. *)
Record condition := {
  G_IO_IN : bool;
  G_IO_OUT : bool;
  G_IO_ERR : bool;
  G_IO_HUP : bool;
  G_IO_NVAL : bool
}.

(** [process_callback]: [process_ret] is what [sdp_process] returns. *)
Definition process_callback (process_ret : Z) (cond : condition) (session : addr)
  : M bool :=
  if G_IO_ERR cond || G_IO_HUP cond || G_IO_NVAL cond then ret false
  else
    let* x := load session in
    emit (SdpProcess (sdp x) process_ret) >>
    if process_ret <? 0 then ret false else ret true.

(** [service_callback]: [notify_ret] and [search_ret] are what
    [sdp_set_notify] and [sdp_service_search_attr_async] return;
    [little_endian] is the host's byte order. *)
Definition service_callback (release : send_outcome) (reenters : bool)
    (little_endian : bool) (notify_ret search_ret : Z) (io : option nat)
    (cond : condition) (session : addr) : M bool :=
  let failed := search_failed release reenters session >> ret false in
  if G_IO_NVAL cond then ret false
  else if G_IO_ERR cond then failed
  else
    let* x := load session in
    emit (SdpSetNotify (sdp x) session notify_ret) >>
    if notify_ret <? 0 then failed
    else
      match service x with
      | None => undefined
      | Some string =>
          match Uuid.bt_string2uuid little_endian string with
          | (_, None) => failed
          | (_, Some uuid) =>
              emit (SdpSearch (sdp x) uuid search_ret) >>
              if search_ret <? 0 then failed
              else emit (IoAddWatch io process_callback_fn session) >> ret false
          end
      end.

(** [service_connect]: [sdp_out] is what [sdp_connect] returns, [io_out]
    what [g_io_channel_unix_new] returns. *)
Definition service_connect (sdp_out io_out : option nat) (src dst : string)
    (session : addr) : M (option nat) :=
  emit (SdpConnect src dst sdp_out) >>
  match sdp_out with
  | None => ret None
  | Some _ =>
      match io_out with
      | None => emit (SdpClose sdp_out) >> ret None
      | Some _ =>
          emit (IoAddWatch io_out service_callback_fn session) >>
          modify session (set_io io_out) >>
          ret sdp_out
      end
  end.

(** What the libraries answer while a connection is attempted. *)
Record connect_env := {
  rfcomm_out : option nat;
  sdp_out : option nat;
  io_out : option nat
}.

Definition session_connect (env : connect_env) (session : addr) : M Z :=
  let* x := load session in
  if 0 <? port x then
    let* io := rfcomm_connect (rfcomm_out env) (src x) (dst x) (port x) session in
    modify session (set_io io) >>
    ret (if is_some io then 0 else - EINVAL)
  else
    let* sdp := service_connect (sdp_out env) (io_out env) (src x) (dst x) session in
    modify session (set_sdp sdp) >>
    ret (if is_some sdp then 0 else - ENOMEM).

(** *** The adapter chain *)

Definition find_session_request (x : bluetooth_session) (c : nat) : option pending_req :=
  List.find (fun req => Nat.eqb (call req) c) (pending_calls x).

(** The reply stolen from a pending call: an error message, or a method
    return whose object-path argument [dbus_message_get_args] reads
    ([None] when it cannot). *)
Inductive dbus_reply :=
  | ReplyError (name message : string)
  | ReplyArgs (path : option string).

(** The head of both reply handlers: the reply has arrived for [c]; its
    request is looked up, taken off the list and finalized. *)
Definition take_reply (c : nat) (session : addr) : M unit :=
  (fun w => Some (tt, with_completed (c :: completed w) w)) >>
  let* x := load session in
  let req := find_session_request x c in
  match req with
  | Some r =>
      modify session (fun x => set_pending_calls (remove_req (pending_calls x) r) x) >>
      pending_req_finalize r
  | None => undefined
  end.

Definition unable_to_request_session : GError :=
  {| domain := OBC_BT_ERROR; code := - EINVAL; message := "Unable to request session" |}.

Definition no_adapter_found : GError :=
  {| domain := OBC_BT_ERROR; code := - EINVAL; message := "No adapter found" |}.

Definition adapter_reply (release : send_outcome) (reenters : bool) (env : connect_env)
    (c : nat) (reply : dbus_reply) (session : addr) : M unit :=
  let failed :=
    let* x := load session in
    call_result release reenters session (io x) (Some unable_to_request_session) >>
    session_destroy release session in
  take_reply c session >>
  match reply with
  | ReplyError _ _ => failed
  | ReplyArgs _ =>
      let* r := session_connect env session in
      if r <? 0 then failed else ret tt
  end.

(** [manager_reply]: [request] is what D-Bus answers to the
    RequestSession call. *)
Definition manager_reply (release : send_outcome) (reenters : bool)
    (request : send_outcome) (c : nat) (reply : dbus_reply) (session : addr) : M unit :=
  let failed :=
    let* x := load session in
    call_result release reenters session (io x) (Some no_adapter_found) >>
    session_destroy release session in
  take_reply c session >>
  match reply with
  | ReplyError _ _ => failed
  | ReplyArgs None => failed
  | ReplyArgs (Some adapter) =>
      modify session (set_adapter (Some adapter)) >>
      let* x := load session in
      let* req := send_method_call request (conn_system x) adapter BT_ADAPTER_IFACE
                    "RequestSession" None (Some adapter_reply_fn) in
      match req with
      | None => failed
      | Some r =>
          modify session (fun x => set_pending_calls (r :: pending_calls x) x)
      end
  end.

(** What the collaborators of [bluetooth_connect] answer: the
    allocation, [g_dbus_setup_bus], and D-Bus for the adapter lookup. *)
Record bt_env := {
  session_alloc : bool;
  system_bus : option nat;
  lookup : send_outcome
}.

Definition BDADDR_ANY : string := "00:00:00:00:00:00".

Definition bluetooth_connect (env : bt_env) (source destination service : option string)
    (port : Z) (func : option nat) (user_data : nat) : M Z :=
  match destination with
  | None => ret 0
  | Some destination =>
      if negb (session_alloc env) then ret 0
      else
        let* w := the_world in
        let id := (next_id w + 1) mod 2 ^ 32 in
        (fun w => Some (tt, with_next_id id w)) >>
        match system_bus env with
        | None => ret 0
        | Some conn =>
            let* req :=
              match source with
              | None =>
                  send_method_call (lookup env) (Some conn) BT_PATH BT_MANAGER_IFACE
                    "DefaultAdapter" None (Some manager_reply_fn)
              | Some source =>
                  send_method_call (lookup env) (Some conn) BT_PATH BT_MANAGER_IFACE
                    "FindAdapter" (Some source) (Some manager_reply_fn)
              end in
            match req with
            | None => ret 0
            | Some r =>
                let x :=
                  {| Bluetooth.id := id;
                     src := match source with Some s => s | None => BDADDR_ANY end;
                     dst := destination; port := 0; conn_system := Some conn;
                     sdp := None; io := None; pending_calls := [r]; adapter := None;
                     service := service; func := func; user_data := user_data |} in
                (fun w =>
                   Some (tt,
                         with_sessions (next_addr w :: sessions w)
                           (with_next_addr (S (next_addr w))
                              (with_heap (<[next_addr w := x]> (heap w)) w)))) >>
                ret id
            end
        end
  end.

(** The state at start-up. *)
Definition startup : world :=
  {| heap := ∅; next_addr := 1%nat; sessions := []; next_id := 0; completed := [];
     trace := [] |}.

(** *** A run of the program used in the examples

    A connection to one device is asked for on the default adapter, with
    a result function; the lookup is pending call 10. *)
Definition connect_opp : M Z :=
  bluetooth_connect
    {| session_alloc := true; system_bus := Some 7%nat; lookup := SendOk 10%nat |}
    None (Some "AA:BB:CC:DD:EE:FF") (Some "00001105-0000-1000-8000-00805f9b34fb")
    0 (Some 50%nat) 0%nat.

Definition state_after {A} (m : M A) : world :=
  match m startup with Some (_, w) => w | None => startup end.

(** The adapter is found, its session granted (pending call 11), the SDP
    socket is connected and the search is sent. *)
Definition sdp_sockets : connect_env :=
  {| rfcomm_out := Some 5%nat; sdp_out := Some 3%nat; io_out := Some 4%nat |}.

Definition writable : condition :=
  {| G_IO_IN := false; G_IO_OUT := true; G_IO_ERR := false; G_IO_HUP := false;
     G_IO_NVAL := false |}.

Definition hung_up : condition :=
  {| G_IO_IN := false; G_IO_OUT := false; G_IO_ERR := false; G_IO_HUP := true;
     G_IO_NVAL := false |}.

Definition run_searching : M bool :=
  connect_opp >>
  manager_reply (SendOk 0%nat) false (SendOk 11%nat) 10%nat
    (ReplyArgs (Some "/org/bluez/hci0")) 1%nat >>
  adapter_reply (SendOk 0%nat) false sdp_sockets 11%nat (ReplyArgs None) 1%nat >>
  service_callback (SendOk 0%nat) false true 0 0 (Some 4%nat) writable 1%nat.

End Bluetooth.

(** ** Facts about bluetooth.c *)

Module BluetoothFacts.
Import Bluetooth.
Local Open Scope bt_scope.

Lemma bt_world_eq w1 w2 :
  heap w1 = heap w2 -> next_addr w1 = next_addr w2 -> sessions w1 = sessions w2 ->
  next_id w1 = next_id w2 -> completed w1 = completed w2 -> trace w1 = trace w2 ->
  w1 = w2.
Proof. destruct w1, w2; cbn; intros; by subst. Qed.

Ltac wfields :=
  cbn [heap next_addr sessions next_id completed trace
       with_heap with_next_addr with_sessions with_next_id with_completed with_trace].

Ltac weq :=
  match goal with
  | |- Some (_, ?a) = Some (_, ?b) => do 2 f_equal
  | |- _ => idtac
  end;
  apply bt_world_eq; wfields.

Ltac munfold :=
  unfold bind, ret, load, store, modify, emit, when, the_world, undefined in *.

Ltac mrun :=
  repeat first
    [ progress munfold
    | progress cbn beta iota zeta
    | progress cbn [heap next_addr sessions next_id completed trace
                    with_heap with_next_addr with_sessions with_next_id with_completed
                    with_trace
                    id src dst port conn_system sdp io pending_calls adapter service
                    func user_data set_port set_sdp set_io set_pending_calls set_adapter
                    negb andb orb is_some fst snd call]
    | rewrite lookup_insert_eq
    | match goal with
      | H : heap ?w !! ?s = Some _ |- context [heap ?w !! ?s] => rewrite H
      | H : ?b = true |- context [?b] => progress rewrite H
      | H : ?b = false |- context [?b] => progress rewrite H
      | H : ?o = Some _ |- context [match ?o with Some _ => _ | None => _ end] =>
          rewrite H
      | H : ?o = None |- context [match ?o with Some _ => _ | None => _ end] =>
          rewrite H
      | H : ?o = Some _ |- context [is_some ?o] => rewrite H
      | H : ?o = None |- context [is_some ?o] => rewrite H
      end ].

Lemma bt_bind_run {A B} (m : M A) (k : A -> M B) w a w' :
  m w = Some (a, w') -> bind m k w = k a w'.
Proof. intros H. unfold bind. by rewrite H. Qed.

(** *** Teardown *)

(** The calls that finalize one pending request. *)
Definition finalize_calls (done : list nat) (r : pending_req) : list event :=
  (if existsb (Nat.eqb (call r)) done then [] else [PendingCancel (call r)])
  ++ [PendingUnref (call r)].

(** The calls [session_destroy] makes on a registered connection in
    state [x]. *)
Definition destroy_calls (release : send_outcome) (done : list nat) (s : addr)
    (x : bluetooth_session) : list event :=
  match adapter x, release with
  | Some a, SendOk _ =>
      [MethodCall (conn_system x) a BT_ADAPTER_IFACE "ReleaseSession" None None]
  | _, _ => []
  end
  ++ flat_map (finalize_calls done) (pending_calls x)
  ++ match io x with Some i => [IoShutdown (Some i); IoUnref (Some i)] | None => [] end
  ++ match conn_system x with Some c => [BusUnref c] | None => [] end
  ++ [Free s].

Definition destroyed (release : send_outcome) (w : world) (s : addr)
    (x : bluetooth_session) : world :=
  with_trace (trace w ++ destroy_calls release (completed w) s x)
    (with_heap (delete s (heap w)) (with_sessions (remove_addr (sessions w) s) w)).

Lemma run_finalize r w :
  pending_req_finalize r w
  = Some (tt, with_trace (trace w ++ finalize_calls (completed w) r) w).
Proof.
  unfold pending_req_finalize, finalize_calls.
  destruct (existsb (Nat.eqb (call r)) (completed w)) eqn:E; mrun.
  - reflexivity.
  - by rewrite <- app_assoc.
Qed.

Lemma run_finalize_each (s : addr) l : forall w x,
  heap w !! s = Some x ->
  exists pc,
    finalize_each s l w
    = Some (tt, with_trace (trace w ++ flat_map (finalize_calls (completed w)) l)
                  (with_heap (<[s := set_pending_calls pc x]> (heap w)) w)).
Proof.
  induction l as [|r l IH]; intros w x Hs.
  - exists (pending_calls x). cbn. unfold ret. weq; try done.
    + rewrite insert_id; [done|]. rewrite Hs. by destruct x.
    + by rewrite app_nil_r.
  - cbn [finalize_each flat_map].
    rewrite (bt_bind_run _ _ w tt
               (with_heap (<[s := set_pending_calls (remove_req (pending_calls x) r) x]>
                             (heap w)) w)) by (mrun; done).
    set (w1 := with_heap _ w).
    rewrite (bt_bind_run _ _ _ _ _ (run_finalize r w1)).
    set (w2 := with_trace _ w1).
    destruct (IH w2 (set_pending_calls (remove_req (pending_calls x) r) x))
      as [pc ->]; [apply lookup_insert_eq|].
    exists pc. subst w2 w1. weq; try done.
    + by rewrite !insert_insert_eq.
    + by rewrite <- app_assoc.
Qed.

Lemma run_session_destroy release w (s : addr) x :
  existsb (Nat.eqb s) (sessions w) = true ->
  heap w !! s = Some x ->
  session_destroy release s w = Some (tt, destroyed release w s x).
Proof.
  intros Hin Hs. unfold session_destroy.
  rewrite (bt_bind_run _ _ w w w) by done. rewrite Hin. cbn [negb].
  set (w1 := with_sessions (remove_addr (sessions w) s) w).
  rewrite (bt_bind_run _ _ w tt w1) by done.
  rewrite (bt_bind_run _ _ w1 x w1) by (unfold load; subst w1; wfields; by rewrite Hs).
  set (rel := match adapter x, release with
              | Some a, SendOk _ =>
                  [MethodCall (conn_system x) a BT_ADAPTER_IFACE "ReleaseSession"
                     None None]
              | _, _ => []
              end).
  rewrite (bt_bind_run _ _ w1 tt (with_trace (trace w1 ++ rel) w1)).
  2:{ subst rel. unfold send_method_call.
      destruct (adapter x); [destruct release|]; mrun; try reflexivity;
        weq; try done; by rewrite app_nil_r. }
  set (w2 := with_trace _ w1).
  destruct (run_finalize_each s (pending_calls x) w2 x) as [pc Hfin];
    [subst w2 w1; wfields; done|].
  rewrite (bt_bind_run _ _ _ _ _ Hfin). clear Hfin.
  set (w3 := with_trace _ _).
  rewrite (bt_bind_run _ _ w3 (set_pending_calls pc x) w3)
    by (unfold load; subst w3; wfields; by rewrite lookup_insert_eq).
  unfold destroyed, destroy_calls. fold rel.
  destruct (io x) eqn:Hio; destruct (conn_system x) eqn:Hc;
    cbn [io conn_system set_pending_calls]; rewrite ?Hio, ?Hc; mrun;
    subst w3 w2 w1; weq; try done;
    rewrite ?delete_insert_eq, <- ?app_assoc; reflexivity.
Qed.

Lemma run_session_destroy_gone release w (s : addr) :
  existsb (Nat.eqb s) (sessions w) = false ->
  session_destroy release s w = Some (tt, w).
Proof. intros H. unfold session_destroy, the_world, bind. by rewrite H. Qed.

(** *** The registry

    [s] is in the registry once, and no entry before it is a connection
    with the same id. *)
Definition registered (w : world) (s : addr) (x : bluetooth_session) : Prop :=
  exists l1 l2,
    sessions w = l1 ++ s :: l2 /\ (s ∉ l1) /\ (s ∉ l2)
    /\ Forall (fun s' => exists x', heap w !! s' = Some x' /\ id x' <> id x) l1.

Lemma existsb_eqb_true (s : addr) (l : list addr) : s ∈ l -> existsb (Nat.eqb s) l = true.
Proof.
  intros H. apply existsb_exists. exists s. split; [by apply list_elem_of_In|].
  apply Nat.eqb_refl.
Qed.

Lemma existsb_eqb_false (s : addr) (l : list addr) : s ∉ l -> existsb (Nat.eqb s) l = false.
Proof.
  intros H. apply not_true_is_false. intros E. apply existsb_exists in E as (y & Hy & E).
  apply Nat.eqb_eq in E. subst y. by apply H, list_elem_of_In.
Qed.

Lemma remove_addr_first (l1 : list addr) (s : addr) l2 : s ∉ l1 -> remove_addr (l1 ++ s :: l2) s = l1 ++ l2.
Proof.
  induction l1 as [|y l1 IH]; intros H; cbn.
  - by rewrite Nat.eqb_refl.
  - apply not_elem_of_cons in H as [Hne H].
    destruct (Nat.eqb_spec y s); [congruence|]. by rewrite IH.
Qed.

Lemma registered_in w s x : registered w s x -> existsb (Nat.eqb s) (sessions w) = true.
Proof.
  intros (l1 & l2 & -> & _). apply existsb_eqb_true, elem_of_app. right. by left.
Qed.

Lemma registered_removed w s x :
  registered w s x -> s ∉ remove_addr (sessions w) s.
Proof.
  intros (l1 & l2 & -> & H1 & H2 & _). rewrite remove_addr_first by done.
  by intros [?|?]%elem_of_app.
Qed.

(** Updates of the connection itself and of the trace keep it
    registered. *)
Lemma registered_update w w' s x x' :
  registered w s x ->
  sessions w' = sessions w ->
  (forall s', s' <> s -> heap w' !! s' = heap w !! s') ->
  id x' = id x ->
  registered w' s x'.
Proof.
  intros (l1 & l2 & Hreg & H1 & H2 & Hall) Hsess Hheap Hid.
  exists l1, l2. rewrite Hsess, Hid. repeat split; try done.
  apply Forall_forall. intros s' Hs'.
  rewrite Forall_forall in Hall. destruct (Hall s' Hs') as (x0 & Hx0 & Hne).
  exists x0. split; [|done]. rewrite Hheap; [done|]. by intros ->.
Qed.

Lemma run_disconnect_in release l1 : forall w s x l2,
  s ∉ l1 ->
  Forall (fun s' => exists x', heap w !! s' = Some x' /\ id x' <> id x) l1 ->
  heap w !! s = Some x ->
  disconnect_in release (l1 ++ s :: l2) (id x) w = session_destroy release s w.
Proof.
  induction l1 as [|y l1 IH]; intros w s x l2 Hn Hall Hs; cbn [app disconnect_in].
  - rewrite (bt_bind_run _ _ w x w) by (unfold load; by rewrite Hs).
    by rewrite Z.eqb_refl.
  - apply Forall_cons in Hall as [(x' & Hy & Hne) Hall].
    apply not_elem_of_cons in Hn as [_ Hn].
    rewrite (bt_bind_run _ _ w x' w) by (unfold load; by rewrite Hy).
    destruct (Z.eqb_spec (id x') (id x)); [done|]. by apply IH.
Qed.

Lemma run_bluetooth_disconnect release w s x :
  registered w s x -> heap w !! s = Some x ->
  bluetooth_disconnect release (id x) w = Some (tt, destroyed release w s x).
Proof.
  intros Hreg Hs. pose proof (registered_in _ _ _ Hreg) as Hin.
  destruct Hreg as (l1 & l2 & Hl & H1 & H2 & Hall).
  unfold bluetooth_disconnect. rewrite (bt_bind_run _ _ w w w) by done.
  rewrite Hl, (run_disconnect_in release l1 w s x l2) by done.
  by apply run_session_destroy.
Qed.

(** *** Reporting a failure *)

(** The caller's function is called and the connection destroyed; the
    outcome is the same whether the function comes back to disconnect
    this connection or not, since then [session_destroy] runs inside the
    call and finds nothing to do afterwards. *)
Lemma run_report release reenters w (s : addr) x f io0 err :
  registered w s x -> heap w !! s = Some x -> func x = Some f ->
  (call_result release reenters s io0 err >> session_destroy release s) w
  = Some (tt, destroyed release
                (with_trace (trace w ++ [Result f io0 err (user_data x)]) w) s x).
Proof.
  intros Hreg Hs Hf.
  set (w0 := with_trace (trace w ++ [Result f io0 err (user_data x)]) w).
  assert (Hreg0 : registered w0 s x) by (by apply (registered_update w w0 s x x)).
  assert (Hs0 : heap w0 !! s = Some x) by done.
  unfold call_result.
  destruct reenters.
  - rewrite (bt_bind_run _ _ w tt (destroyed release w0 s x)).
    + apply run_session_destroy_gone. apply existsb_eqb_false.
      by apply (registered_removed w0 s x).
    + rewrite (bt_bind_run _ _ w x w) by (unfold load; by rewrite Hs).
      rewrite Hf. rewrite (bt_bind_run _ _ w tt w0) by done.
      by apply run_bluetooth_disconnect.
  - rewrite (bt_bind_run _ _ w tt w0).
    + apply run_session_destroy; [by apply (registered_in w0 s x)|done].
    + rewrite (bt_bind_run _ _ w x w) by (unfold load; by rewrite Hs).
      rewrite Hf. by rewrite (bt_bind_run _ _ w tt w0).
Qed.

Definition is_result (e : event) : bool :=
  match e with Result _ _ _ _ => true | _ => false end.

(** What a reported failure leaves behind, read off the calls made since
    the state [w] in which the handler found the connection [x]: one call
    of the caller's function, with an error that has a message; the
    connection gone from the registry and freed; every request that was
    pending finalized; the channel that was held shut down; the adapter
    session released when an adapter path was recorded. *)
Definition reported_and_torn_down (release : send_outcome) (f : nat) (w w' : world)
    (s : addr) (x : bluetooth_session) : Prop :=
  exists pre post io0 err,
    trace w' = trace w ++ pre ++ [Result f io0 (Some err) (user_data x)] ++ post
    /\ Forall (fun e => is_result e = false) (pre ++ post)
    /\ message err <> ""
    /\ heap w' !! s = None
    /\ (s ∉ sessions w')
    /\ (forall r, r ∈ pending_calls x -> PendingUnref (call r) ∈ pre ++ post)
    /\ (forall i, io x = Some i -> IoShutdown (Some i) ∈ pre ++ post)
    /\ (forall a c, adapter x = Some a -> release = SendOk c ->
          MethodCall (conn_system x) a BT_ADAPTER_IFACE "ReleaseSession" None None ∈ post)
    /\ (Free s ∈ post).

Lemma finalize_calls_no_result done l :
  Forall (fun e => is_result e = false) (flat_map (finalize_calls done) l).
Proof.
  induction l as [|r l IH]; [constructor|]. cbn [flat_map]. apply Forall_app. split; [|done].
  unfold finalize_calls. destruct (existsb _ _); repeat constructor.
Qed.

Lemma destroy_calls_no_result release done s x :
  Forall (fun e => is_result e = false) (destroy_calls release done s x).
Proof.
  unfold destroy_calls. repeat apply Forall_app_2.
  - destruct (adapter x), release; repeat constructor.
  - apply finalize_calls_no_result.
  - destruct (io x); repeat constructor.
  - destruct (conn_system x); repeat constructor.
  - repeat constructor.
Qed.

Lemma finalize_calls_unref done l r :
  r ∈ l -> PendingUnref (call r) ∈ flat_map (finalize_calls done) l.
Proof.
  intros H. apply list_elem_of_In, in_flat_map. exists r.
  split; [by apply list_elem_of_In|]. unfold finalize_calls.
  apply in_or_app. right. by left.
Qed.

Lemma run_report_unfolded release reenters w (s : addr) x f io0 err :
  registered w s x -> heap w !! s = Some x -> func x = Some f ->
  match call_result release reenters s io0 err w with
  | Some (_, w') => session_destroy release s w'
  | None => None
  end
  = Some (tt, destroyed release
                (with_trace (trace w ++ [Result f io0 err (user_data x)]) w) s x).
Proof. apply run_report. Qed.

Lemma teardown_facts release f w w1 (s : addr) x x1 pre io0 err :
  trace w1 = trace w ++ pre ->
  Forall (fun e => is_result e = false) pre ->
  message err <> "" ->
  registered w1 s x1 ->
  user_data x1 = user_data x ->
  conn_system x1 = conn_system x ->
  (forall a, adapter x = Some a -> adapter x1 = Some a) ->
  (forall r, r ∈ pending_calls x ->
     PendingUnref (call r) ∈ pre \/ r ∈ pending_calls x1) ->
  (forall i, io x = Some i -> IoShutdown (Some i) ∈ pre \/ io x1 = Some i) ->
  reported_and_torn_down release f w
    (destroyed release
       (with_trace (trace w1 ++ [Result f io0 (Some err) (user_data x1)]) w1) s x1)
    s x.
Proof.
  intros Htr Hpre Hmsg Hreg Hud Hconn Had Hpend Hio.
  exists pre, (destroy_calls release (completed w1) s x1), io0, err.
  unfold destroyed. wfields. rewrite Htr, Hud, <- !app_assoc.
  split; [reflexivity|]. split.
  { apply Forall_app. split; [done|]. apply destroy_calls_no_result. }
  split; [done|]. split; [apply lookup_delete_eq|].
  split; [by apply (registered_removed w1 s x1)|].
  unfold destroy_calls. split.
  { intros r Hr. apply elem_of_app. destruct (Hpend r Hr) as [?|Hr1]; [by left|right].
    apply elem_of_app. right. apply elem_of_app. left. by apply finalize_calls_unref. }
  split.
  { intros i Hi. apply elem_of_app. destruct (Hio i Hi) as [?|Hi1]; [by left|right].
    rewrite Hi1. rewrite !elem_of_app. right. right. left. by left. }
  split.
  { intros a c Ha ->. rewrite (Had a Ha), Hconn. apply elem_of_app. left. by left. }
  rewrite !elem_of_app. right. right. right. right. by left.
Qed.

Lemma elem_of_remove_req l r r' :
  r' ∈ l -> call r' <> call r -> r' ∈ remove_req l r.
Proof.
  induction l as [|y l IH]; intros H Hne; [by apply elem_of_nil in H|].
  cbn. apply elem_of_cons in H as [->|H].
  - destruct (Nat.eqb_spec (call y) (call r)); [done|by left].
  - destruct (Nat.eqb_spec (call y) (call r)); [done|]. right. by apply IH.
Qed.

Lemma find_session_request_some x c r :
  find_session_request x c = Some r -> call r = c.
Proof. intros H. apply find_some in H as [_ H]. by apply Nat.eqb_eq. Qed.

(** The head of a reply handler: the reply of [c] has arrived, its
    request leaves the list and is released without being cancelled. *)
Definition reply_taken (w : world) (s : addr) (x : bluetooth_session) (c : nat)
    (r : pending_req) : world :=
  with_trace (trace w ++ [PendingUnref c])
    (with_heap (<[s := set_pending_calls (remove_req (pending_calls x) r) x]> (heap w))
       (with_completed (c :: completed w) w)).

Lemma run_take_reply w (s : addr) x c r :
  heap w !! s = Some x -> find_session_request x c = Some r ->
  take_reply c s w = Some (tt, reply_taken w s x c r).
Proof.
  intros Hs Hfind. pose proof (find_session_request_some _ _ _ Hfind) as Hc.
  unfold take_reply, pending_req_finalize, reply_taken. mrun.
  rewrite Hc. cbn [existsb]. rewrite Nat.eqb_refl. mrun. reflexivity.
Qed.

(** *** The failures the handlers report

    The invocations of the handlers of the chain that take a failure
    branch, for a connection [s] found in state [x]: the adapter lookup
    reply, the RequestSession reply, the readiness of the SDP socket, the
    SDP response, and the completion of the RFCOMM connection. *)
Inductive failure (release : send_outcome) (reenters : bool) (s : addr)
    (x : bluetooth_session) : M unit -> Prop :=
  | lookup_error c r name msg request :
      find_session_request x c = Some r ->
      failure release reenters s x
        (manager_reply release reenters request c (ReplyError name msg) s)
  | lookup_without_path c r request :
      find_session_request x c = Some r ->
      failure release reenters s x
        (manager_reply release reenters request c (ReplyArgs None) s)
  | request_not_sent c r a :
      find_session_request x c = Some r -> adapter x = None ->
      failure release reenters s x
        (manager_reply release reenters SendFailed c (ReplyArgs (Some a)) s)
  | request_error c r name msg env :
      find_session_request x c = Some r ->
      failure release reenters s x
        (adapter_reply release reenters env c (ReplyError name msg) s)
  | connect_not_started c r p env :
      find_session_request x c = Some r -> io x = None ->
      ((0 <? port x) = true /\ rfcomm_out env = None)
      \/ ((0 <? port x) = false /\ (sdp_out env = None \/ io_out env = None)) ->
      failure release reenters s x
        (adapter_reply release reenters env c (ReplyArgs p) s)
  | sdp_socket_error le notify_ret search_ret io0 cond :
      G_IO_NVAL cond = false -> G_IO_ERR cond = true ->
      failure release reenters s x
        (let* _ := service_callback release reenters le notify_ret search_ret io0 cond s
         in ret tt)
  | sdp_notify_refused le notify_ret search_ret io0 cond :
      G_IO_NVAL cond = false -> G_IO_ERR cond = false -> notify_ret < 0 ->
      failure release reenters s x
        (let* _ := service_callback release reenters le notify_ret search_ret io0 cond s
         in ret tt)
  | service_not_a_uuid le notify_ret search_ret io0 cond str :
      G_IO_NVAL cond = false -> G_IO_ERR cond = false -> 0 <= notify_ret ->
      service x = Some str -> snd (Uuid.bt_string2uuid le str) = None ->
      failure release reenters s x
        (let* _ := service_callback release reenters le notify_ret search_ret io0 cond s
         in ret tt)
  | search_not_sent le notify_ret search_ret io0 cond str uuid :
      G_IO_NVAL cond = false -> G_IO_ERR cond = false -> 0 <= notify_ret ->
      service x = Some str -> snd (Uuid.bt_string2uuid le str) = Some uuid ->
      search_ret < 0 ->
      failure release reenters s x
        (let* _ := service_callback release reenters le notify_ret search_ret io0 cond s
         in ret tt)
  | search_refused out rsp :
      status rsp <> 0 \/ rsp_type rsp <> SDP_SVC_SEARCH_ATTR_RSP ->
      failure release reenters s x (search_callback release reenters out rsp s)
  | search_malformed out rsp :
      status rsp = 0 -> rsp_type rsp = SDP_SVC_SEARCH_ATTR_RSP ->
      seq_scanned rsp = 0 \/ seqlen rsp = 0 ->
      failure release reenters s x (search_callback release reenters out rsp s)
  | search_without_channel out rsp :
      status rsp = 0 -> rsp_type rsp = SDP_SVC_SEARCH_ATTR_RSP ->
      seq_scanned rsp <> 0 -> seqlen rsp <> 0 ->
      scan_records (records rsp) (size rsp) (seq_scanned rsp)
        ((size rsp mod 2 ^ 32 - seq_scanned rsp) mod 2 ^ 32) = 0 ->
      failure release reenters s x (search_callback release reenters out rsp s)
  | rfcomm_error io0 e :
      message e <> "" ->
      failure release reenters s x (rfcomm_callback release reenters io0 (Some e) s).

Lemma reply_failed_torn_down release reenters w (s : addr) x f c r err :
  registered w s x -> heap w !! s = Some x -> func x = Some f ->
  find_session_request x c = Some r -> message err <> "" ->
  exists w',
    (let* x := load s in
     call_result release reenters s (io x) (Some err) >> session_destroy release s)
      (reply_taken w s x c r) = Some (tt, w')
    /\ reported_and_torn_down release f w w' s x.
Proof.
  intros Hreg Hs Hf Hfind Hmsg.
  pose proof (find_session_request_some _ _ _ Hfind) as Hc.
  set (x1 := set_pending_calls (remove_req (pending_calls x) r) x).
  set (w1 := reply_taken w s x c r).
  assert (Hs1 : heap w1 !! s = Some x1) by apply lookup_insert_eq.
  assert (Hreg1 : registered w1 s x1).
  { apply (registered_update w w1 s x x1); try done.
    intros s' Hne. subst w1. unfold reply_taken. wfields. by rewrite lookup_insert_ne. }
  rewrite (bt_bind_run _ _ w1 x1 w1) by (unfold load; by rewrite Hs1).
  rewrite (run_report release reenters w1 s x1 f) by done.
  eexists. split; [reflexivity|].
  apply (teardown_facts release f w w1 s x x1 [PendingUnref c]); try done.
  - repeat constructor.
  - intros r' Hr'. destruct (Nat.eq_dec (call r') (call r)) as [E|E].
    + left. rewrite E, Hc. by left.
    + right. by apply elem_of_remove_req.
  - intros i Hi. by right.
Qed.

Lemma search_failed_torn_down release reenters w (s : addr) x f :
  registered w s x -> heap w !! s = Some x -> func x = Some f ->
  exists w',
    search_failed release reenters s w = Some (tt, w')
    /\ reported_and_torn_down release f w w' s x.
Proof.
  intros Hreg Hs Hf. unfold search_failed.
  set (x1 := set_io None x).
  set (w1 := with_heap (<[s := x1]> (heap w))
               (with_trace (trace w ++ [IoShutdown (io x); IoUnref (io x)]) w)).
  assert (Hs1 : heap w1 !! s = Some x1) by apply lookup_insert_eq.
  assert (Hreg1 : registered w1 s x1).
  { apply (registered_update w w1 s x x1); try done.
    intros s' Hne. subst w1. wfields. by rewrite lookup_insert_ne. }
  assert (Hrun : forall k : M unit,
    (let* x := load s in
     emit (IoShutdown (io x)) >> emit (IoUnref (io x)) >> modify s (set_io None) >> k) w
    = k w1).
  { intros k. mrun. subst w1 x1. by rewrite <- app_assoc. }
  rewrite Hrun, (run_report release reenters w1 s x1 f) by done.
  eexists. split; [reflexivity|].
  apply (teardown_facts release f w w1 s x x1 [IoShutdown (io x); IoUnref (io x)]);
    try done.
  - repeat constructor.
  - intros r Hr. by right.
  - intros i Hi. left. rewrite Hi. by left.
Qed.

Lemma torn_down_after release f w w0 w' (s : addr) x pre0 :
  trace w0 = trace w ++ pre0 ->
  Forall (fun e => is_result e = false) pre0 ->
  reported_and_torn_down release f w0 w' s x ->
  reported_and_torn_down release f w w' s x.
Proof.
  intros Htr Hpre0 (pre & post & io0 & err & Ht & Hno & Hmsg & Hh & Hs & Hp & Hio & Ha & Hf).
  exists (pre0 ++ pre), post, io0, err. rewrite Ht, Htr, <- !app_assoc.
  split; [reflexivity|]. split; [by apply Forall_app|].
  repeat split; try done.
  - intros r Hr. apply elem_of_app. right. by apply Hp.
  - intros i Hi. apply elem_of_app. right. by apply Hio.
Qed.

(** Running a handler from a state that differs from [w] by calls
    already made. *)
Lemma search_failed_after release reenters w (s : addr) x f pre0 :
  registered w s x -> heap w !! s = Some x -> func x = Some f ->
  Forall (fun e => is_result e = false) pre0 ->
  exists w',
    search_failed release reenters s (with_trace (trace w ++ pre0) w) = Some (tt, w')
    /\ reported_and_torn_down release f w w' s x.
Proof.
  intros Hreg Hs Hf Hpre.
  set (w0 := with_trace (trace w ++ pre0) w).
  assert (Hreg0 : registered w0 s x) by (by apply (registered_update w w0 s x x)).
  destruct (search_failed_torn_down release reenters w0 s x f Hreg0)
    as (w' & Hrun & Hdown); try done.
  exists w'. split; [done|]. by apply (torn_down_after release f w w0 w' s x pre0).
Qed.

(** After the head of a reply handler and further updates of the
    connection and of the trace, the failure block reports and tears
    down. *)
Lemma reply_then_failed release reenters w (s : addr) x f c r err x2 w2 pre io0 :
  registered w s x -> heap w !! s = Some x -> func x = Some f ->
  find_session_request x c = Some r -> message err <> "" ->
  heap w2 = <[s := x2]> (heap (reply_taken w s x c r)) ->
  sessions w2 = sessions w ->
  trace w2 = trace w ++ PendingUnref c :: pre ->
  Forall (fun e => is_result e = false) pre ->
  id x2 = id x -> func x2 = Some f -> user_data x2 = user_data x ->
  conn_system x2 = conn_system x ->
  (forall a, adapter x = Some a -> adapter x2 = Some a) ->
  pending_calls x2 = remove_req (pending_calls x) r ->
  (forall i, io x = Some i -> io x2 = Some i) ->
  exists w',
    match call_result release reenters s io0 (Some err) w2 with
    | Some (_, w') => session_destroy release s w'
    | None => None
    end = Some (tt, w')
    /\ reported_and_torn_down release f w w' s x.
Proof.
  intros Hreg Hs Hf Hfind Hmsg Hh2 Hse2 Htr2 Hpre Hid Hf2 Hud Hconn Had Hpc Hio.
  pose proof (find_session_request_some _ _ _ Hfind) as Hc.
  assert (Hs2 : heap w2 !! s = Some x2) by (rewrite Hh2; apply lookup_insert_eq).
  assert (Hreg2 : registered w2 s x2).
  { apply (registered_update w w2 s x x2); try done.
    intros s' Hne. rewrite Hh2. unfold reply_taken. wfields.
    by rewrite !lookup_insert_ne. }
  rewrite (run_report_unfolded release reenters w2 s x2 f) by done.
  eexists. split; [reflexivity|].
  apply (teardown_facts release f w w2 s x x2 (PendingUnref c :: pre)); try done.
  - by constructor.
  - intros r' Hr'. destruct (Nat.eq_dec (call r') (call r)) as [E|E].
    + left. rewrite E, Hc. by left.
    + right. rewrite Hpc. by apply elem_of_remove_req.
  - intros i Hi. right. by apply Hio.
Qed.

Ltac reply_side :=
  first
    [ done
    | by (wfields; unfold reply_taken; wfields;
          rewrite ?insert_insert_eq, <- ?app_assoc)
    | by repeat constructor
    | intros; congruence ].

(** The failure branches that report and tear down: every failure of
    the relation above (an error reply or a reply without path to the adapter
    lookup, a RequestSession call that cannot be sent or is answered by
    an error, a connection that cannot be started, an error on the SDP
    socket or a refused, malformed or channel-less SDP response, a failed
    RFCOMM connection), for a connection that was given a result
    function, calls that function exactly once, with an error that has a
    message, and tears the connection down: it leaves the registry and is
    freed, every pending call is finalized, the channel it holds is shut
    down, and the adapter session is released when an adapter path was
    recorded.  This holds whether or not the result function disconnects
    the connection itself before it returns.  Two failures of the chain
    are not in the relation, since the code treats them otherwise: a
    socket error seen by [process_callback], and an RFCOMM connection
    that [search_callback] cannot start. *)
Theorem failure_reported_once (release : send_outcome) (reenters : bool) (w : world)
    (s : addr) (x : bluetooth_session) (f : nat) (step : M unit) :
  failure release reenters s x step ->
  registered w s x ->
  heap w !! s = Some x ->
  func x = Some f ->
  exists w', step w = Some (tt, w') /\ reported_and_torn_down release f w w' s x.
Proof.
  intros Hfail Hreg Hs Hf.
  destruct Hfail as
    [ c r name msg request Hfind | c r request Hfind | c r a Hfind Hnone
    | c r name msg env Hfind | c r p env Hfind Hio Hconn
    | le nr sr io0 cond Hnval Herr | le nr sr io0 cond Hnval Herr Hneg
    | le nr sr io0 cond str Hnval Herr Hpos Hsvc Huuid
    | le nr sr io0 cond str uuid Hnval Herr Hpos Hsvc Huuid Hneg
    | out rsp Hst | out rsp Hst Hty Hseq | out rsp Hst Hty Hsc Hsl Hscan
    | io0 e Hmsg ].
  - unfold manager_reply.
    rewrite (bt_bind_run _ _ _ _ _ (run_take_reply w s x c r Hs Hfind)).
    by apply reply_failed_torn_down.
  - unfold manager_reply.
    rewrite (bt_bind_run _ _ _ _ _ (run_take_reply w s x c r Hs Hfind)).
    by apply reply_failed_torn_down.
  - unfold manager_reply.
    rewrite (bt_bind_run _ _ _ _ _ (run_take_reply w s x c r Hs Hfind)).
    assert (Hs1 : heap (reply_taken w s x c r) !! s
                  = Some (set_pending_calls (remove_req (pending_calls x) r) x))
      by apply lookup_insert_eq.
    unfold send_method_call. mrun.
    apply (reply_then_failed release reenters w s x f c r no_adapter_found
             (set_adapter (Some a) (set_pending_calls (remove_req (pending_calls x) r) x))
             _ []); try done.
    intros a' Ha'. congruence.
  - unfold adapter_reply.
    rewrite (bt_bind_run _ _ _ _ _ (run_take_reply w s x c r Hs Hfind)).
    by apply reply_failed_torn_down.
  - unfold adapter_reply.
    rewrite (bt_bind_run _ _ _ _ _ (run_take_reply w s x c r Hs Hfind)).
    assert (Hs1 : heap (reply_taken w s x c r) !! s
                  = Some (set_pending_calls (remove_req (pending_calls x) r) x))
      by apply lookup_insert_eq.
    unfold session_connect, rfcomm_connect, service_connect.
    destruct Hconn as [[Hport Hout] | [Hport [Hout | Hout]]].
    + mrun; change (- EINVAL <? 0) with true; mrun.
      apply (reply_then_failed release reenters w s x f c r unable_to_request_session
               (set_io None (set_pending_calls (remove_req (pending_calls x) r) x))
               _ [RfcommConnect (src x) (dst x) (port x) s None]); reply_side.
    + mrun; change (- ENOMEM <? 0) with true; mrun.
      apply (reply_then_failed release reenters w s x f c r unable_to_request_session
               (set_sdp None (set_pending_calls (remove_req (pending_calls x) r) x))
               _ [SdpConnect (src x) (dst x) None]); reply_side.
    + destruct (sdp_out env) as [sd|] eqn:Hsdp.
      * mrun; change (- ENOMEM <? 0) with true; mrun.
        apply (reply_then_failed release reenters w s x f c r unable_to_request_session
                 (set_sdp None (set_pending_calls (remove_req (pending_calls x) r) x))
                 _ [SdpConnect (src x) (dst x) (Some sd); SdpClose (Some sd)]);
          reply_side.
      * mrun; change (- ENOMEM <? 0) with true; mrun.
        apply (reply_then_failed release reenters w s x f c r unable_to_request_session
                 (set_sdp None (set_pending_calls (remove_req (pending_calls x) r) x))
                 _ [SdpConnect (src x) (dst x) None]); reply_side.
  - unfold service_callback. rewrite Hnval, Herr.
    destruct (search_failed_torn_down release reenters w s x f) as (w' & Hrun & Hdown);
      try done.
    exists w'. split; [|done]. unfold bind, ret. by rewrite Hrun.
  - unfold service_callback. rewrite Hnval, Herr.
    assert (Hlt : (nr <? 0) = true) by lia.
    destruct (search_failed_after release reenters w s x f [SdpSetNotify (sdp x) s nr])
      as (w' & Hrun & Hdown); try done; [repeat constructor|].
    exists w'. split; [|done]. mrun. reflexivity.
  - unfold service_callback. rewrite Hnval, Herr.
    assert (Hlt : (nr <? 0) = false) by lia.
    destruct (search_failed_after release reenters w s x f [SdpSetNotify (sdp x) s nr])
      as (w' & Hrun & Hdown); try done; [repeat constructor|].
    exists w'. split; [|done]. mrun.
    destruct (Uuid.bt_string2uuid le str) as [z o]. cbn in Huuid. subst o.
    mrun. reflexivity.
  - unfold service_callback. rewrite Hnval, Herr.
    assert (Hlt : (nr <? 0) = false) by lia.
    assert (Hlt' : (sr <? 0) = true) by lia.
    destruct (search_failed_after release reenters w s x f
                [SdpSetNotify (sdp x) s nr; SdpSearch (sdp x) uuid sr])
      as (w' & Hrun & Hdown); try done; [repeat constructor|].
    exists w'. split; [|done]. mrun.
    destruct (Uuid.bt_string2uuid le str) as [z o]. cbn in Huuid. subst o.
    mrun.
    match goal with
    | |- context [search_failed _ _ _ ?W] =>
        replace W with (with_trace (trace w ++ [SdpSetNotify (sdp x) s nr;
                                                SdpSearch (sdp x) uuid sr]) w)
          by (weq; rewrite <- ?app_assoc; done)
    end.
    mrun. reflexivity.
  - unfold search_callback.
    assert (E : negb (status rsp =? 0) || negb (rsp_type rsp =? SDP_SVC_SEARCH_ATTR_RSP)
                = true).
    { destruct Hst as [H|H]; [apply Z.eqb_neq in H|apply Z.eqb_neq in H]; rewrite H;
        cbn; by rewrite ?orb_true_r. }
    rewrite E. by apply search_failed_torn_down.
  - unfold search_callback. rewrite Hst, Hty. cbn [Z.eqb negb orb].
    rewrite Z.eqb_refl. cbn [negb orb].
    assert (E : (seq_scanned rsp =? 0) || (seqlen rsp =? 0) = true).
    { destruct Hseq as [H|H]; rewrite H, Z.eqb_refl; by rewrite ?orb_true_r. }
    rewrite E. by apply search_failed_torn_down.
  - unfold search_callback. rewrite Hst, Hty. cbn [Z.eqb negb orb].
    rewrite Z.eqb_refl. cbn [negb orb].
    apply Z.eqb_neq in Hsc, Hsl. rewrite Hsc, Hsl, Hscan. cbn [orb Z.eqb].
    by apply search_failed_torn_down.
  - unfold rfcomm_callback. cbn [is_some when].
    rewrite (run_report release reenters w s x f) by done.
    eexists. split; [reflexivity|].
    apply (teardown_facts release f w w s x x []); try done.
    + by rewrite app_nil_r.
    + intros r Hr. by right.
    + intros i Hi. by right.
Qed.

Definition session_at (w : world) (s : addr) : bluetooth_session :=
  default {| id := 0; src := ""; dst := ""; port := 0; conn_system := None; sdp := None;
             io := None; pending_calls := []; adapter := None; service := None;
             func := None; user_data := 0%nat |} (heap w !! s).

Lemma failure_reported_once_witness :
  let w := state_after connect_opp in
  exists w',
    manager_reply (SendOk 0%nat) true (SendOk 11%nat) 10%nat
      (ReplyError "org.bluez.Error.NoSuchAdapter" "No such adapter") 1%nat w
    = Some (tt, w')
    /\ reported_and_torn_down (SendOk 0%nat) 50%nat w w' 1%nat (session_at w 1%nat).
Proof.
  intros w.
  apply (failure_reported_once (SendOk 0%nat) true w 1%nat (session_at w 1%nat) 50%nat).
  - by apply (lookup_error _ _ _ _ 10%nat {| call := 10%nat |}).
  - exists [], []. split; [reflexivity|]. split; [apply not_elem_of_nil|].
    split; [apply not_elem_of_nil|constructor].
  - vm_compute; reflexivity.
  - reflexivity.
Defined.

(** *** Two failures that are not handled like the others *)

(** The connection of the example when its SDP socket is connected and
    [service_callback] has not run yet, an error condition on a socket,
    and a search response whose only record gives RFCOMM channel 9. *)
Definition run_sdp_connected : M unit :=
  let* _ := connect_opp in
  manager_reply (SendOk 0%nat) false (SendOk 11%nat) 10%nat
    (ReplyArgs (Some "/org/bluez/hci0")) 1%nat >>
  adapter_reply (SendOk 0%nat) false sdp_sockets 11%nat (ReplyArgs None) 1%nat.

Definition socket_error : condition :=
  {| G_IO_IN := false; G_IO_OUT := false; G_IO_ERR := true; G_IO_HUP := false;
     G_IO_NVAL := false |}.

Definition channel_9 : sdp_response :=
  {| rsp_type := SDP_SVC_SEARCH_ATTR_RSP; status := 0; size := 40; seq_scanned := 2;
     seqlen := 38;
     records := [{| extracted := true; recsize := 38; protos := Some 9 |}] |}.

(** C6 on the code: two failures of the chain are not reported and torn
    down as the claim says.  First, while the answer to the SDP search is
    awaited, a hang-up or an error of the SDP socket makes
    [process_callback] give its watch up and nothing more: the result
    function is never called, and the connection stays in the registry
    with its socket, its SDP connection and its adapter session.  The
    sibling [service_callback] handles the same condition on the same
    socket by reporting once and tearing down.  Second, when the search
    has found a channel but the RFCOMM connection cannot be started,
    [search_callback] reports once and destroys the connection, but the
    socket it dropped just before (with close-on-unref off) is never shut
    down and the SDP connection is never closed. *)
Lemma search_failures_mishandled :
  (let w := state_after run_searching in
   exists x,
     heap w !! 1%nat = Some x /\ sessions w = [1%nat]
     /\ io x = Some 4%nat /\ sdp x = Some 3%nat /\ adapter x = Some "/org/bluez/hci0"
     /\ func x = Some 50%nat
     /\ last (trace w) = Some (IoAddWatch (Some 4%nat) process_callback_fn 1%nat)
     /\ filter is_result (trace w) = []
     /\ process_callback 0 hung_up 1%nat w = Some (false, w)
     /\ process_callback 0 socket_error 1%nat w = Some (false, w))
  /\ (let w := state_after run_sdp_connected in
      exists w',
        service_callback (SendOk 0%nat) false true 0 0 (Some 4%nat) socket_error 1%nat w
        = Some (false, w')
        /\ sessions w' = [] /\ heap w' !! 1%nat = None
        /\ trace w' = trace w ++
             [IoShutdown (Some 4%nat); IoUnref (Some 4%nat);
              Result 50%nat None (Some service_not_found) 0%nat;
              MethodCall (Some 7%nat) "/org/bluez/hci0" BT_ADAPTER_IFACE "ReleaseSession"
                None None;
              BusUnref 7%nat; Free 1%nat])
  /\ (let w := state_after run_searching in
      exists w',
        search_callback (SendOk 0%nat) false None channel_9 1%nat w = Some (tt, w')
        /\ sessions w' = [] /\ heap w' !! 1%nat = None
        /\ trace w' = trace w ++
             [IoCloseOnUnref (Some 4%nat) false; IoUnref (Some 4%nat);
              RfcommConnect "00:00:00:00:00:00" "AA:BB:CC:DD:EE:FF" 9 1%nat None;
              IoShutdown None; IoUnref None;
              Result 50%nat None (Some service_not_found) 0%nat;
              MethodCall (Some 7%nat) "/org/bluez/hci0" BT_ADAPTER_IFACE "ReleaseSession"
                None None;
              BusUnref 7%nat; Free 1%nat]
        /\ existsb (fun e => match e with
                             | SdpClose _ | IoShutdown (Some _) => true
                             | _ => false
                             end) (trace w') = false).
Proof.
  split; [|split].
  - intros w. eexists. split; [vm_compute; reflexivity|].
    repeat match goal with |- _ /\ _ => split end; vm_compute; reflexivity.
  - intros w. eexists. split; [vm_compute; reflexivity|].
    repeat match goal with |- _ /\ _ => split end; vm_compute; reflexivity.
  - intros w. eexists. split; [vm_compute; reflexivity|].
    repeat match goal with |- _ /\ _ => split end; vm_compute; reflexivity.
Qed.

End BluetoothFacts.

(** ** session.c: the D-Bus object of a session *)

Module SessionObject.
Import Session.
Local Open Scope session_scope.

Definition SESSION_BASEPATH : string := "/org/openobex".

(** [obc_session_register]: [register_ok] is what
    [g_dbus_register_interface] returns and [probe_ret] what the driver's
    [probe] returns.  [counter] is a [guint64]. *)
Definition obc_session_register (register_ok : bool) (probe_ret : Z) (session : addr)
  : M (option string) :=
  let* x := load session in
  match path x with
  | Some p => ret (Some p)
  | None =>
      let fail := modify session (set_path None) >> ret None in
      let* w := the_world in
      let p := SESSION_BASEPATH +:+ "/session" +:+ pretty (counter w) in
      (fun w => Some (tt, with_counter ((counter w + 1) mod 2 ^ 64) w)) >>
      modify session (set_path (Some p)) >>
      emit (RegisterInterface p register_ok) >>
      if negb register_ok then fail
      else if probe (driver x) then
        emit (DriverProbe session probe_ret) >>
        if probe_ret <? 0 then emit (UnregisterInterface (Some p)) >> fail
        else ret (Some p)
      else ret (Some p)
  end.




(** [agent_destroy], the function the agent calls when it goes. *)
Definition agent_destroy (session : addr) : M unit := modify session (set_agent None).

(** The entries [session_get_properties] appends to its dictionary: a
    string entry holds the [char *] of the session, which may be [NULL]. *)
Inductive property_value := StringValue (s : option string) | ByteValue (b : Z).

Definition session_get_properties (session : addr)
  : M (list (string * property_value)) :=
  let* x := load session in
  ret ((if is_some (source x) then [("Source", StringValue (source x))] else [])
       ++ [("Destination", StringValue (destination x));
           ("Channel", ByteValue (channel x))]).

(** The accessors; the first two accept [NULL]. *)
Definition obc_session_get_agent (session : option addr) : M (option string) :=
  match session with
  | None => ret None
  | Some s => let* x := load s in ret (obc_agent_get_name (agent x))
  end.

Definition obc_session_get_owner (session : option addr) : M (option string) :=
  match session with
  | None => ret None
  | Some s => let* x := load s in ret (owner x)
  end.

Definition obc_session_get_path (session : addr) : M (option string) :=
  let* x := load session in ret (path x).

Definition obc_session_get_target (session : addr) : M (option (list Z)) :=
  let* x := load session in ret (target (driver x)).

Definition obc_session_get_obex (session : addr) : M (option nat) :=
  let* x := load session in ret (obex x).

Definition obc_session_get_transfer (session : addr) : M (option transfer) :=
  let* x := load session in ret (head (pending x)).

End SessionObject.

(** ** Further facts about session.c *)

Module SessionMore.
Import Session SessionObject SessionFacts.
Local Open Scope session_scope.

Local Arguments gint : simpl never.

(** *** Reference counting *)

(** X1: a reference taken with [obc_session_ref] and given back with
    [obc_session_unref] leaves the whole state as it was. *)
Theorem ref_then_unref_restores (w : world) (s : addr) (x : obc_session) :
  heap w !! s = Some x ->
  0 < refcount x < 2 ^ 31 - 1 ->
  (let* _ := obc_session_ref s in obc_session_unref s) w = Some (tt, w).
Proof.
  intros Hs Hrc.
  rewrite (bind_run _ _ _ _ _ (run_ref w s x Hs ltac:(lia))).
  rewrite (run_unref_keep _ s (set_refcount (refcount x + 1) x))
    by (cbn; first [apply lookup_insert_eq | lia]).
  cbn [refcount set_refcount heap with_heap]. rewrite with_heap_twice.
  do 2 f_equal. by apply ref_unref_same.
Qed.

Lemma ref_then_unref_restores_witness :
  let w := state_after run_connected in
  (let* _ := obc_session_ref 1%nat in obc_session_unref 1%nat) w = Some (tt, w).
Proof.
  intros w. apply (ref_then_unref_restores w 1%nat (session_at w 1%nat)).
  - vm_compute; reflexivity.
  - vm_compute. split; reflexivity.
Defined.

(** X2: giving back the last reference destroys the session: it leaves
    the registry and the heap, its collaborators are released in the
    order of [session_free], sources already queued on the main loop stay
    queued, and any further use of the pointer is undefined. *)
Theorem last_unref_destroys (w : world) (s : addr) (x : obc_session) :
  heap w !! s = Some x ->
  refcount x = 1 ->
  exists w',
    obc_session_unref s w = Some (tt, w')
    /\ heap w' = delete s (heap w)
    /\ sessions w' = g_slist_remove (sessions w) s
    /\ trace w' = trace w ++ free_calls s x
    /\ idle w' = idle w
    /\ transfers w' = transfers w
    /\ obc_session_unref s w' = None
    /\ obc_session_ref s w' = None.
Proof.
  intros Hs Hrc. eexists. split; [by apply run_unref_last|].
  unfold freed. wfields. rewrite delete_insert_eq.
  repeat split.
  - unfold obc_session_unref, bind, load. wfields. by rewrite lookup_delete_eq.
  - unfold obc_session_ref, modify, bind, load. wfields. by rewrite lookup_delete_eq.
Qed.

Lemma last_unref_destroys_witness :
  let w := state_after run_connected in
  exists w',
    obc_session_unref 1%nat w = Some (tt, w')
    /\ heap w' = delete 1%nat (heap w)
    /\ sessions w' = g_slist_remove (sessions w) 1%nat
    /\ trace w' = trace w ++ free_calls 1%nat (session_at w 1%nat)
    /\ idle w' = idle w
    /\ transfers w' = transfers w
    /\ obc_session_unref 1%nat w' = None
    /\ obc_session_ref 1%nat w' = None.
Proof.
  intros w. apply (last_unref_destroys w 1%nat (session_at w 1%nat)).
  - vm_compute; reflexivity.
  - vm_compute; reflexivity.
Defined.

(** *** The registry *)

Lemma session_find_in_split w source destination service channel owner l :
  (forall s, s ∈ l -> is_Some (heap w !! s)) ->
  exists r,
    session_find_in l source destination service channel owner w = Some (r, w)
    /\ match r with
       | Some s =>
           exists l1 l2 x,
             l = l1 ++ s :: l2
             /\ passed_over w source destination service channel owner l1
             /\ heap w !! s = Some x
             /\ session_matches source destination service channel owner x = true
       | None => passed_over w source destination service channel owner l
       end.
Proof.
  induction l as [|s l IH]; intros Hlive.
  - exists None. split; [done|]. constructor.
  - destruct (Hlive s) as [x Hx]; [by left|].
    cbn [session_find_in]. unfold bind at 1, load at 1. rewrite Hx.
    destruct (session_matches source destination service channel owner x) eqn:Hm.
    + exists (Some s). split; [done|]. exists [], l, x. repeat split; try done. constructor.
    + destruct IH as (r & Hr & Hspec); [intros; apply Hlive; by right|].
      exists r. split; [done|]. destruct r as [s'|].
      * destruct Hspec as (l1 & l2 & x' & -> & Hp & Hs' & Hm').
        exists (s :: l1), l2, x'. repeat split; try done.
        constructor; [by exists x|done].
      * constructor; [by exists x|done].
Qed.

(** X3: [session_find] reads the registry only, and answers with the
    first registered session that passes the tests of its loop: every
    entry before the one returned fails them, and [NULL] is returned only
    when every entry fails them. *)
Theorem session_find_first_match (w : world) (source destination service : option string)
    (channel : Z) (owner : option string) :
  (forall s, s ∈ sessions w -> is_Some (heap w !! s)) ->
  exists r,
    session_find source destination service channel owner w = Some (r, w)
    /\ match r with
       | Some s =>
           exists l1 l2 x,
             sessions w = l1 ++ s :: l2
             /\ passed_over w source destination service channel owner l1
             /\ heap w !! s = Some x
             /\ session_matches source destination service channel owner x = true
       | None => passed_over w source destination service channel owner (sessions w)
       end.
Proof.
  intros Hlive. unfold session_find, the_world, bind.
  by apply session_find_in_split.
Qed.

Lemma session_find_first_match_witness :
  let w := state_after run_on_channel_5 in
  exists r,
    session_find None (Some "AA:BB:CC:DD:EE:FF") (Some "OPP") 0 (Some ":1.5") w
    = Some (r, w)
    /\ match r with
       | Some s =>
           exists l1 l2 x,
             sessions w = l1 ++ s :: l2
             /\ passed_over w None (Some "AA:BB:CC:DD:EE:FF") (Some "OPP") 0
                  (Some ":1.5") l1
             /\ heap w !! s = Some x
             /\ session_matches None (Some "AA:BB:CC:DD:EE:FF") (Some "OPP") 0
                  (Some ":1.5") x = true
       | None =>
           passed_over w None (Some "AA:BB:CC:DD:EE:FF") (Some "OPP") 0 (Some ":1.5")
             (sessions w)
       end.
Proof.
  intros w. apply (session_find_first_match w).
  intros s Hs. change (s ∈ [1%nat]) in Hs. apply list_elem_of_singleton in Hs.
  subst s. vm_compute. by eexists.
Defined.

(** *** Creation *)

Ltac crun :=
  repeat first
    [ progress mrun
    | progress change (0 =? 0) with true
    | progress change (0 <? 0) with false
    | progress change (gint (1 + 1)) with 2
    | progress change (gint (2 - 1)) with 1
    | progress change (gint (1 - 1)) with 0
    | progress change (2 =? 0) with false
    | progress change (1 =? 0) with false
    | progress change (- EINVAL <? 0) with true
    | progress change (- ENOMEM <? 0) with true ].

(** X4: [obc_session_create] without a destination, or for a tuple no
    registered session matches when the transport, the driver, the bus
    or the memory for the session is missing, returns [NULL] and leaves
    the state untouched: nothing is allocated, registered or called. *)
Theorem create_gives_up_early (w : world) (env : create_env)
    (source destination service : option string) (channel : Z)
    (owner : option string) (function : option nat) (user_data : nat) :
  destination = None
  \/ (session_find source destination service channel owner w = Some (None, w)
      /\ (transport_found env = None \/ driver_found env = None \/ bus env = None
          \/ session_alloc env = false)) ->
  obc_session_create env source destination service channel owner function user_data w
  = Some (None, w).
Proof.
  intros [->|[Hfind Hmiss]]; [done|].
  unfold obc_session_create. destruct destination as [dst|]; [|done].
  rewrite (bind_run _ _ _ _ _ Hfind).
  destruct (transport_found env); [|done].
  destruct (driver_found env); [|done].
  destruct (bus env); [|done].
  destruct (session_alloc env); [|done].
  by destruct Hmiss as [?|[?|[?|?]]].
Qed.

Lemma create_gives_up_early_witness :
  let env :=
    {| transport_found := Some {| name := "Bluetooth" |}; driver_found := None;
       bus := Some 7%nat; session_alloc := true; owner_watch := 3;
       callback_alloc := true; connect_id := 1 |} in
  obc_session_create env None (Some "AA:BB:CC:DD:EE:FF") (Some "FTP") 0 (Some ":1.5")
    (Some 100%nat) 0%nat (state_after run_connected)
  = Some (None, state_after run_connected).
Proof.
  intros env. apply (create_gives_up_early (state_after run_connected) env).
  right. split; [vm_compute; reflexivity|]. right. left. reflexivity.
Defined.

(** The calls made for a new session whose connection cannot be
    started. *)
Definition refused_calls (env : create_env) (driver : obc_driver) (conn : nat)
    (source : option string) (dst : string) (channel : Z) (owner : option string)
    (function : option nat) (user_data : nat) (a : addr) : list event :=
  match owner with
  | Some o => [AddDisconnectWatch o a (owner_watch env)]
  | None => []
  end
  ++ (if callback_alloc env then
        [TransportConnect source (Some dst) (uuid driver) channel
           {| cd_session := a; cd_func := function; cd_data := user_data |}]
      else [])
  ++ match owner with
     | Some o => if owner_watch env =? 0 then [] else [RemoveWatch (owner_watch env)]
     | None => []
     end
  ++ [ConnectionUnref conn; Free a].

(** X5: when a new session is allocated but its connection cannot be
    started (no memory for the callback data, or [transport->connect]
    returns 0), [obc_session_create] returns [NULL] and the session is
    destroyed again: heap, registry and idle queue are as before, the
    owner watch is removed, the bus connection released, and the
    caller's function is never called. *)
Theorem create_refused_frees_session (w : world) (env : create_env)
    (source : option string) (dst : string) (service : option string) (channel : Z)
    (owner : option string) (function : option nat) (user_data : nat)
    (tr : obc_transport) (driver : obc_driver) (conn : nat) :
  session_find source (Some dst) service channel owner w = Some (None, w) ->
  transport_found env = Some tr ->
  driver_found env = Some driver ->
  bus env = Some conn ->
  session_alloc env = true ->
  callback_alloc env = false \/ connect_id env = 0 ->
  heap w !! next_addr w = None ->
  exists w',
    obc_session_create env source (Some dst) service channel owner function user_data w
    = Some (None, w')
    /\ heap w' = heap w
    /\ sessions w' = g_slist_remove (sessions w) (next_addr w)
    /\ idle w' = idle w
    /\ trace w'
       = trace w ++ refused_calls env driver conn source dst channel owner function
                      user_data (next_addr w).
Proof.
  intros Hfind Htr Hdr Hbus Hal Hwhy Hfresh.
  unfold obc_session_create. rewrite (bind_run _ _ _ _ _ Hfind).
  rewrite Htr, Hdr, Hbus, Hal. cbn [negb].
  unfold refused_calls, g_try_malloc0_session, new_session, obc_session_set_owner,
    session_connect, obc_session_ref, obc_session_unref, session_free,
    session_unregistered.
  assert (Hheap : forall y z : obc_session,
            delete (next_addr w) (<[next_addr w := y]> (<[next_addr w := z]> (heap w)))
            = heap w).
  { intros y z. rewrite insert_insert_eq, delete_insert_eq. by apply delete_id. }
  destruct (callback_alloc env) eqn:Hcb.
  - destruct Hwhy as [?|Hid]; [done|]. rewrite Hid.
    destruct owner as [o|]; [destruct (owner_watch env =? 0) eqn:Hw|];
      crun;
      (eexists; split; [reflexivity|]; wfields;
       rewrite ?insert_insert_eq, ?delete_insert_eq, <- ?app_assoc;
       repeat split; by apply delete_id).
  - destruct owner as [o|]; [destruct (owner_watch env =? 0) eqn:Hw|];
      crun;
      (eexists; split; [reflexivity|]; wfields;
       rewrite ?insert_insert_eq, ?delete_insert_eq, <- ?app_assoc;
       repeat split; by apply delete_id).
Qed.

Lemma create_refused_frees_session_witness :
  exists w',
    obc_session_create (collaborators 0) None (Some "AA:BB:CC:DD:EE:FF") (Some "OPP") 0
      (Some ":1.5") (Some 100%nat) 0%nat startup
    = Some (None, w')
    /\ heap w' = heap startup
    /\ sessions w' = g_slist_remove (sessions startup) (next_addr startup)
    /\ idle w' = idle startup
    /\ trace w'
       = trace startup
         ++ refused_calls (collaborators 0) opp 7%nat None "AA:BB:CC:DD:EE:FF" 0
              (Some ":1.5") (Some 100%nat) 0%nat (next_addr startup).
Proof.
  apply (create_refused_frees_session startup (collaborators 0) None
           "AA:BB:CC:DD:EE:FF" (Some "OPP") 0 (Some ":1.5") (Some 100%nat) 0%nat
           {| name := "Bluetooth" |} opp 7%nat);
    first [vm_compute; reflexivity | right; reflexivity].
Defined.

(** X6: when [obc_session_create] finds a registered session for the
    tuple but has no memory for the callback data, it returns [NULL] and
    gives back a reference of that session although it took none: the
    count of the session the earlier callers share drops by one, and when
    it was 1 the session is destroyed under them. *)
Theorem create_reuse_failure_drops_reference (w : world) (env : create_env)
    (source : option string) (dst : string) (service : option string) (channel : Z)
    (owner : option string) (function : option nat) (user_data : nat)
    (l1 : list addr) (s : addr) (l2 : list addr) (x : obc_session) :
  sessions w = l1 ++ s :: l2 ->
  passed_over w source (Some dst) service channel owner l1 ->
  heap w !! s = Some x ->
  session_matches source (Some dst) service channel owner x = true ->
  callback_alloc env = false ->
  0 < refcount x <= 2 ^ 31 ->
  obc_session_create env source (Some dst) service channel owner function user_data w
  = Some (None,
          if refcount x =? 1
          then freed (with_heap (<[s := set_refcount 0 x]> (heap w)) w) s x
          else with_heap (<[s := set_refcount (refcount x - 1) x]> (heap w)) w).
Proof.
  intros Hreg Hl1 Hs Hm Ha Hrc.
  unfold obc_session_create, session_find, the_world. unfold bind at 1 2.
  rewrite Hreg, (session_find_in_first _ _ _ _ _ _ _ _ _ _ Hl1 Hs Hm).
  unfold session_connect. rewrite Ha. crun.
  destruct (Z.eqb_spec (refcount x) 1) as [H1|H1].
  - by rewrite (run_unref_last w s x Hs H1).
  - by rewrite (run_unref_keep w s x Hs ltac:(lia)).
Qed.

Lemma create_reuse_failure_drops_reference_witness :
  let w := state_after run_connected in
  let env :=
    {| transport_found := Some {| name := "Bluetooth" |}; driver_found := Some opp;
       bus := Some 7%nat; session_alloc := true; owner_watch := 3;
       callback_alloc := false; connect_id := 1 |} in
  let x := session_at w 1%nat in
  obc_session_create env None (Some "AA:BB:CC:DD:EE:FF") (Some "OPP") 0 (Some ":1.5")
    (Some 100%nat) 0%nat w
  = Some (None,
          if refcount x =? 1
          then freed (with_heap (<[1%nat := set_refcount 0 x]> (heap w)) w) 1%nat x
          else with_heap (<[1%nat := set_refcount (refcount x - 1) x]> (heap w)) w).
Proof.
  intros w env x.
  apply (create_reuse_failure_drops_reference w env None "AA:BB:CC:DD:EE:FF"
           (Some "OPP") 0 (Some ":1.5") (Some 100%nat) 0%nat [] 1%nat [] x).
  - vm_compute; reflexivity.
  - constructor.
  - vm_compute; reflexivity.
  - vm_compute; reflexivity.
  - reflexivity.
  - vm_compute. split; [reflexivity|discriminate].
Defined.

(** *** Delivery of the transport stream *)

Lemma with_trace_twice a b w : with_trace a (with_trace b w) = with_trace a w.
Proof. by destruct w. Qed.

(** The calls [transport_func] makes when the connection cannot go on,
    and the error it hands to the caller's function. *)
Definition transport_failure (err : option GError) (obex_new : option nat)
    (connect_err : option GError) (callback : callback_data) (x : obc_session)
  : list event * option GError :=
  match err, obex_new with
  | Some e, _ => ([], Some e)
  | None, None => ([], None)
  | None, Some obex =>
      ([ObexConnect obex (target (driver x)) callback; ObexUnref obex], connect_err)
  end.

(** X7: when the transport reports an error, when [g_obex_new] fails, or
    when [g_obex_connect] fails, [transport_func] calls the caller's
    function once and gives back the reference of the connect request;
    the session gets no OBEX handle and does not enter the registry.
    The caller is handed the transport's or the engine's error, but when
    [g_obex_new] fails it is handed no error at all. *)
Theorem transport_func_failure (w : world) (io : option nat) (err : option GError)
    (obex_new : option nat) (connect_err : option GError) (callback : callback_data)
    (x : obc_session) (f : nat) :
  let s := cd_session callback in
  heap w !! s = Some x ->
  cd_func callback = Some f ->
  is_some err || negb (is_some obex_new) || is_some connect_err = true ->
  1 < refcount x <= 2 ^ 31 ->
  let '(calls, gerr) := transport_failure err obex_new connect_err callback x in
  transport_func io err obex_new connect_err callback w
  = Some (tt,
          with_heap (<[s := set_refcount (refcount x - 1) x]> (heap w))
            (with_trace (trace w ++ calls ++ [Callback f s gerr (cd_data callback)]) w))
  /\ (err = None -> obex_new = None -> gerr = None).
Proof.
  intros s Hs Hf Hfail Hrc. subst s.
  unfold transport_failure, transport_func, call_func.
  rewrite (bind_run _ _ w x w) by (unfold load; by rewrite Hs).
  rewrite Hf.
  assert (Hun : forall tr,
            obc_session_unref (cd_session callback) (with_trace tr w)
            = Some (tt, with_heap (<[cd_session callback := set_refcount (refcount x - 1) x]>
                                     (heap w)) (with_trace tr w))).
  { intros tr. by rewrite (run_unref_keep (with_trace tr w) _ x Hs Hrc). }
  destruct err as [e|]; [|destruct obex_new as [o|]; [destruct connect_err as [e|]|]];
    try discriminate Hfail;
    (split; [|done || by intros]);
    unfold emit, bind; wfields; rewrite ?with_trace_twice, Hun, <- ?app_assoc;
    reflexivity.
Qed.

Lemma transport_func_failure_witness :
  let w := state_after run_connecting in
  let x := session_at w 1%nat in
  let '(calls, gerr) := transport_failure None None None the_connect x in
  transport_func (Some 4%nat) None None None the_connect w
  = Some (tt,
          with_heap (<[1%nat := set_refcount (refcount x - 1) x]> (heap w))
            (with_trace (trace w ++ calls ++ [Callback 100%nat 1%nat gerr 0%nat]) w))
  /\ (@None GError = None -> @None nat = None -> gerr = None).
Proof.
  intros w x.
  apply (transport_func_failure w (Some 4%nat) None None None the_connect x 100%nat).
  - vm_compute; reflexivity.
  - reflexivity.
  - reflexivity.
  - vm_compute. split; [reflexivity|discriminate].
Defined.

(** X8: when the stream is delivered and the CONNECT request goes out,
    [transport_func] stores the OBEX handle, puts the session at the
    head of the registry and calls nobody but the engine; from then on
    [session_find] answers a lookup of the session's own tuple with this
    session. *)
Theorem transport_func_success_registers (w : world) (io : option nat) (obex : nat)
    (callback : callback_data) (x : obc_session) :
  let s := cd_session callback in
  heap w !! s = Some x ->
  exists w',
    transport_func io None (Some obex) None callback w = Some (tt, w')
    /\ heap w' = <[s := set_obex (Some obex) x]> (heap w)
    /\ sessions w' = s :: sessions w
    /\ trace w' = trace w ++ [ObexConnect obex (target (driver x)) callback]
    /\ idle w' = idle w
    /\ session_find (source x) (destination x) (Some (service (driver x))) (channel x)
         (owner x) w' = Some (Some s, w').
Proof.
  intros s Hs. subst s. unfold transport_func. mrun.
  eexists. split; [reflexivity|]. wfields. repeat split.
  unfold session_find, the_world, bind at 1. wfields. cbn [session_find_in].
  unfold bind, load. wfields. rewrite lookup_insert_eq.
  pose proof (session_matches_own (set_obex (Some obex) x)) as Hown.
  cbn [source destination driver channel owner set_obex] in Hown. by rewrite Hown.
Qed.

Lemma transport_func_success_registers_witness :
  let w := state_after run_connecting in
  let x := session_at w 1%nat in
  exists w',
    transport_func (Some 4%nat) None (Some 9%nat) None the_connect w = Some (tt, w')
    /\ heap w' = <[1%nat := set_obex (Some 9%nat) x]> (heap w)
    /\ sessions w' = 1%nat :: sessions w
    /\ trace w' = trace w ++ [ObexConnect 9%nat (target (driver x)) the_connect]
    /\ idle w' = idle w
    /\ session_find (source x) (destination x) (Some (service (driver x))) (channel x)
         (owner x) w' = Some (Some 1%nat, w').
Proof.
  intros w x. apply (transport_func_success_registers w (Some 4%nat) 9%nat the_connect x).
  vm_compute; reflexivity.
Defined.

(** *** Owner and agent *)

Lemma run_set_owner (w : world) (s : addr) (x : obc_session) (name : string)
    (new_watch : Z) :
  heap w !! s = Some x ->
  obc_session_set_owner s name new_watch w
  = Some (if new_watch =? 0 then - EINVAL else 0,
          with_heap
            (<[s := if new_watch =? 0 then set_watch 0 x
                    else set_owner (Some name) (set_watch new_watch x)]> (heap w))
            (with_trace
               (trace w ++ (if watch x =? 0 then [] else [RemoveWatch (watch x)])
                ++ [AddDisconnectWatch name s new_watch]) w)).
Proof.
  intros Hs. unfold obc_session_set_owner.
  destruct (Z.eqb_spec new_watch 0) as [->|Hn]; destruct (watch x =? 0) eqn:Hw;
    mrun; rewrite ?insert_insert_eq, <- ?app_assoc; try reflexivity;
    destruct (Z.eqb_spec new_watch 0); try done; mrun;
    rewrite ?insert_insert_eq, <- ?app_assoc; reflexivity.
Qed.


(** X9: [obc_session_set_owner] always removes the watch the session
    had.  When the new watch is installed the owner is replaced; when it
    is not (the bus gives 0), -EINVAL is returned, the session has no
    watch any more and still carries the name of its former owner. *)
Theorem set_owner_outcome (w : world) (s : addr) (x : obc_session) (name : string)
    (new_watch : Z) :
  heap w !! s = Some x ->
  obc_session_set_owner s name new_watch w
  = Some (if new_watch =? 0 then - EINVAL else 0,
          with_heap
            (<[s := if new_watch =? 0 then set_watch 0 x
                    else set_owner (Some name) (set_watch new_watch x)]> (heap w))
            (with_trace
               (trace w ++ (if watch x =? 0 then [] else [RemoveWatch (watch x)])
                ++ [AddDisconnectWatch name s new_watch]) w)).
Proof.
  intros Hs. unfold obc_session_set_owner.
  destruct (Z.eqb_spec new_watch 0) as [->|Hn]; destruct (watch x =? 0) eqn:Hw;
    mrun; rewrite ?insert_insert_eq, <- ?app_assoc; try reflexivity;
    destruct (Z.eqb_spec new_watch 0); try done; mrun;
    rewrite ?insert_insert_eq, <- ?app_assoc; reflexivity.
Qed.

Lemma set_owner_outcome_witness :
  let w := state_after run_connected in
  let x := session_at w 1%nat in
  obc_session_set_owner 1%nat ":1.9" 0 w
  = Some (if 0 =? 0 then - EINVAL else 0,
          with_heap
            (<[1%nat := if 0 =? 0 then set_watch 0 x
                        else set_owner (Some ":1.9") (set_watch 0 x)]> (heap w))
            (with_trace
               (trace w ++ (if watch x =? 0 then [] else [RemoveWatch (watch x)])
                ++ [AddDisconnectWatch ":1.9" 1%nat 0]) w)).
Proof.
  intros w x. apply (set_owner_outcome w 1%nat x ":1.9" 0).
  vm_compute; reflexivity.
Defined.



(** X10: a session holds at most the agent it was given first.
    [obc_session_set_agent] on a session that has an agent returns
    -EALREADY and changes nothing; on a session without one it creates
    the agent and returns 0, and it makes the agent's bus name the owner
    only if the session has no watch yet (a failure to install that
    watch is not reported). *)
Theorem set_agent_outcome (w : world) (s : addr) (x : obc_session) (name path : string)
    (new_watch : Z) :
  let a := {| agent_name := name; agent_path := path |} in
  heap w !! s = Some x ->
  obc_session_set_agent s name path new_watch w
  = match agent x with
    | Some _ => Some (- EALREADY, w)
    | None =>
        Some (0,
              if watch x =? 0 then
                with_heap
                  (<[s := set_agent (Some a)
                            (if new_watch =? 0 then set_watch 0 x
                             else set_owner (Some name) (set_watch new_watch x))]> (heap w))
                  (with_trace
                     (trace w ++ [AgentCreate a; AddDisconnectWatch name s new_watch]) w)
              else
                with_heap (<[s := set_agent (Some a) x]> (heap w))
                  (with_trace (trace w ++ [AgentCreate a]) w))
    end.
Proof.
  intros a Hs. unfold obc_session_set_agent.
  rewrite (bind_run _ _ w x w) by (unfold load; by rewrite Hs).
  destruct (agent x) eqn:Ha; [done|]. cbn [is_some].
  destruct (watch x =? 0) eqn:Hw.
  - unfold emit, bind.
    rewrite (run_set_owner (with_trace (trace w ++ [AgentCreate a]) w) s x)
      by (wfields; done).
    rewrite Hw. mrun. rewrite insert_insert_eq, <- app_assoc. reflexivity.
  - mrun. reflexivity.
Qed.

Lemma set_agent_outcome_witness :
  let w := state_after run_with_agent in
  let x := session_at w 1%nat in
  let a := {| agent_name := ":1.9"; agent_path := "/other" |} in
  obc_session_set_agent 1%nat ":1.9" "/other" 4 w
  = match agent x with
    | Some _ => Some (- EALREADY, w)
    | None =>
        Some (0,
              if watch x =? 0 then
                with_heap
                  (<[1%nat := set_agent (Some a)
                                (if 4 =? 0 then set_watch 0 x
                                 else set_owner (Some ":1.9") (set_watch 4 x))]> (heap w))
                  (with_trace
                     (trace w ++ [AgentCreate a; AddDisconnectWatch ":1.9" 1%nat 4]) w)
              else
                with_heap (<[1%nat := set_agent (Some a) x]> (heap w))
                  (with_trace (trace w ++ [AgentCreate a]) w))
    end.
Proof.
  intros w x a. apply (set_agent_outcome w 1%nat x ":1.9" "/other" 4).
  vm_compute; reflexivity.
Defined.



(** *** The transfer operations *)

(** X12: on a connected session whose queue is not empty
    [obc_session_put] returns -EISCONN at once: no transfer is
    registered and the state is as before. *)
Theorem put_busy_rejected (w : world) (s : addr) (x : obc_session) (env : op_env)
    (buf : string) (targetname : option string) :
  heap w !! s = Some x ->
  is_some (obex x) = true ->
  pending x <> [] ->
  obc_session_put env s buf targetname w = Some (- EISCONN, w).
Proof.
  intros Hs Ho Hp. unfold obc_session_put. mrun.
  by destruct (pending x).
Qed.

Lemma put_busy_rejected_witness :
  let w := state_after run_first_get in
  obc_session_put plain 1%nat "BEGIN:VCARD" (Some "a.vcf") w = Some (- EISCONN, w).
Proof.
  intros w. apply (put_busy_rejected w 1%nat (session_at w 1%nat)).
  - vm_compute; reflexivity.
  - vm_compute; reflexivity.
  - vm_compute. discriminate.
Defined.

(** X13: when [obc_transfer_register] fails on a connected session, the
    operation fails with the state untouched; [obc_session_get],
    [obc_session_pull] and [obc_session_put] give -EIO, and
    [obc_session_send] gives -EINVAL.  The completion function passed to
    a GET or PULL is not stored. *)
Theorem registration_failure_codes (w : world) (s : addr) (x : obc_session)
    (env : op_env) (type filename targetname : option string)
    (apparam : option (list Z)) (func : option nat) (user_data : nat) (buf : string) :
  heap w !! s = Some x ->
  is_some (obex x) = true ->
  reg env = None ->
  obc_session_get env s type filename targetname apparam func user_data w
    = Some (- EIO, w)
  /\ obc_session_pull env s type filename func user_data w = Some (- EIO, w)
  /\ obc_session_send env s filename targetname w = Some (- EINVAL, w)
  /\ (pending x = [] -> obc_session_put env s buf targetname w = Some (- EIO, w)).
Proof.
  intros Hs Ho Hr.
  unfold obc_session_get, obc_session_pull, obc_session_send, obc_session_put,
    obc_transfer_register.
  rewrite Hr. mrun. repeat split. intros Hp. by rewrite Hp.
Qed.

Lemma registration_failure_codes_witness :
  let w := state_after run_connected in
  let env := {| reg := None; set_file_ret := 0; op_request_ret := 0 |} in
  obc_session_get env 1%nat None (Some "a.vcf") None None (Some 200%nat) 0%nat w
    = Some (- EIO, w)
  /\ obc_session_pull env 1%nat None (Some "a.vcf") (Some 200%nat) 0%nat w
     = Some (- EIO, w)
  /\ obc_session_send env 1%nat (Some "a.vcf") None w = Some (- EINVAL, w)
  /\ (pending (session_at w 1%nat) = [] ->
      obc_session_put env 1%nat "BEGIN:VCARD" None w = Some (- EIO, w)).
Proof.
  intros w env.
  apply (registration_failure_codes w 1%nat (session_at w 1%nat) env None
           (Some "a.vcf") None None (Some 200%nat) 0%nat "BEGIN:VCARD").
  - vm_compute; reflexivity.
  - vm_compute; reflexivity.
  - reflexivity.
Defined.

(** X14: [obc_session_send] on a connected session with a transfer
    already queued appends the new transfer at the tail of the queue and
    takes a reference for it; no authorization is asked for it and
    nothing is queued on the main loop, so it waits for the queue to
    advance. *)
Theorem send_behind_queue_waits (w : world) (s : addr) (x : obc_session) (env : op_env)
    (filename targetname : option string) (p : option string) (size : Z) :
  heap w !! s = Some x ->
  is_some (obex x) = true ->
  pending x <> [] ->
  reg env = Some (p, size) ->
  0 <= set_file_ret env ->
  0 < refcount x < 2 ^ 31 - 1 ->
  let t := next_transfer w in
  exists w',
    obc_session_send env s filename targetname w = Some (0, w')
    /\ heap w' = <[s := set_refcount (refcount x + 1) (set_pending (pending x ++ [t]) x)]>
                   (heap w)
    /\ transfers w' = <[t := {| xfer_path := p; xfer_size := size;
                                xfer_started := None |}]> (transfers w)
    /\ idle w' = idle w
    /\ trace w'
       = trace w ++ [TransferRegister t (obc_agent_get_name (agent x)) filename
                       targetname None;
                     TransferSetFile t (set_file_ret env)].
Proof.
  intros Hs Ho Hp Hr Hf Hrc t. subst t.
  unfold obc_session_send, obc_transfer_register, obc_session_add_transfer,
    obc_session_ref.
  rewrite Hr. destruct (Z.ltb_spec (set_file_ret env) 0) as [?|_]; [lia|].
  destruct (pending x) as [|h tl] eqn:Hq; [done|].
  mrun. rewrite Hq. mrun. rewrite gint_small by lia.
  eexists. split; [reflexivity|]. wfields.
  rewrite insert_insert_eq, <- app_assoc. repeat split. by rewrite Hq.
Qed.

Lemma send_behind_queue_waits_witness :
  let w := state_after run_first_get in
  let x := session_at w 1%nat in
  let t := next_transfer w in
  exists w',
    obc_session_send plain 1%nat (Some "/tmp/a.jpg") (Some "a.jpg") w = Some (0, w')
    /\ heap w' = <[1%nat := set_refcount (refcount x + 1)
                              (set_pending (pending x ++ [t]) x)]> (heap w)
    /\ transfers w' = <[t := {| xfer_path := None; xfer_size := 10;
                                xfer_started := None |}]> (transfers w)
    /\ idle w' = idle w
    /\ trace w'
       = trace w ++ [TransferRegister t (obc_agent_get_name (agent x)) (Some "/tmp/a.jpg")
                       (Some "a.jpg") None;
                     TransferSetFile t (set_file_ret plain)].
Proof.
  intros w x.
  apply (send_behind_queue_waits w 1%nat x plain (Some "/tmp/a.jpg") (Some "a.jpg")
           None 10).
  - vm_compute; reflexivity.
  - vm_compute; reflexivity.
  - vm_compute. discriminate.
  - reflexivity.
  - vm_compute. discriminate.
  - vm_compute. split; reflexivity.
Defined.

(** X15: when the agent cannot be asked ([obc_agent_request] fails),
    [obc_session_get] and [obc_session_pull] return its error and
    unregister the transfer they had registered; the queue and the
    reference count are as before, but the completion function of the
    failed request has already replaced the one the session had. *)
Theorem request_failure_unregisters (w : world) (s : addr) (x : obc_session)
    (env : op_env) (type filename targetname : option string)
    (apparam : option (list Z)) (f : nat) (user_data : nat) (a : obc_agent)
    (p : string) (size : Z) :
  heap w !! s = Some x ->
  is_some (obex x) = true ->
  agent x = Some a ->
  reg env = Some (Some p, size) ->
  op_request_ret env < 0 ->
  transfers w !! next_transfer w = None ->
  let t := next_transfer w in
  let pd cb := {| pd_cb := cb; pd_session := s; pd_transfer := t |} in
  let after reg_filename reg_targetname :=
    with_heap (<[s := set_callback (Some {| sc_func := f; sc_data := user_data |}) x]>
                 (heap w))
      (with_next_transfer (S t)
         (with_trace
            (trace w ++ [TransferRegister t (Some (agent_name a)) reg_filename
                           reg_targetname type;
                         AgentRequest a p (pd session_prepare_get_cb) (op_request_ret env);
                         TransferUnregister t]) w)) in
  obc_session_get env s type filename targetname apparam (Some f) user_data w
    = Some (op_request_ret env, after filename targetname)
  /\ obc_session_pull env s type filename (Some f) user_data w
     = Some (op_request_ret env, after None filename).
Proof.
  intros Hs Ho Ha Hr Hneg Hfresh t pd after. subst t pd after.
  unfold obc_session_get, obc_session_pull, obc_transfer_register, session_request,
    obc_transfer_get_path, obc_transfer_unregister, obc_agent_get_name.
  rewrite Hr.
  assert (Hlt : (op_request_ret env <? 0) = true) by (apply Z.ltb_lt; lia).
  assert (Hne : (op_request_ret env =? 0) = false) by (apply Z.eqb_neq; lia).
  split; mrun; weq; rewrite ?delete_insert_eq, <- ?app_assoc; try reflexivity;
    by apply delete_id.
Qed.

Lemma request_failure_unregisters_witness :
  let w := state_after run_with_agent in
  let x := session_at w 1%nat in
  let env := {| reg := Some (Some "/org/openobex/transfer0", 10); set_file_ret := 0;
                op_request_ret := - EIO |} in
  let a := {| agent_name := ":1.5"; agent_path := "/agent" |} in
  let t := next_transfer w in
  let pd cb := {| pd_cb := cb; pd_session := 1%nat; pd_transfer := t |} in
  let after reg_filename reg_targetname :=
    with_heap (<[1%nat := set_callback (Some {| sc_func := 200%nat; sc_data := 0%nat |}) x]>
                 (heap w))
      (with_next_transfer (S t)
         (with_trace
            (trace w ++ [TransferRegister t (Some (agent_name a)) reg_filename
                           reg_targetname (Some "x-bt/vcard");
                         AgentRequest a "/org/openobex/transfer0"
                           (pd session_prepare_get_cb) (op_request_ret env);
                         TransferUnregister t]) w)) in
  obc_session_get env 1%nat (Some "x-bt/vcard") (Some "card.vcf") None None
      (Some 200%nat) 0%nat w
    = Some (op_request_ret env, after (Some "card.vcf") None)
  /\ obc_session_pull env 1%nat (Some "x-bt/vcard") (Some "card.vcf") (Some 200%nat)
       0%nat w
     = Some (op_request_ret env, after None (Some "card.vcf")).
Proof.
  intros w x env a.
  apply (request_failure_unregisters w 1%nat x env (Some "x-bt/vcard") (Some "card.vcf")
           None None 200%nat 0%nat a "/org/openobex/transfer0" 10).
  - vm_compute; reflexivity.
  - vm_compute; reflexivity.
  - vm_compute; reflexivity.
  - reflexivity.
  - vm_compute; reflexivity.
  - vm_compute; reflexivity.
Defined.

(** *** Progress and termination of a transfer *)

(** X16: a progress report that is neither an error nor the last one
    (the count differs from the size of the transfer) is passed on to
    the agent, if the session has one and the transfer has a path, and
    does nothing else: the queue, the reference count and the transfer
    stay as they are and the completion function is not called. *)
Theorem progress_only_notifies (agent_ret : Z) (w : world) (s : addr) (x : obc_session)
    (t : transfer) (i : xfer) (transferred : Z) :
  heap w !! s = Some x ->
  transfers w !! t = Some i ->
  transferred <> xfer_size i ->
  transfer_progress agent_ret t transferred None s w
  = Some (tt,
          match agent x, xfer_path i with
          | Some a, Some p =>
              with_trace (trace w ++ [AgentNotifyProgress a p transferred]) w
          | _, _ => w
          end).
Proof.
  intros Hs Ht Hne.
  unfold transfer_progress, session_notify_progress, obc_transfer_get_path,
    obc_transfer_get_size.
  apply Z.eqb_neq in Hne.
  destruct (agent x) eqn:Ha, (xfer_path i) eqn:Hp; mrun; rewrite ?Hp; mrun; reflexivity.
Qed.

Lemma progress_only_notifies_witness :
  let w := state_after run_first_get in
  transfer_progress 0 1%nat 4 None 1%nat w
  = Some (tt,
          match agent (session_at w 1%nat), xfer_path (xfer_at w 1%nat) with
          | Some a, Some p => with_trace (trace w ++ [AgentNotifyProgress a p 4]) w
          | _, _ => w
          end).
Proof.
  intros w.
  apply (progress_only_notifies 0 w 1%nat (session_at w 1%nat) 1%nat (xfer_at w 1%nat) 4).
  - vm_compute; reflexivity.
  - vm_compute; reflexivity.
  - vm_compute. discriminate.
Defined.

Lemma g_slist_find_in (l : list nat) (t : nat) : t ∈ l -> g_slist_find l t = true.
Proof.
  intros H. unfold g_slist_find. apply existsb_exists. exists t.
  split; [by apply list_elem_of_In|apply Nat.eqb_refl].
Qed.

(** [session_terminate_transfer] on a session with a completion
    function. *)
Lemma run_terminate_callback agent_ret w s x t i cb gerr :
  heap w !! s = Some x ->
  transfers w !! t = Some i ->
  callback x = Some cb ->
  t ∈ pending x ->
  1 < refcount x < 2 ^ 31 - 1 ->
  session_terminate_transfer agent_ret s t gerr w
  = Some (tt,
          with_heap (<[s := set_refcount (refcount x - 1)
                              (set_pending (g_slist_remove (pending x) t) x)]> (heap w))
            (with_trace
               (trace w ++ [Callback (sc_func cb) s gerr (sc_data cb);
                            TransferUnregister t])
               (with_transfers (delete t (transfers w)) w))).
Proof.
  intros Hs Ht Hcb Hin Hrc. unfold session_terminate_transfer.
  rewrite (bind_run _ _ w x w) by (unfold load; by rewrite Hs).
  rewrite Hcb.
  rewrite (bind_run _ _ _ _ _ (run_ref w s x Hs ltac:(lia))).
  unfold emit at 1, bind at 1.
  set (w1 := with_trace _ _).
  assert (Hs1 : heap w1 !! s = Some (set_refcount (refcount x + 1) x))
    by (subst w1; wfields; apply lookup_insert_eq).
  rewrite (bind_run _ _ w1 _ w1) by (unfold load; by rewrite Hs1).
  cbn [pending set_refcount]. rewrite (g_slist_find_in _ _ Hin). cbn [when].
  rewrite (bind_run _ _ _ _ _
             (run_remove_transfer w1 s _ t i Hs1 ltac:(subst w1; wfields; done)
                ltac:(cbn; lia))).
  set (w2 := with_heap _ _).
  rewrite (run_unref_keep w2 s
             (set_refcount (refcount x + 1 - 1)
                (set_pending (g_slist_remove (pending x) t) (set_refcount (refcount x + 1) x))))
    by (subst w2; wfields; cbn; first [apply lookup_insert_eq | lia]).
  subst w2 w1. weq; try reflexivity.
  - rewrite !insert_insert_eq. f_equal. clear. destruct x.
    unfold set_refcount, set_pending; cbn. f_equal. lia.
  - by rewrite <- app_assoc.
Qed.

(** What the agent is told when a transfer ends. *)
Definition final_notifications (x : obc_session) (i : xfer) (transferred : Z)
    (err : option GError) : list event :=
  match agent x, xfer_path i with
  | Some a, Some p =>
      match err with
      | Some e => [AgentNotifyError a p (message e)]
      | None => [AgentNotifyProgress a p transferred; AgentNotifyComplete a p]
      end
  | _, _ => []
  end.

(** X17: on a session that has a completion function, the end of a
    queued transfer (a progress report carrying an error, or one whose
    count equals the size) is told to the agent and then to the
    completion function, exactly once and with the error of the report;
    the transfer leaves the queue, is unregistered and gives its
    reference back.  No authorization is asked for the next transfer of
    the queue. *)
Theorem transfer_end_reaches_callback (agent_ret : Z) (w : world) (s : addr)
    (x : obc_session) (t : transfer) (i : xfer) (cb : session_callback)
    (transferred : Z) (err : option GError) :
  heap w !! s = Some x ->
  transfers w !! t = Some i ->
  callback x = Some cb ->
  t ∈ pending x ->
  1 < refcount x < 2 ^ 31 - 1 ->
  is_some err = true \/ transferred = xfer_size i ->
  transfer_progress agent_ret t transferred err s w
  = Some (tt,
          with_heap (<[s := set_refcount (refcount x - 1)
                              (set_pending (g_slist_remove (pending x) t) x)]> (heap w))
            (with_trace
               (trace w ++ final_notifications x i transferred err
                ++ [Callback (sc_func cb) s err (sc_data cb); TransferUnregister t])
               (with_transfers (delete t (transfers w)) w))).
Proof.
  intros Hs Ht Hcb Hin Hrc Hend.
  assert (Hterm : forall tr gerr,
    session_terminate_transfer agent_ret s t gerr (with_trace tr w)
    = Some (tt,
            with_heap (<[s := set_refcount (refcount x - 1)
                                (set_pending (g_slist_remove (pending x) t) x)]> (heap w))
              (with_trace
                 (tr ++ [Callback (sc_func cb) s gerr (sc_data cb); TransferUnregister t])
                 (with_transfers (delete t (transfers w)) w)))).
  { intros tr gerr.
    rewrite (run_terminate_callback agent_ret (with_trace tr w) s x t i cb gerr);
      done. }
  assert (Hsame : session_terminate_transfer agent_ret s t err w
    = Some (tt,
            with_heap (<[s := set_refcount (refcount x - 1)
                                (set_pending (g_slist_remove (pending x) t) x)]> (heap w))
              (with_trace
                 (trace w ++ [Callback (sc_func cb) s err (sc_data cb);
                              TransferUnregister t])
                 (with_transfers (delete t (transfers w)) w))))
    by (by apply (run_terminate_callback agent_ret w s x t i)).
  unfold transfer_progress, session_notify_error, session_notify_progress,
    session_notify_complete, obc_transfer_get_path, obc_transfer_get_size,
    final_notifications.
  destruct err as [e|].
  - destruct (agent x) eqn:Ha, (xfer_path i) eqn:Hp; mrun; rewrite ?Hp; mrun;
      rewrite ?Hterm, ?Hsame, <- ?app_assoc; reflexivity.
  - destruct Hend as [?|Hsize]; [done|]. apply Z.eqb_eq in Hsize.
    destruct (agent x) eqn:Ha, (xfer_path i) eqn:Hp; mrun; rewrite ?Hp; mrun;
      rewrite ?Ha, ?Hp; mrun;
      rewrite ?with_trace_twice, ?Hterm, ?Hsame, <- ?app_assoc; reflexivity.
Qed.

Lemma transfer_end_reaches_callback_witness :
  let w := state_after run_first_get in
  let x := session_at w 1%nat in
  let i := xfer_at w 1%nat in
  let cb := {| sc_func := 200%nat; sc_data := 0%nat |} in
  transfer_progress 0 1%nat 10 None 1%nat w
  = Some (tt,
          with_heap (<[1%nat := set_refcount (refcount x - 1)
                                  (set_pending (g_slist_remove (pending x) 1%nat) x)]>
                       (heap w))
            (with_trace
               (trace w ++ final_notifications x i 10 None
                ++ [Callback (sc_func cb) 1%nat None (sc_data cb);
                    TransferUnregister 1%nat])
               (with_transfers (delete 1%nat (transfers w)) w))).
Proof.
  intros w x i cb.
  apply (transfer_end_reaches_callback 0 w 1%nat x 1%nat i cb 10 None).
  - vm_compute; reflexivity.
  - vm_compute; reflexivity.
  - vm_compute; reflexivity.
  - change (1%nat ∈ [1%nat]). by apply list_elem_of_singleton.
  - vm_compute. split; reflexivity.
  - right. vm_compute; reflexivity.
Defined.



(** *** The end of the handshake *)

(** X19: when the CONNECT response is a success, [connect_cb] calls the
    caller's function once, without error, and gives back the reference
    of the connect request; the session keeps its handle and its place in
    the registry. *)
Theorem connect_cb_success (w : world) (callback : callback_data) (x : obc_session)
    (f : nat) :
  let s := cd_session callback in
  heap w !! s = Some x ->
  cd_func callback = Some f ->
  1 < refcount x <= 2 ^ 31 ->
  connect_cb None G_OBEX_RSP_SUCCESS callback w
  = Some (tt,
          with_heap (<[s := set_refcount (refcount x - 1) x]> (heap w))
            (with_trace (trace w ++ [Callback f s None (cd_data callback)]) w)).
Proof.
  intros s Hs Hf Hrc. subst s. unfold connect_cb, call_func. rewrite Hf.
  change (G_OBEX_RSP_SUCCESS =? G_OBEX_RSP_SUCCESS) with true. cbv iota.
  unfold emit, bind.
  by rewrite (run_unref_keep (with_trace _ w) _ x Hs Hrc).
Qed.

Lemma connect_cb_success_witness :
  let w := state_after run_handshake in
  let x := session_at w 1%nat in
  connect_cb None G_OBEX_RSP_SUCCESS the_connect w
  = Some (tt,
          with_heap (<[1%nat := set_refcount (refcount x - 1) x]> (heap w))
            (with_trace (trace w ++ [Callback 100%nat 1%nat None 0%nat]) w)).
Proof.
  intros w x. apply (connect_cb_success w the_connect x 100%nat).
  - vm_compute; reflexivity.
  - reflexivity.
  - vm_compute. split; [reflexivity|discriminate].
Defined.

(** *** The object path *)

(** The path [obc_session_register] builds from the counter. *)
Definition session_path (n : Z) : string := SESSION_BASEPATH +:+ "/session" +:+ pretty n.

(** The calls of [obc_session_register] on a session without path. *)
Definition register_calls (register_ok : bool) (probe_ret : Z) (s : addr)
    (x : obc_session) (p : string) : list event :=
  [RegisterInterface p register_ok]
  ++ (if register_ok && probe (driver x) then
        [DriverProbe s probe_ret]
        ++ (if probe_ret <? 0 then [UnregisterInterface (Some p)] else [])
      else []).

(** X20: [obc_session_register] on a session without path builds the
    path from the counter and advances the counter, whether or not the
    registration succeeds.  If the interface cannot be registered, or
    the driver's probe fails (the interface is then unregistered again),
    it returns [NULL] and the session has no path; otherwise it returns
    the path, and every later call returns the same path without
    registering anything or touching the counter. *)
Theorem register_outcome (register_ok : bool) (probe_ret : Z) (w : world) (s : addr)
    (x : obc_session) :
  heap w !! s = Some x ->
  path x = None ->
  let p := session_path (counter w) in
  let ok := register_ok && negb (probe (driver x) && (probe_ret <? 0)) in
  exists w',
    obc_session_register register_ok probe_ret s w
    = Some (if ok then Some p else None, w')
    /\ heap w' = <[s := set_path (if ok then Some p else None) x]> (heap w)
    /\ counter w' = (counter w + 1) mod 2 ^ 64
    /\ trace w' = trace w ++ register_calls register_ok probe_ret s x p
    /\ sessions w' = sessions w
    /\ (ok = true ->
        forall again_ok again_ret,
          obc_session_register again_ok again_ret s w' = Some (Some p, w')).
Proof.
  intros Hs Hp p ok. subst p ok.
  unfold obc_session_register, register_calls, session_path.
  destruct register_ok; [destruct (probe (driver x)) eqn:Hpr;
                         [destruct (probe_ret <? 0) eqn:Hneg|]|];
    mrun; rewrite ?Hpr; mrun;
    (eexists; split; [reflexivity|]; wfields;
     rewrite ?insert_insert_eq, <- ?app_assoc; repeat split; try done;
     intros _ again_ok again_ret; mrun; reflexivity).
Qed.

Lemma register_outcome_witness :
  let w := state_after run_connected in
  let x := session_at w 1%nat in
  let p := session_path (counter w) in
  let ok := true && negb (probe (driver x) && (0 <? 0)) in
  exists w',
    obc_session_register true 0 1%nat w = Some (if ok then Some p else None, w')
    /\ heap w' = <[1%nat := set_path (if ok then Some p else None) x]> (heap w)
    /\ counter w' = (counter w + 1) mod 2 ^ 64
    /\ trace w' = trace w ++ register_calls true 0 1%nat x p
    /\ sessions w' = sessions w
    /\ (ok = true ->
        forall again_ok again_ret,
          obc_session_register again_ok again_ret 1%nat w' = Some (Some p, w')).
Proof.
  intros w x. apply (register_outcome true 0 w 1%nat x).
  - vm_compute; reflexivity.
  - vm_compute; reflexivity.
Defined.

End SessionMore.

(** ** Further facts about [bt_string2uuid] *)

Module UuidMore.
Import Uuid UuidFacts.

Lemma byte_of_range x i : 0 <= byte_of x i < 256.
Proof.
  unfold byte_of. change 255 with (Z.ones 8). rewrite Z.land_ones by lia.
  apply Z.mod_pos_bound. lia.
Qed.

(** X21: [bt_string2uuid] has two outcomes only, and they do not depend
    on the byte order of the host: either it returns 0 with a value of
    sixteen bytes, each between 0 and 255, or it returns -EINVAL and
    produces no value. *)
Theorem bt_string2uuid_host_independent (s : string) :
  bt_string2uuid true s = bt_string2uuid false s
  /\ match bt_string2uuid true s with
     | (r, Some val) =>
         r = 0 /\ length val = 16%nat /\ Forall (fun b => 0 <= b < 256) val
     | (r, None) => r = - EINVAL
     end.
Proof.
  unfold bt_string2uuid.
  destruct (sscanf uuid_format s) as [|? [|? [|? [|? [|? [|? [|? l]]]]]]]; try done.
  rewrite !repr32_htonl, !repr16_htons. split; [reflexivity|].
  split; [reflexivity|]. split; [reflexivity|].
  repeat (apply Forall_cons; split; [apply byte_of_range|]). constructor.
Qed.

End UuidMore.

(** ** Further facts about bluetooth.c *)

Module BluetoothMore.
Import Bluetooth BluetoothFacts.
Local Open Scope bt_scope.

(** *** Starting a connection *)

(** X22: [bluetooth_connect] without destination or without memory
    returns 0 and changes nothing.  When the system bus cannot be set up
    or the adapter lookup cannot be sent, it returns 0 as well and no
    connection is registered, but an id has been used up; the bus
    connection obtained before a failed lookup is not given back. *)
Theorem connect_failure_registers_nothing (env : bt_env) (w : world)
    (source destination service : option string) (port : Z) (func : option nat)
    (user_data : nat) :
  destination = None \/ session_alloc env = false \/ system_bus env = None
  \/ lookup env = SendFailed ->
  bluetooth_connect env source destination service port func user_data w
  = Some (0,
          if is_some destination && session_alloc env
          then with_next_id ((next_id w + 1) mod 2 ^ 32) w
          else w).
Proof.
  intros Hwhy. unfold bluetooth_connect, send_method_call.
  destruct destination as [d|]; [|done].
  destruct (session_alloc env); [|done].
  destruct (system_bus env) as [c|]; [|done].
  destruct (lookup env); [by destruct source|].
  by destruct Hwhy as [?|[?|[?|?]]].
Qed.

Lemma connect_failure_registers_nothing_witness :
  let env := {| session_alloc := true; system_bus := Some 7%nat; lookup := SendFailed |} in
  bluetooth_connect env None (Some "AA:BB:CC:DD:EE:FF")
    (Some "00001105-0000-1000-8000-00805f9b34fb") 9 (Some 50%nat) 0%nat startup
  = Some (0,
          if is_some (Some "AA:BB:CC:DD:EE:FF") && session_alloc env
          then with_next_id ((next_id startup + 1) mod 2 ^ 32) startup
          else startup).
Proof.
  intros env. apply (connect_failure_registers_nothing env startup).
  right. right. right. reflexivity.
Defined.

(** The adapter lookup [bluetooth_connect] sends. *)
Definition lookup_call (conn c : nat) (source : option string) : event :=
  MethodCall (Some conn) BT_PATH BT_MANAGER_IFACE
    (match source with Some _ => "FindAdapter" | None => "DefaultAdapter" end)
    source (Some (manager_reply_fn, c)).

(** X23: when the lookup is sent, [bluetooth_connect] registers a new
    connection at the head of the registry, with the lookup as its only
    pending call, and returns its id, the successor of the last id
    given.  The id is 0, the value that tells failure, only when the
    counter wraps around.  The port the caller asked for is not stored:
    the port of the new connection is 0 whatever [port] is. *)
Theorem connect_success_registers (env : bt_env) (w : world) (source : option string)
    (destination : string) (service : option string) (port : Z) (func : option nat)
    (user_data : nat) (conn c : nat) :
  session_alloc env = true ->
  system_bus env = Some conn ->
  lookup env = SendOk c ->
  0 <= next_id w < 2 ^ 32 ->
  let new_id := (next_id w + 1) mod 2 ^ 32 in
  let s := next_addr w in
  exists w' x,
    bluetooth_connect env source (Some destination) service port func user_data w
    = Some (new_id, w')
    /\ (new_id = 0 <-> next_id w = 2 ^ 32 - 1)
    /\ sessions w' = s :: sessions w
    /\ heap w' = <[s := x]> (heap w)
    /\ id x = new_id /\ Bluetooth.port x = 0 /\ pending_calls x = [{| call := c |}]
    /\ dst x = destination /\ src x = default BDADDR_ANY source
    /\ Bluetooth.func x = func /\ adapter x = None /\ io x = None /\ sdp x = None
    /\ next_id w' = new_id
    /\ trace w' = trace w ++ [lookup_call conn c source].
Proof.
  intros Ha Hb Hl Hid new_id s. subst new_id s.
  unfold bluetooth_connect, send_method_call, lookup_call. rewrite Ha, Hb, Hl.
  assert (Hwrap : (next_id w + 1) mod 2 ^ 32 = 0 <-> next_id w = 2 ^ 32 - 1).
  { destruct (Z.eq_dec (next_id w) (2 ^ 32 - 1)) as [->|Hne]; [done|].
    rewrite Z.mod_small by lia. lia. }
  destruct source as [src0|]; mrun;
    (eexists; eexists; split; [reflexivity|]; wfields; cbn; repeat split;
     apply Hwrap).
Qed.

Lemma connect_success_registers_witness :
  let env := {| session_alloc := true; system_bus := Some 7%nat; lookup := SendOk 10%nat |} in
  let w := startup in
  let new_id := (next_id w + 1) mod 2 ^ 32 in
  let s := next_addr w in
  exists w' x,
    bluetooth_connect env None (Some "AA:BB:CC:DD:EE:FF")
      (Some "00001105-0000-1000-8000-00805f9b34fb") 9 (Some 50%nat) 0%nat w
    = Some (new_id, w')
    /\ (new_id = 0 <-> next_id w = 2 ^ 32 - 1)
    /\ sessions w' = s :: sessions w
    /\ heap w' = <[s := x]> (heap w)
    /\ id x = new_id /\ Bluetooth.port x = 0 /\ pending_calls x = [{| call := 10%nat |}]
    /\ dst x = "AA:BB:CC:DD:EE:FF" /\ src x = default BDADDR_ANY None
    /\ Bluetooth.func x = Some 50%nat /\ adapter x = None /\ io x = None /\ sdp x = None
    /\ next_id w' = new_id
    /\ trace w' = trace w ++ [lookup_call 7%nat 10%nat None].
Proof.
  intros env w.
  apply (connect_success_registers env w None "AA:BB:CC:DD:EE:FF"
           (Some "00001105-0000-1000-8000-00805f9b34fb") 9 (Some 50%nat) 0%nat
           7%nat 10%nat); try reflexivity.
  vm_compute. split; [discriminate|reflexivity].
Defined.

(** X24: [session_connect] goes by the stored port: with port 0, as on
    every connection made by [bluetooth_connect], it never connects
    RFCOMM directly but opens an SDP connection to look the channel up;
    it fails with -ENOMEM, and watches nothing, when the SDP connection
    or its channel object cannot be made, closing the SDP connection it
    had in the second case. *)
Theorem session_connect_searches (env : connect_env) (w : world) (s : addr)
    (x : bluetooth_session) :
  heap w !! s = Some x ->
  port x = 0 ->
  let found := is_some (sdp_out env) && is_some (io_out env) in
  exists w',
    session_connect env s w = Some (if found then 0 else - ENOMEM, w')
    /\ trace w'
       = trace w ++ SdpConnect (src x) (dst x) (sdp_out env)
           :: (if found then [IoAddWatch (io_out env) service_callback_fn s]
               else if is_some (sdp_out env) then [SdpClose (sdp_out env)] else [])
    /\ heap w'
       = <[s := if found then set_sdp (sdp_out env) (set_io (io_out env) x)
                else set_sdp None x]> (heap w)
    /\ sessions w' = sessions w.
Proof.
  intros Hs Hp found. subst found. unfold session_connect, service_connect.
  rewrite (bt_bind_run _ _ w x w) by (unfold load; by rewrite Hs).
  rewrite Hp. change (0 <? 0) with false. cbv iota.
  destruct (sdp_out env) as [d|] eqn:Hd; [destruct (io_out env) as [i|] eqn:Hi|];
    mrun; (eexists; split; [reflexivity|]; wfields;
           rewrite ?insert_insert_eq, <- ?app_assoc; repeat split).
Qed.

Lemma session_connect_searches_witness :
  let w := state_after connect_opp in
  let x := session_at w 1%nat in
  let found := is_some (sdp_out sdp_sockets) && is_some (io_out sdp_sockets) in
  exists w',
    session_connect sdp_sockets 1%nat w = Some (if found then 0 else - ENOMEM, w')
    /\ trace w'
       = trace w ++ SdpConnect (src x) (dst x) (sdp_out sdp_sockets)
           :: (if found then [IoAddWatch (io_out sdp_sockets) service_callback_fn 1%nat]
               else if is_some (sdp_out sdp_sockets) then [SdpClose (sdp_out sdp_sockets)]
                    else [])
    /\ heap w'
       = <[1%nat := if found then set_sdp (sdp_out sdp_sockets)
                                    (set_io (io_out sdp_sockets) x)
                    else set_sdp None x]> (heap w)
    /\ sessions w' = sessions w.
Proof.
  intros w x. apply (session_connect_searches sdp_sockets w 1%nat x).
  - vm_compute; reflexivity.
  - vm_compute; reflexivity.
Defined.

(** *** Disconnecting *)

Lemma run_disconnect_in_unknown release (i : Z) w l :
  Forall (fun s' => exists x', heap w !! s' = Some x' /\ id x' <> i) l ->
  disconnect_in release l i w = Some (tt, w).
Proof.
  induction 1 as [|s' l (x' & Hs' & Hne) _ IH]; [done|].
  cbn [disconnect_in]. rewrite (bt_bind_run _ _ w x' w) by (unfold load; by rewrite Hs').
  by destruct (Z.eqb_spec (id x') i).
Qed.

(** X25: [bluetooth_disconnect] for an id no registered connection has
    (an id never given, 0, or the id of a connection already destroyed)
    does nothing. *)
Theorem disconnect_unknown_id (release : send_outcome) (i : Z) (w : world) :
  Forall (fun s' => exists x', heap w !! s' = Some x' /\ id x' <> i) (sessions w) ->
  bluetooth_disconnect release i w = Some (tt, w).
Proof.
  intros H. unfold bluetooth_disconnect, the_world, bind.
  by apply run_disconnect_in_unknown.
Qed.

Lemma disconnect_unknown_id_witness :
  bluetooth_disconnect (SendOk 0%nat) 0 (state_after connect_opp)
  = Some (tt, state_after connect_opp).
Proof.
  apply (disconnect_unknown_id (SendOk 0%nat) 0 (state_after connect_opp)).
  change (sessions (state_after connect_opp)) with [1%nat].
  constructor; [|constructor].
  exists (session_at (state_after connect_opp) 1%nat).
  split; [vm_compute; reflexivity|vm_compute; discriminate].
Defined.

(** X26: [bluetooth_disconnect] for the id of a registered connection
    destroys that connection: it leaves the registry and the heap, the
    adapter session is released if an adapter was found, every pending
    call is cancelled (unless completed) and dropped, the channel is shut
    down and the bus connection given back; the caller's function is not
    called.  A later [session_destroy] of the same pointer finds it gone
    from the registry and does nothing. *)
Theorem disconnect_destroys (release : send_outcome) (w : world) (s : addr)
    (x : bluetooth_session) :
  registered w s x ->
  heap w !! s = Some x ->
  exists w',
    bluetooth_disconnect release (id x) w = Some (tt, w')
    /\ heap w' = delete s (heap w)
    /\ sessions w' = remove_addr (sessions w) s
    /\ (s ∉ sessions w')
    /\ trace w' = trace w ++ destroy_calls release (completed w) s x
    /\ forallb (fun e => negb (is_result e)) (destroy_calls release (completed w) s x)
       = true
    /\ session_destroy release s w' = Some (tt, w').
Proof.
  intros Hreg Hs. eexists. split; [by apply run_bluetooth_disconnect|].
  unfold destroyed. wfields. repeat split.
  - by eapply registered_removed.
  - apply forallb_forall. intros e He.
    pose proof (destroy_calls_no_result release (completed w) s x) as Hno.
    rewrite Forall_forall in Hno. rewrite (Hno e); [done|by apply list_elem_of_In].
  - apply run_session_destroy_gone. wfields.
    apply existsb_eqb_false. by eapply registered_removed.
Qed.

Lemma disconnect_destroys_witness :
  let w := state_after run_searching in
  let x := session_at w 1%nat in
  exists w',
    bluetooth_disconnect (SendOk 0%nat) (id x) w = Some (tt, w')
    /\ heap w' = delete 1%nat (heap w)
    /\ sessions w' = remove_addr (sessions w) 1%nat
    /\ (1%nat ∉ sessions w')
    /\ trace w' = trace w ++ destroy_calls (SendOk 0%nat) (completed w) 1%nat x
    /\ forallb (fun e => negb (is_result e))
         (destroy_calls (SendOk 0%nat) (completed w) 1%nat x) = true
    /\ session_destroy (SendOk 0%nat) 1%nat w' = Some (tt, w').
Proof.
  intros w x. apply (disconnect_destroys (SendOk 0%nat) w 1%nat x).
  - exists [], []. split; [reflexivity|]. split; [apply not_elem_of_nil|].
    split; [apply not_elem_of_nil|constructor].
  - vm_compute; reflexivity.
Defined.

(** *** Service discovery *)

(** X27: [process_callback] gives its watch up, and does nothing else,
    when the SDP socket reports an error, a hang-up or an invalid
    descriptor: the connection is not even looked at, so it stays
    registered with its socket, and the caller's function is not called.
    Otherwise it lets the SDP library process the input and keeps the
    watch unless that fails. *)
Theorem process_callback_outcome (process_ret : Z) (cond : condition) (w : world)
    (s : addr) :
  (G_IO_ERR cond || G_IO_HUP cond || G_IO_NVAL cond = true ->
   process_callback process_ret cond s w = Some (false, w))
  /\ (forall x,
      G_IO_ERR cond || G_IO_HUP cond || G_IO_NVAL cond = false ->
      heap w !! s = Some x ->
      process_callback process_ret cond s w
      = Some (negb (process_ret <? 0),
              with_trace (trace w ++ [SdpProcess (sdp x) process_ret]) w)).
Proof.
  unfold process_callback. split.
  - by intros ->.
  - intros x -> Hs. mrun. by destruct (process_ret <? 0).
Qed.

Lemma process_callback_outcome_witness :
  let w := state_after run_searching in
  process_callback 0 hung_up 1%nat w = Some (false, w)
  /\ process_callback 0 writable 1%nat w
     = Some (true, with_trace (trace w ++ [SdpProcess (sdp (session_at w 1%nat)) 0]) w).
Proof.
  intros w. split.
  - apply (proj1 (process_callback_outcome 0 hung_up w 1%nat)). reflexivity.
  - apply (proj2 (process_callback_outcome 0 writable w 1%nat) (session_at w 1%nat)).
    + reflexivity.
    + vm_compute; reflexivity.
Defined.

(** The calls of [search_callback] when a channel was found and the
    RFCOMM connection is on its way. *)
Definition found_calls (s : addr) (x : bluetooth_session) (channel : Z) (io' : nat)
  : list event :=
  [IoCloseOnUnref (io x) false; IoUnref (io x);
   RfcommConnect (src x) (dst x) channel s (Some io'); SdpClose (sdp x)].

(** X28: when the search response is in order and one of its records
    gives an RFCOMM channel, [search_callback] stores the channel as the
    port, drops the SDP channel object without closing its socket,
    starts the RFCOMM connection to that channel, keeps the new channel
    object and closes the SDP connection.  The caller's function is not
    called yet and the connection stays registered. *)
Theorem search_finds_channel (release : send_outcome) (reenters : bool) (w : world)
    (s : addr) (x : bluetooth_session) (rsp : sdp_response) (io' : nat) :
  heap w !! s = Some x ->
  status rsp = 0 ->
  rsp_type rsp = SDP_SVC_SEARCH_ATTR_RSP ->
  seq_scanned rsp <> 0 ->
  seqlen rsp <> 0 ->
  let channel :=
    scan_records (records rsp) (size rsp) (seq_scanned rsp)
      ((size rsp mod 2 ^ 32 - seq_scanned rsp) mod 2 ^ 32) in
  channel <> 0 ->
  search_callback release reenters (Some io') rsp s w
  = Some (tt,
          with_heap (<[s := set_sdp None (set_io (Some io') (set_port channel x))]> (heap w))
            (with_trace (trace w ++ found_calls s x channel io') w)).
Proof.
  intros Hs Hst Hty Hsc Hsl channel Hch. unfold search_callback, rfcomm_connect.
  rewrite Hst, Hty. change (0 =? 0) with true.
  change (SDP_SVC_SEARCH_ATTR_RSP =? SDP_SVC_SEARCH_ATTR_RSP) with true.
  cbn [negb orb].
  apply Z.eqb_neq in Hsc, Hsl, Hch. rewrite Hsc, Hsl. cbn [orb].
  fold channel. rewrite Hch. unfold found_calls.
  mrun. weq; rewrite ?insert_insert_eq, <- ?app_assoc; reflexivity.
Qed.

Lemma search_finds_channel_witness :
  let w := state_after run_searching in
  let x := session_at w 1%nat in
  let rsp :=
    {| rsp_type := SDP_SVC_SEARCH_ATTR_RSP; status := 0; size := 40; seq_scanned := 2;
       seqlen := 38;
       records := [{| extracted := true; recsize := 38; protos := Some 9 |}] |} in
  search_callback (SendOk 0%nat) false (Some 5%nat) rsp 1%nat w
  = Some (tt,
          with_heap (<[1%nat := set_sdp None (set_io (Some 5%nat) (set_port 9 x))]> (heap w))
            (with_trace (trace w ++ found_calls 1%nat x 9 5%nat) w)).
Proof.
  intros w x rsp.
  apply (search_finds_channel (SendOk 0%nat) false w 1%nat x rsp 5%nat);
    first [vm_compute; reflexivity | vm_compute; discriminate].
Defined.

(** X29: the channel the loop of [search_callback] comes to is a
    [uint8_t]: it is below 256; it is 0, which the caller takes for "not
    found", when no record gives a positive port; and when the first
    record does, it is that port modulo 256, so that a port that is a
    multiple of 256 is taken for "not found" as well. *)
Theorem scan_records_channel (recs : list sdp_record) (size scanned bytesleft : Z) :
  0 <= scan_records recs size scanned bytesleft < 256
  /\ (Forall (fun r => match protos r with Some c => c <= 0 | None => True end) recs ->
      scan_records recs size scanned bytesleft = 0)
  /\ (forall r recs' c,
      recs = r :: recs' -> extracted r = true -> recsize r <> 0 ->
      protos r = Some c -> 0 < c ->
      scan_records recs size scanned bytesleft = c mod 256).
Proof.
  split; [|split].
  - revert scanned bytesleft.
    induction recs as [|r recs IH]; intros scanned bytesleft; cbn [scan_records]; [lia|].
    destruct (extracted r); cbn [negb]; [|lia].
    destruct (recsize r =? 0); [lia|].
    destruct (0 <? _); [apply Z.mod_pos_bound; lia|].
    destruct (_ && _); [apply IH|lia].
  - intros Hall. revert scanned bytesleft.
    induction Hall as [|r recs Hr _ IH]; intros scanned bytesleft; cbn [scan_records];
      [done|].
    destruct (extracted r); cbn [negb]; [|done].
    destruct (recsize r =? 0); [done|].
    destruct (protos r) as [c|].
    + destruct (Z.ltb_spec 0 c); [lia|]. destruct (_ && _); [apply IH|done].
    + change (0 <? -1) with false. cbv iota. destruct (_ && _); [apply IH|done].
  - intros r recs' c -> He Hr Hp Hc. cbn [scan_records].
    rewrite He, Hp. cbn [negb]. apply Z.eqb_neq in Hr. rewrite Hr.
    by destruct (Z.ltb_spec 0 c); [|lia].
Qed.

Lemma scan_records_channel_witness :
  let r := {| extracted := true; recsize := 38; protos := Some 256 |} in
  0 <= scan_records [r] 40 2 38 < 256
  /\ scan_records [r] 40 2 38 = 0.
Proof.
  intros r.
  destruct (scan_records_channel [r] 40 2 38) as (Hrange & _ & Hfirst).
  split; [exact Hrange|].
  apply (Hfirst r [] 256); first [reflexivity | discriminate].
Defined.

(** X30: when the SDP socket becomes writable, [service_callback]
    asks for notification, turns the service string into a UUID with
    [bt_string2uuid] and sends the search for exactly these sixteen
    bytes, then hands the socket to [process_callback]; it gives its own
    watch up (it returns FALSE) and leaves the connection as it is.  On
    an invalid descriptor it returns FALSE without looking at the
    connection. *)
Theorem service_callback_searches (release : send_outcome) (reenters : bool)
    (little_endian : bool) (notify_ret search_ret : Z) (io0 : option nat)
    (cond : condition) (w : world) (s : addr) (x : bluetooth_session)
    (string : string) (uuid : list Z) :
  (G_IO_NVAL cond = true ->
   service_callback release reenters little_endian notify_ret search_ret io0 cond s w
   = Some (false, w))
  /\ (G_IO_NVAL cond = false -> G_IO_ERR cond = false ->
      heap w !! s = Some x ->
      service x = Some string ->
      Uuid.bt_string2uuid little_endian string = (0, Some uuid) ->
      0 <= notify_ret -> 0 <= search_ret ->
      service_callback release reenters little_endian notify_ret search_ret io0 cond s w
      = Some (false,
              with_trace
                (trace w ++ [SdpSetNotify (sdp x) s notify_ret;
                             SdpSearch (sdp x) uuid search_ret;
                             IoAddWatch io0 process_callback_fn s]) w)).
Proof.
  unfold service_callback. split.
  - by intros ->.
  - intros -> -> Hs Hsv Hu Hn Hsr.
    assert (Hn' : (notify_ret <? 0) = false) by (apply Z.ltb_ge; lia).
    assert (Hs' : (search_ret <? 0) = false) by (apply Z.ltb_ge; lia).
    mrun. rewrite Hu. mrun. weq; rewrite <- ?app_assoc; reflexivity.
Qed.

Lemma service_callback_searches_witness :
  let w := state_after
             (connect_opp >>
              manager_reply (SendOk 0%nat) false (SendOk 11%nat) 10%nat
                (ReplyArgs (Some "/org/bluez/hci0")) 1%nat >>
              adapter_reply (SendOk 0%nat) false sdp_sockets 11%nat (ReplyArgs None)
                1%nat) in
  let x := session_at w 1%nat in
  let uuid := [0; 0; 17; 5; 0; 0; 16; 0; 128; 0; 0; 128; 95; 155; 52; 251] in
  service_callback (SendOk 0%nat) false true 0 0 (Some 4%nat) writable 1%nat w
  = Some (false,
          with_trace
            (trace w ++ [SdpSetNotify (sdp x) 1%nat 0;
                         SdpSearch (sdp x) uuid 0;
                         IoAddWatch (Some 4%nat) process_callback_fn 1%nat]) w).
Proof.
  intros w x uuid.
  apply (proj2 (service_callback_searches (SendOk 0%nat) false true 0 0 (Some 4%nat)
                  writable w 1%nat x "00001105-0000-1000-8000-00805f9b34fb" uuid));
    first [reflexivity | vm_compute; reflexivity | vm_compute; discriminate].
Defined.

End BluetoothMore.
